(** * RiskGuard deploy/monitor relay: a shallow embedding of
      [backend/routes/deploy.js]

    The route module keeps three module-level [Map]s

    - [activeMonitors]    : agent id -> monitor record (process handle, paths)
    - [monitorUpdates]    : agent id -> array of update objects
    - [sentUpdateIndices] : agent id -> number (last array position sent)

    and registers handlers for the HTTP routes and for the events of the
    spawned child process.  Every handler runs to completion on the single
    JavaScript thread, so each one is a function from state to state (and a
    response).

    Conventions of the embedding:
    - the state holds, next to the three maps, the child processes that the
      monitor records refer to, as Node.js shows them to the routes;
    - a JavaScript string is the Rocq [string] of its UTF-8 bytes;
    - a JavaScript number that holds an array position or a length is a [Z];
    - [Map]s that are only read by key are [gmap]s; [activeMonitors], which
      the stop route iterates in insertion order, is an association list;
    - [new Date().toISOString()] is an argument [now] of the handler that
      calls it. *)

From Stdlib Require Import ZArith Lia Ascii.
From stdpp Require Import base option list strings pretty gmap.

Local Open Scope Z_scope.

(** ** JavaScript helpers *)

Module Js.

(** [Array.prototype.slice(start)] with an integer [start]: a negative
    [start] counts from the end, and the result is clamped to the array. *)
Definition slice_start (start len : Z) : Z :=
  if start <? 0 then Z.max (len + start) 0 else Z.min start len.

Definition slice {A} (l : list A) (start : Z) : list A :=
  drop (Z.to_nat (slice_start start (Z.of_nat (length l)))) l.

(** [x || d] for a number-or-undefined [x]: [undefined] and [0] are falsy. *)
Definition or_default (x : option Z) (d : Z) : Z :=
  match x with
  | None => d
  | Some v => if v =? 0 then d else v
  end.

(** [x || []] for an array-or-undefined [x]: every array is truthy. *)
Definition or_empty {A} (x : option (list A)) : list A :=
  match x with
  | None => []
  | Some l => l
  end.

End Js.

(** ** Data model *)

(** A value produced by [JSON.parse].  Numbers keep their literal text. *)
#[local] Unset Elimination Schemes.
Inductive JsValue : Type :=
| JNull
| JBool (b : bool)
| JNum (literal : string)
| JStr (s : string)
| JArr (items : list JsValue)
| JObj (fields : list (string * JsValue)).
#[local] Set Elimination Schemes.

(** The number stored in a metrics field: [parseInt(text)] or
    [parseFloat(text)] of the captured text.  The conversion to a double is
    not unfolded. *)
Inductive JsNumber : Type :=
| ParseInt (text : string)
| ParseFloat (text : string).

(** The object built by [parseMetricsSection]; an absent key is [None]. *)
Record Metrics : Type := mkMetrics {
  loc : option JsNumber;
  complexity : option JsNumber;
  dependencies : option JsNumber;
  functions : option JsNumber;
  classes : option JsNumber;
  comments : option JsNumber;
  complexity_per_loc : option JsNumber;
  comment_ratio : option JsNumber;
  functions_per_class : option JsNumber
}.

(** The objects pushed on a [monitorUpdates] array, by [type]:
    - [JsonUpdate]: [{...update, timestamp, agentId, deployedLocation}] for a
      decoded line whose [type] is ['file_change'] or ['analysis_result'];
    - [ConsoleOutput]: [type: 'console_output'], with [metrics] when attached;
    - [ErrorUpdate]: [type: 'error'];
    - [MonitorStopped]: [type: 'monitor_stopped']. *)
Inductive Update : Type :=
| JsonUpdate (fields : list (string * JsValue))
    (timestamp agentId deployedLocation : string)
| ConsoleOutput (message timestamp agentId deployedLocation : string)
    (metrics : option Metrics)
| ErrorUpdate (message timestamp agentId : string)
| MonitorStopped (message timestamp agentId : string).

(** An update object that carries a metrics block. *)
Definition carries_metrics (u : Update) : bool :=
  match u with
  | ConsoleOutput _ _ _ _ (Some _) => true
  | _ => false
  end.

Inductive Signal : Type := SIGTERM | SIGKILL.

(** What the route sees of a Node.js [ChildProcess]: whether the operating
    system process has exited, the [killed] flag, and the signals delivered
    to it. *)
Record ChildProcess : Type := mkChildProcess {
  exited : bool;
  killed : bool;
  delivered : list Signal
}.

(** A value of [activeMonitors].  [process] is the handle of the child (its
    key in the process table of the state). *)
Record Monitor : Type := mkMonitor {
  process : string;
  folderPath : string;
  projectName : string;
  deployedFiles : list string;
  startTime : string
}.

Record State : Type := mkState {
  activeMonitors : list (string * Monitor);
  monitorUpdates : gmap string (list Update);
  sentUpdateIndices : gmap string Z;
  processes : gmap string ChildProcess
}.

Definition initial : State :=
  {| activeMonitors := []; monitorUpdates := ∅; sentUpdateIndices := ∅;
     processes := ∅ |}.

Definition set_monitorUpdates (f : gmap string (list Update) → gmap string (list Update))
    (st : State) : State :=
  {| activeMonitors := activeMonitors st;
     monitorUpdates := f (monitorUpdates st);
     sentUpdateIndices := sentUpdateIndices st;
     processes := processes st |}.

Definition set_sentUpdateIndices (f : gmap string Z → gmap string Z)
    (st : State) : State :=
  {| activeMonitors := activeMonitors st;
     monitorUpdates := monitorUpdates st;
     sentUpdateIndices := f (sentUpdateIndices st);
     processes := processes st |}.

Definition set_activeMonitors
    (f : list (string * Monitor) → list (string * Monitor))
    (st : State) : State :=
  {| activeMonitors := f (activeMonitors st);
     monitorUpdates := monitorUpdates st;
     sentUpdateIndices := sentUpdateIndices st;
     processes := processes st |}.

Definition set_processes
    (f : gmap string ChildProcess → gmap string ChildProcess)
    (st : State) : State :=
  {| activeMonitors := activeMonitors st;
     monitorUpdates := monitorUpdates st;
     sentUpdateIndices := sentUpdateIndices st;
     processes := f (processes st) |}.

(** HTTP responses of the routes. *)
Inductive Body : Type :=
| UpdatesBody (updates : list Update)
| StartedBody (agentId folder project : string) (files : list string)
| StoppedBody (agentId : string)
| FailureBody (message : string) (error : option string).

Record Response : Type := mkResponse { status : Z; body : Body }.

(** ** The update log *)

Module UpdateLog.

(** The capacity written in [updates.slice(-50)]. *)
Definition capacity : Z := 50.

(** [updates.slice(-50)]: the last 50 entries. *)
Definition trim (updates : list Update) : list Update :=
  Js.slice updates (- capacity).

(** [updates.push(u); monitorUpdates.set(agentId, updates.slice(-50))] on
    [updates = monitorUpdates.get(agentId) || []], the body shared by the
    stderr, close and error listeners. *)
Definition push (agentId : string) (u : Update) (st : State) : State :=
  let updates := Js.or_empty (monitorUpdates st !! agentId) in
  set_monitorUpdates (λ m, <[agentId := trim (updates ++ [u])]> m) st.

Definition get (agentId : string) (st : State) : list Update :=
  Js.or_empty (monitorUpdates st !! agentId).

End UpdateLog.

(** A run of pushes by the listeners of one agent, oldest first. *)
Definition pushes (agentId : string) (us : list Update) (st : State) : State :=
  fold_left (λ s u, UpdateLog.push agentId u s) us st.

(** ** Strings as the handlers use them *)

Module JsString.

Definition code (c : ascii) : N := Ascii.N_of_ascii c.

Definition chr (n : N) : ascii := Ascii.ascii_of_N n.

(** The line feed character, ['\n']. *)
Definition LF : ascii := chr 10.

(** The one-byte white space and line terminator characters. *)
Definition ws1 (c : ascii) : bool :=
  let n := code c in
  ((9 <=? n) && (n <=? 13) || (n =? 32))%N.

(** U+00A0, encoded on two bytes. *)
Definition ws2 (c0 c1 : ascii) : bool :=
  ((code c0 =? 194) && (code c1 =? 160))%N.

(** U+1680, U+2000..U+200A, U+2028, U+2029, U+202F, U+205F, U+3000 and
    U+FEFF, encoded on three bytes. *)
Definition ws3 (c0 c1 c2 : ascii) : bool :=
  let '(a, b, c) := (code c0, code c1, code c2) in
  ((a =? 225) && (b =? 154) && (c =? 128)
   || (a =? 226) && (b =? 128)
      && ((128 <=? c) && (c <=? 138) || (c =? 168) || (c =? 169) || (c =? 175))
   || (a =? 226) && (b =? 129) && (c =? 159)
   || (a =? 227) && (b =? 128) && (c =? 128)
   || (a =? 239) && (b =? 187) && (c =? 191))%N.

(** Removes the leading white space: [String.prototype.trimStart], and
    what [\s*] consumes in the patterns of [parseMetricsSection]. *)
Fixpoint trim_start (s : string) : string :=
  match s with
  | EmptyString => EmptyString
  | String c0 s1 =>
      if ws1 c0 then trim_start s1 else
      match s1 with
      | EmptyString => s
      | String c1 s2 =>
          if ws2 c0 c1 then trim_start s2 else
          match s2 with
          | EmptyString => s
          | String c2 s3 => if ws3 c0 c1 c2 then trim_start s3 else s
          end
      end
  end.

Definition is_empty (s : string) : bool :=
  match s with EmptyString => true | _ => false end.

(** [!s.trim()]: nothing but white space. *)
Definition is_blank (s : string) : bool := is_empty (trim_start s).

Fixpoint trim_end (s : string) : string :=
  match s with
  | EmptyString => EmptyString
  | String c s' => if is_blank s then EmptyString else String c (trim_end s')
  end.

(** [s.trim()]. *)
Definition trim (s : string) : string := trim_end (trim_start s).

(** [s.includes(t)]. *)
Fixpoint includes (s t : string) : bool :=
  if String.prefix t s then true
  else match s with
       | EmptyString => false
       | String _ s' => includes s' t
       end.

(** [s.split(sep)] for a one-character separator: always at least one
    piece, and an empty last piece when [s] ends with the separator. *)
Fixpoint split (sep : ascii) (s : string) : list string :=
  match s with
  | EmptyString => [EmptyString]
  | String c s' =>
      if Ascii.eqb c sep then EmptyString :: split sep s'
      else match split sep s' with
           | piece :: rest => String c piece :: rest
           | [] => [String c EmptyString]
           end
  end.

(** The longest prefix of characters satisfying [p], and the rest. *)
Fixpoint span (p : ascii → bool) (s : string) : string * string :=
  match s with
  | EmptyString => (EmptyString, EmptyString)
  | String c s' =>
      if p c then let '(a, b) := span p s' in (String c a, b)
      else (EmptyString, s)
  end.

Fixpoint drop_prefix (n : nat) (s : string) : string :=
  match n, s with
  | S n', String _ s' => drop_prefix n' s'
  | _, _ => s
  end.

Definition is_digit (c : ascii) : bool :=
  ((48 <=? code c) && (code c <=? 57))%N.

Definition is_digit_or_dot (c : ascii) : bool :=
  is_digit c || (code c =? 46)%N.

(** The capture of [s.match(/label\s*(cls+)/)] where [cls] is a character
    class disjoint from white space: the leftmost place where [label]
    occurs, followed by any white space and at least one [cls] character;
    the group is the longest run of [cls] characters there. *)
Definition capture_here (label : string) (cls : ascii → bool) (s : string)
    : option string :=
  if String.prefix label s then
    let rest := trim_start (drop_prefix (String.length label) s) in
    let group := fst (span cls rest) in
    if is_empty group then None else Some group
  else None.

Fixpoint capture (label : string) (cls : ascii → bool) (s : string)
    : option string :=
  match capture_here label cls s with
  | Some g => Some g
  | None =>
      match s with
      | EmptyString => None
      | String _ s' => capture label cls s'
      end
  end.

End JsString.

(** ** [JSON.parse] *)

Module JSON.
Import JsString.

(** Insignificant white space of JSON: space, tab, line feed, carriage
    return. *)
Definition is_ws (c : ascii) : bool :=
  let n := code c in ((n =? 32) || (n =? 9) || (n =? 10) || (n =? 13))%N.

Definition skip_ws (s : string) : string := snd (span is_ws s).

Definition hex_digit (c : ascii) : option N :=
  let n := code c in
  if ((48 <=? n) && (n <=? 57))%N then Some (n - 48)%N
  else if ((65 <=? n) && (n <=? 70))%N then Some (n - 55)%N
  else if ((97 <=? n) && (n <=? 102))%N then Some (n - 87)%N
  else None.

(** Four hexadecimal digits, as a code unit. *)
Definition hex4 (s : string) : option (N * string) :=
  match s with
  | String a (String b (String c (String d r))) =>
      match hex_digit a, hex_digit b, hex_digit c, hex_digit d with
      | Some x, Some y, Some z, Some w =>
          Some (((x * 16 + y) * 16 + z) * 16 + w, r)%N
      | _, _, _, _ => None
      end
  | _ => None
  end.

(** UTF-8 bytes of a code point (a lone surrogate is written on three
    bytes like any other code point below U+10000). *)
Definition utf8 (cp : N) : string :=
  (if cp <? 128 then String (chr cp) EmptyString
   else if cp <? 2048 then
     String (chr (192 + cp / 64)) (String (chr (128 + cp mod 64)) EmptyString)
   else if cp <? 65536 then
     String (chr (224 + cp / 4096))
       (String (chr (128 + (cp / 64) mod 64))
          (String (chr (128 + cp mod 64)) EmptyString))
   else
     String (chr (240 + cp / 262144))
       (String (chr (128 + (cp / 4096) mod 64))
          (String (chr (128 + (cp / 64) mod 64))
             (String (chr (128 + cp mod 64)) EmptyString))))%N.

Definition is_high_surrogate (u : N) : bool := ((55296 <=? u) && (u <=? 56319))%N.
Definition is_low_surrogate (u : N) : bool := ((56320 <=? u) && (u <=? 57343))%N.

(** The characters of a string literal after its opening quote, decoded,
    and the text after the closing quote. *)
Fixpoint string_body (fuel : nat) (s : string) : option (string * string) :=
  match fuel with
  | O => None
  | S fuel' =>
      match s with
      | EmptyString => None
      | String c r =>
          if (code c =? 34)%N then Some (EmptyString, r)
          else if (code c <? 32)%N then None
          else if (code c =? 92)%N then
            match r with
            | EmptyString => None
            | String e r1 =>
                let simple (x : N) :=
                  match string_body fuel' r1 with
                  | Some (t, r2) => Some (String (chr x) t, r2)
                  | None => None
                  end in
                let n := code e in
                if (n =? 34)%N then simple 34%N
                else if (n =? 92)%N then simple 92%N
                else if (n =? 47)%N then simple 47%N
                else if (n =? 98)%N then simple 8%N
                else if (n =? 102)%N then simple 12%N
                else if (n =? 110)%N then simple 10%N
                else if (n =? 114)%N then simple 13%N
                else if (n =? 116)%N then simple 9%N
                else if (n =? 117)%N then
                  match hex4 r1 with
                  | None => None
                  | Some (u, r2) =>
                      let pair :=
                        if is_high_surrogate u then
                          match r2 with
                          | String b (String v r3) =>
                              if ((code b =? 92) && (code v =? 117))%N then
                                match hex4 r3 with
                                | Some (l, r4) =>
                                    if is_low_surrogate l then
                                      Some (65536 + (u - 55296) * 1024 + (l - 56320), r4)%N
                                    else None
                                | None => None
                                end
                              else None
                          | _ => None
                          end
                        else None in
                      let '(cp, r') := default (u, r2) pair in
                      match string_body fuel' r' with
                      | Some (t, r'') => Some (utf8 cp +:+ t, r'')
                      | None => None
                      end
                  end
                else None
            end
          else
            match string_body fuel' r with
            | Some (t, r') => Some (String c t, r')
            | None => None
            end
      end
  end.

Definition digits1 (s : string) : option (string * string) :=
  let '(d, r) := span is_digit s in
  if is_empty d then None else Some (d, r).

(** A number literal: its text and the rest. *)
Definition number (s : string) : option (string * string) :=
  let '(sign, s1) :=
    match s with
    | String c r => if (code c =? 45)%N then (String c EmptyString, r) else (EmptyString, s)
    | EmptyString => (EmptyString, s)
    end in
  let int :=
    match s1 with
    | String c r =>
        if (code c =? 48)%N then Some (String c EmptyString, r) else digits1 s1
    | EmptyString => None
    end in
  match int with
  | None => None
  | Some (i, s2) =>
      let frac :=
        match s2 with
        | String c r =>
            if (code c =? 46)%N then
              match digits1 r with
              | Some (d, r') => Some (String c d, r')
              | None => None
              end
            else Some (EmptyString, s2)
        | EmptyString => Some (EmptyString, s2)
        end in
      match frac with
      | None => None
      | Some (f, s3) =>
          let exp :=
            match s3 with
            | String c r =>
                if ((code c =? 101) || (code c =? 69))%N then
                  let '(sg, r1) :=
                    match r with
                    | String p r' =>
                        if ((code p =? 43) || (code p =? 45))%N
                        then (String p EmptyString, r') else (EmptyString, r)
                    | EmptyString => (EmptyString, r)
                    end in
                  match digits1 r1 with
                  | Some (d, r2) => Some (String c (sg +:+ d), r2)
                  | None => None
                  end
                else Some (EmptyString, s3)
            | EmptyString => Some (EmptyString, s3)
            end in
          match exp with
          | None => None
          | Some (e, s4) => Some (sign +:+ i +:+ f +:+ e, s4)
          end
      end
  end.

Definition keyword (word : string) (v : JsValue) (s : string)
    : option (JsValue * string) :=
  if String.prefix word s
  then Some (v, drop_prefix (String.length word) s) else None.

(** One value, after optional white space, and the text that follows. *)
Fixpoint value (fuel : nat) (s : string) : option (JsValue * string) :=
  match fuel with
  | O => None
  | S fuel' =>
      match skip_ws s with
      | EmptyString => None
      | String c r as s0 =>
          let n := code c in
          if (n =? 110)%N then keyword "null" JNull s0
          else if (n =? 116)%N then keyword "true" (JBool true) s0
          else if (n =? 102)%N then keyword "false" (JBool false) s0
          else if (n =? 34)%N then
            match string_body (S (String.length r)) r with
            | Some (t, r') => Some (JStr t, r')
            | None => None
            end
          else if (n =? 91)%N then
            match skip_ws r with
            | String c' r' =>
                if (code c' =? 93)%N then Some (JArr [], r')
                else elements fuel' r []
            | EmptyString => None
            end
          else if (n =? 123)%N then
            match skip_ws r with
            | String c' r' =>
                if (code c' =? 125)%N then Some (JObj [], r')
                else members fuel' r []
            | EmptyString => None
            end
          else
            match number s0 with
            | Some (lit, r') => Some (JNum lit, r')
            | None => None
            end
      end
  end
with elements (fuel : nat) (s : string) (acc : list JsValue)
    : option (JsValue * string) :=
  match fuel with
  | O => None
  | S fuel' =>
      match value fuel' s with
      | None => None
      | Some (v, r) =>
          match skip_ws r with
          | String c r' =>
              if (code c =? 44)%N then elements fuel' r' (acc ++ [v])
              else if (code c =? 93)%N then Some (JArr (acc ++ [v]), r')
              else None
          | EmptyString => None
          end
      end
  end
with members (fuel : nat) (s : string) (acc : list (string * JsValue))
    : option (JsValue * string) :=
  match fuel with
  | O => None
  | S fuel' =>
      match skip_ws s with
      | String q r =>
          if (code q =? 34)%N then
            match string_body (S (String.length r)) r with
            | None => None
            | Some (k, r1) =>
                match skip_ws r1 with
                | String c r2 =>
                    if (code c =? 58)%N then
                      match value fuel' r2 with
                      | None => None
                      | Some (v, r3) =>
                          match skip_ws r3 with
                          | String c' r4 =>
                              if (code c' =? 44)%N
                              then members fuel' r4 (acc ++ [(k, v)])
                              else if (code c' =? 125)%N
                              then Some (JObj (acc ++ [(k, v)]), r4)
                              else None
                          | EmptyString => None
                          end
                      end
                    else None
                | EmptyString => None
                end
            end
          else None
      | EmptyString => None
      end
  end.

(** [JSON.parse(text)]; [None] when it throws a [SyntaxError]. *)
Definition parse (text : string) : option JsValue :=
  match value (2 * String.length text + 2) text with
  | Some (v, r) => if is_empty (skip_ws r) then Some v else None
  | None => None
  end.

(** [o[key]] on a decoded object: of two members with the same key the
    later one is kept. *)
Fixpoint get (key : string) (fields : list (string * JsValue))
    : option JsValue :=
  match fields with
  | [] => None
  | (k, v) :: rest =>
      match get key rest with
      | Some v' => Some v'
      | None => if String.eqb k key then Some v else None
      end
  end.

End JSON.

(** ** GET /monitor-updates/:agentId *)

(** [update.message] of an update object; [None] is [undefined].  The
    object relayed from a decoded line has the members of that line (the
    three keys that the listener adds are not [message]). *)
Definition message_of (u : Update) : option JsValue :=
  match u with
  | JsonUpdate fields _ _ _ => JSON.get "message" fields
  | ConsoleOutput message _ _ _ _ => Some (JStr message)
  | ErrorUpdate message _ _ => Some (JStr message)
  | MonitorStopped message _ _ => Some (JStr message)
  end.

(** Whether [update.message?.substring(0, 50)] of the debug log throws.
    The optional chain stops at [undefined] and [null]; a string has the
    method; any other value has no [substring], and calling it is a
    [TypeError]. *)
Definition log_throws (u : Update) : bool :=
  match message_of u with
  | None | Some JNull | Some (JStr _) => false
  | Some _ => true
  end.

(** The response of the [catch] of the handler. *)
Definition poll_failed : Response :=
  {| status := 500; body := FailureBody "Failed to get monitor updates" None |}.

(** The handler.  The cursor is set before the debug log walks the new
    updates; when the log throws, the [catch] answers 500 and the cursor
    stays where it was set. *)
Definition monitor_updates (agentId : string) (st : State) : Response * State :=
  let allUpdates := Js.or_empty (monitorUpdates st !! agentId) in
  let lastSentIndex := Js.or_default (sentUpdateIndices st !! agentId) (-1) in
  let newUpdates := Js.slice allUpdates (lastSentIndex + 1) in
  let st' :=
    set_sentUpdateIndices
      (λ m, <[agentId := Z.of_nat (length allUpdates) - 1]> m) st in
  if existsb log_throws newUpdates
  then (poll_failed, st')
  else ({| status := 200; body := UpdatesBody newUpdates |}, st').

(** The array in the body of a response. *)
Definition polled (r : Response) : list Update :=
  match body r with
  | UpdatesBody updates => updates
  | _ => []
  end.

(** A poll whose response is all that matters. *)
Definition poll (agentId : string) (st : State) : list Update :=
  polled (fst (monitor_updates agentId st)).


(** ** The stdout listener of [/start-realtime-monitor] *)

Module OutputParser.
Import JsString.

(** The tree-branch prefix of a metric line, with the bytes that the string
    literal has in the source file. *)
Definition marker : string := "â””â”€".

(** The nine keys that [parseMetricsSection] can set, in the order of its
    [if ... else if] chain. *)
Inductive Field : Type :=
| LOC | COMPLEXITY | DEPENDENCIES | FUNCTIONS | CLASSES | COMMENTS
| COMPLEXITY_PER_LOC | COMMENT_RATIO | FUNCTIONS_PER_CLASS.

#[global] Instance Field_eq_dec : EqDecision Field.
Proof. solve_decision. Defined.

Definition fields_in_order : list Field :=
  [LOC; COMPLEXITY; DEPENDENCIES; FUNCTIONS; CLASSES; COMMENTS;
   COMPLEXITY_PER_LOC; COMMENT_RATIO; FUNCTIONS_PER_CLASS].

(** The label that starts the pattern of a field. *)
Definition label (f : Field) : string :=
  match f with
  | LOC => "LOC:"
  | COMPLEXITY => "COMPLEXITY:"
  | DEPENDENCIES => "DEPENDENCIES:"
  | FUNCTIONS => "FUNCTIONS:"
  | CLASSES => "CLASSES:"
  | COMMENTS => "COMMENTS:"
  | COMPLEXITY_PER_LOC => "COMPLEXITY PER LOC:"
  | COMMENT_RATIO => "COMMENT RATIO:"
  | FUNCTIONS_PER_CLASS => "FUNCTIONS PER CLASS:"
  end.

(** [true] for the fields read with [(\d+)] and [parseInt], [false] for
    those read with [([\d.]+)] and [parseFloat]. *)
Definition integral (f : Field) : bool :=
  match f with
  | LOC | DEPENDENCIES | FUNCTIONS | CLASSES | COMMENTS => true
  | COMPLEXITY | COMPLEXITY_PER_LOC | COMMENT_RATIO | FUNCTIONS_PER_CLASS => false
  end.

Definition field_get (f : Field) (m : Metrics) : option JsNumber :=
  match f with
  | LOC => loc m
  | COMPLEXITY => complexity m
  | DEPENDENCIES => dependencies m
  | FUNCTIONS => functions m
  | CLASSES => classes m
  | COMMENTS => comments m
  | COMPLEXITY_PER_LOC => complexity_per_loc m
  | COMMENT_RATIO => comment_ratio m
  | FUNCTIONS_PER_CLASS => functions_per_class m
  end.

Definition field_set (f : Field) (v : JsNumber) (m : Metrics) : Metrics :=
  let 'mkMetrics a b c d e g h i j := m in
  match f with
  | LOC => mkMetrics (Some v) b c d e g h i j
  | COMPLEXITY => mkMetrics a (Some v) c d e g h i j
  | DEPENDENCIES => mkMetrics a b (Some v) d e g h i j
  | FUNCTIONS => mkMetrics a b c (Some v) e g h i j
  | CLASSES => mkMetrics a b c d (Some v) g h i j
  | COMMENTS => mkMetrics a b c d e (Some v) h i j
  | COMPLEXITY_PER_LOC => mkMetrics a b c d e g (Some v) i j
  | COMMENT_RATIO => mkMetrics a b c d e g h (Some v) j
  | FUNCTIONS_PER_CLASS => mkMetrics a b c d e g h i (Some v)
  end.

(** [const metrics = {}]. *)
Definition no_metrics : Metrics :=
  mkMetrics None None None None None None None None None.

(** The branch of the chain that a line takes: the first field whose
    [marker + ' ' + label] the line includes. *)
Definition classify (line : string) : option Field :=
  List.find (λ f, includes line (marker +:+ " " +:+ label f)) fields_in_order.

(** [line.match(...)] of the branch and the number it stores. *)
Definition read_value (f : Field) (line : string) : option JsNumber :=
  if integral f
  then ParseInt <$> capture (label f) is_digit line
  else ParseFloat <$> capture (label f) is_digit_or_dot line.

(** One turn of the [for (const line of lines)] loop. *)
Definition parse_metric_line (metrics : Metrics) (line : string) : Metrics :=
  match classify line with
  | None => metrics
  | Some f =>
      match read_value f line with
      | Some v => field_set f v metrics
      | None => metrics
      end
  end.

Definition has_keys (m : Metrics) : bool :=
  existsb (λ f, bool_decide (is_Some (field_get f m))) fields_in_order.

(** [parseMetricsSection(lines)]; [None] is its [null]. *)
Definition parseMetricsSection (lines : list string) : option Metrics :=
  let metrics := fold_left parse_metric_line lines no_metrics in
  if has_keys metrics then Some metrics else None.

(** The variables that the listeners of one spawned process close over,
    and what the stdout listener prints with
    [console.log('Parsed metrics:', JSON.stringify(metrics))]. *)
Record Listener : Type := mkListener {
  agentId : string;
  absoluteFolderPath : string;
  processStarted : bool;
  bufferLines : list string;
  printedMetrics : list Metrics
}.

Definition new_listener (agentId folder : string) : Listener :=
  {| agentId := agentId; absoluteFolderPath := folder;
     processStarted := false; bufferLines := []; printedMetrics := [] |}.

Definition nonempty {A} (l : list A) : bool := (0 <? Z.of_nat (length l)).

(** [update.type === 'file_change' || update.type === 'analysis_result']. *)
Definition relayed_type (fields : list (string * JsValue)) : bool :=
  match JSON.get "type" fields with
  | Some (JStr t) => String.eqb t "file_change" || String.eqb t "analysis_result"
  | _ => false
  end.

Section Stdout.

(** [JSON.parse] of the runtime; [None] when it throws. *)
Variable JSON_parse : string → option JsValue.

(** The local variables of the listener while it walks the lines of one
    chunk: [updates] (the array taken from the map when the chunk arrived,
    which grows by [push]), the closure variables and the state. *)
Definition Loop : Type := list Update * Listener * State.

(** The [try { JSON.parse(line) ... } catch (parseError) { ... }] block of
    the loop body: the updates it pushes for a line, given the buffered
    lines at that point.  A decoded [null] makes [update.type] throw, which
    the same [catch] turns into console output; any other decoded value
    that is not an object has no [type]. *)
Definition relay (now : string) (l : Listener) (line : string)
    (buffer : list string) : list Update :=
  match JSON_parse line with
  | None | Some JNull =>
      [ConsoleOutput line now (agentId l) (absoluteFolderPath l)
         (if includes line "EXTRACTED FEATURES" && nonempty buffer
          then parseMetricsSection buffer else None)]
  | Some (JObj fields) =>
      if relayed_type fields
      then [JsonUpdate fields now (agentId l) (absoluteFolderPath l)]
      else []
  | Some _ => []
  end.

(** The body of [lines.forEach((line, idx) => { ... })]. *)
Definition on_line (now : string) (acc : Loop) (line : string) : Loop :=
  let '(updates, l, st) := acc in
  (* if (line.includes(marker)) bufferLines.push(line) *)
  let buffer1 :=
    if includes line marker then bufferLines l ++ [line] else bufferLines l in
  (* end of a metrics section: parse, print, clear *)
  let flush :=
    nonempty buffer1 && negb (includes line marker) && negb (is_blank line) in
  let printed :=
    if flush then
      match parseMetricsSection buffer1 with
      | Some m => printedMetrics l ++ [m]
      | None => printedMetrics l
      end
    else printedMetrics l in
  let buffer2 := if flush then [] else buffer1 in
  let updates' := updates ++ relay now l line buffer2 in
  let l' :=
    {| agentId := agentId l; absoluteFolderPath := absoluteFolderPath l;
       processStarted := processStarted l;
       bufferLines := buffer2; printedMetrics := printed |} in
  (* monitorUpdates.set(agentId, updates.slice(-50)) *)
  (updates', l',
   set_monitorUpdates (λ m, <[agentId l := UpdateLog.trim updates']> m) st).

(** [data.toString().split('\n').filter(line => line.trim())]. *)
Definition lines_of (chunk : string) : list string :=
  filter (λ line, is_blank line = false) (split LF chunk).

(** [monitorProcess.stdout.on('data', ...)] for a chunk already decoded to
    text. *)
Definition stdout_data (now chunk : string) (l : Listener) (st : State)
    : Listener * State :=
  let l0 :=
    {| agentId := agentId l; absoluteFolderPath := absoluteFolderPath l;
       processStarted := true;
       bufferLines := bufferLines l; printedMetrics := printedMetrics l |} in
  let updates := Js.or_empty (monitorUpdates st !! agentId l) in
  let '(_, l', st') := fold_left (on_line now) (lines_of chunk) (updates, l0, st) in
  (l', st').

End Stdout.

(** [monitorProcess.stderr.on('data', ...)]. *)
Definition stderr_data (now chunk : string) (l : Listener) (st : State) : State :=
  UpdateLog.push (agentId l)
    (ErrorUpdate (trim chunk) now (agentId l)) st.

End OutputParser.

(** ** [Map] with insertion order, for [activeMonitors] *)

Module OrderedMap.

Definition has {V} (k : string) (m : list (string * V)) : bool :=
  existsb (λ e, String.eqb (fst e) k) m.

Definition get {V} (k : string) (m : list (string * V)) : option V :=
  snd <$> List.find (λ e, String.eqb (fst e) k) m.

Definition delete {V} (k : string) (m : list (string * V)) : list (string * V) :=
  List.filter (λ e, negb (String.eqb (fst e) k)) m.

(** [m.set(k, v)]: an existing key keeps its place, a new key goes last. *)
Definition set {V} (k : string) (v : V) (m : list (string * V))
    : list (string * V) :=
  if has k m
  then map (λ e, if String.eqb (fst e) k then (k, v) else e) m
  else m ++ [(k, v)].

End OrderedMap.

(** ** The child process, as Node.js shows it *)

Module Child.

Definition fresh : ChildProcess :=
  {| exited := false; killed := false; delivered := [] |}.

(** [subprocess.kill(signal)]: the signal is delivered when the process is
    still there, and then the [killed] flag is set; the flag records that a
    signal was sent, not that the process has ended. *)
Definition kill (sig : Signal) (p : ChildProcess) : ChildProcess :=
  if exited p then p
  else {| exited := false; killed := true; delivered := delivered p ++ [sig] |}.

(** The operating system reports the end of the process. *)
Definition exit (p : ChildProcess) : ChildProcess :=
  {| exited := true; killed := killed p; delivered := delivered p |}.

End Child.

(** ** Listeners for the end of the child process *)

Module Supervisor.
Import OutputParser.

(** The text of [`${code}`] for an exit code, [null] when a signal ended the
    process. *)
Definition show_code (code : option Z) : string :=
  match code with
  | Some c => pretty c
  | None => "null"
  end.

(** [monitorProcess.on('close', (code) => ...)]. *)
Definition process_close (now : string) (code : option Z) (l : Listener)
    (st : State) : State :=
  let st1 := set_processes (alter Child.exit (agentId l)) st in
  let st2 := set_activeMonitors (OrderedMap.delete (agentId l)) st1 in
  UpdateLog.push (agentId l)
    (MonitorStopped ("Process exited with code " +:+ show_code code) now (agentId l))
    st2.

(** [monitorProcess.on('error', (error) => ...)], with [error.message]. *)
Definition process_error (now : string) (message : string) (l : Listener)
    (st : State) : State :=
  let st1 := set_activeMonitors (OrderedMap.delete (agentId l)) st in
  UpdateLog.push (agentId l)
    (ErrorUpdate ("Failed to start monitoring: " +:+ message) now (agentId l))
    st1.

(** ** POST /stop-monitoring *)

(** The body of the request; a field is [None] when the key is absent.
    Only string values are modelled. *)
Record StopRequest : Type := mkStopRequest {
  sessionId : option string;
  req_agentId : option string
}.

(** Truthiness of a string-or-undefined value. *)
Definition truthy (x : option string) : bool :=
  match x with
  | None => false
  | Some s => negb (JsString.is_empty s)
  end.

(** [sessionId.split('_')[1]], turned into a string by [includes]: a missing
    element is [undefined], which [includes] reads as the text
    ["undefined"]. *)
Definition session_token (sessionId : string) : string :=
  match JsString.split (JsString.chr 95) sessionId with
  | _ :: token :: _ => token
  | _ => "undefined"
  end.

(** The [for (const [id, monitor] of activeMonitors)] loop with its
    [break]: the first key that includes the token. *)
Definition find_by_session (sessionId : string) (m : list (string * Monitor))
    : option string :=
  fst <$> List.find (λ e, JsString.includes (fst e) (session_token sessionId)) m.

Definition target_agent (req : StopRequest) (st : State) : option string :=
  if negb (truthy (req_agentId req)) && truthy (sessionId req) then
    match sessionId req with
    | Some s =>
        match find_by_session s (activeMonitors st) with
        | Some id => Some id
        | None => req_agentId req
        end
    | None => req_agentId req
    end
  else req_agentId req.

Definition not_found : Response :=
  {| status := 404; body := FailureBody "Monitoring session not found" None |}.

(** The handler.  The third component is the handle of the process for which
    the five-second timer was armed, if it was. *)
Definition stop_monitoring (req : StopRequest) (st : State)
    : Response * State * option string :=
  let targetAgentId := target_agent req st in
  match targetAgentId with
  | None => (not_found, st, None)
  | Some target =>
      if negb (truthy targetAgentId) || negb (OrderedMap.has target (activeMonitors st))
      then (not_found, st, None)
      else
        match OrderedMap.get target (activeMonitors st) with
        | None => (not_found, st, None)
        | Some monitor =>
            let handle := process monitor in
            let '(st1, timer) :=
              match processes st !! handle with
              | Some p =>
                  if negb (killed p)
                  then (set_processes (λ ps, <[handle := Child.kill SIGTERM p]> ps) st,
                        Some handle)
                  else (st, None)
              | None => (st, None)
              end in
            let st2 := set_activeMonitors (OrderedMap.delete target) st1 in
            let st3 := set_monitorUpdates (λ m, delete target m) st2 in
            ({| status := 200; body := StoppedBody target |}, st3, timer)
        end
  end.

(** The callback of [setTimeout(..., 5000)] armed by the handler. *)
Definition stop_timeout (handle : string) (st : State) : State :=
  match processes st !! handle with
  | Some p =>
      if negb (killed p)
      then set_processes (λ ps, <[handle := Child.kill SIGKILL p]> ps) st
      else st
  | None => st
  end.

End Supervisor.

(** ** POST /start-realtime-monitor *)

Module Deploy.
Import OutputParser.

(** The result of an asynchronous call of the platform: it resolves, or it
    rejects with an error whose [message] is kept. *)
Inductive Outcome : Type :=
| Resolved
| Rejected (message : string).

(** What the handler writes into a file, or copies. *)
Inductive Content : Type :=
| MonitorScript                        (* portable_monitor.py as shipped *)
| TestPy                               (* '# Test file for monitoring...' *)
| WriteProbe                           (* 'test' *)
| MonitorConfig (project : string)     (* JSON.stringify(deploymentConfig, null, 2) *)
| Requirements.                        (* 'watchdog>=6.0.0\nrequests>=2.32.0\n' *)

(** The platform under the handler: [path], [process], [fs.promises] and
    [child_process], over a type [W] of states of the machine. *)
Record Os (W : Type) : Type := mkOs {
  path_isAbsolute : string → bool;
  path_join : list string → string;
  dirname : string;                                    (* __dirname *)
  cwd : string;                                        (* process.cwd() *)
  env_USER : option string;                            (* process.env.USER *)
  platform : string;                                   (* process.platform *)
  fs_readdir : string → W → option (list string);      (* None: rejects *)
  fs_stat : string → W → option bool;                  (* Some b: isDirectory() = b *)
  fs_mkdir_recursive : string → W → Outcome * W;
  fs_writeFile : string → Content → W → Outcome * W;
  fs_unlink : string → W → Outcome * W;
  fs_copyFile : string → string → W → Outcome * W;
  fs_access : string → W → bool;                       (* false: rejects *)
  exec : string → W → W;                               (* failure only logged *)
  spawn : string → list string → string → W → Outcome * W  (* Rejected: throws *)
}.

Arguments path_isAbsolute {W} _ _.
Arguments path_join {W} _ _.
Arguments dirname {W} _.
Arguments cwd {W} _.
Arguments env_USER {W} _.
Arguments platform {W} _.
Arguments fs_readdir {W} _ _ _.
Arguments fs_stat {W} _ _ _.
Arguments fs_mkdir_recursive {W} _ _ _.
Arguments fs_writeFile {W} _ _ _ _.
Arguments fs_unlink {W} _ _ _.
Arguments fs_copyFile {W} _ _ _ _.
Arguments fs_access {W} _ _ _.
Arguments exec {W} _ _ _.
Arguments spawn {W} _ _ _ _ _.

Record StartRequest : Type := mkStartRequest {
  req_folderPath : string;
  req_projectName : string
}.

(** How the handler ends: it has sent a response, or it has armed the
    one-second timer that will send the success response. *)
Inductive StartResult : Type :=
| Replied (r : Response)
| Armed (l : Listener) (project : string).

(** The text of [s] between double quotes. *)
Definition quoted (s : string) : string :=
  let q := String (JsString.chr 34) EmptyString in q +:+ s +:+ q.

Definition failure (code : Z) (message : string) (error : option string) : Response :=
  {| status := code; body := FailureBody message error |}.

Section Handler.

Context {W : Type} (os : Os W).

(** A step of the handler: it goes on with a value, or it returns a
    response; the machine state is threaded through. *)
Definition M (A : Type) : Type := W → (Response + A) * W.

Definition ret {A} (a : A) : M A := λ w, (inr a, w).

Definition reply {A} (r : Response) : M A := λ w, (inl r, w).

Definition bind {A B} (m : M A) (k : A → M B) : M B :=
  λ w, match m w with
       | (inl r, w') => (inl r, w')
       | (inr a, w') => k a w'
       end.

Notation "'let*' x ':=' m 'in' k" := (bind m (λ x, k))
  (at level 10, x name, m at level 100, k at level 200).

(** An awaited call inside [try { ... } catch (e) { return res... }]. *)
Definition await_or (op : W → Outcome * W) (on_reject : string → Response)
    : M unit :=
  λ w, match op w with
       | (Resolved, w') => (inr (), w')
       | (Rejected msg, w') => (inl (on_reject msg), w')
       end.

(** An awaited call whose rejection is caught and only logged. *)
Definition run (op : W → W) : M unit := λ w, (inr (), op w).

Definition read {A} (f : W → A) : M A := λ w, (inr (f w), w).

(** [process.env.USER || d]. *)
Definition user_or (d : string) : string :=
  match env_USER os with
  | Some u => if JsString.is_empty u then d else u
  | None => d
  end.

(** The candidate locations of a relative folder path, in the order in
    which they are tried. *)
Definition possiblePaths (folderPath : string) (w : W) : list string :=
  let projectRoot := path_join os [dirname os; "../../"] in
  let home := user_or "user" in
  let mediaUserDir := "/media/" +:+ user_or "sekar" in
  [ path_join os [projectRoot; folderPath];
    path_join os [cwd os; folderPath];
    path_join os ["/home"; home; folderPath];
    path_join os ["/home"; home; "Desktop"; folderPath];
    path_join os ["/home"; home; "Documents"; folderPath];
    folderPath ]
  ++ match fs_readdir os mediaUserDir w with
     | Some mediaContents =>
         map (λ drive, path_join os [mediaUserDir; drive; folderPath]) mediaContents
     | None => []
     end.

(** [(await fs.stat(p)).isDirectory()], [false] when [stat] rejects. *)
Definition is_directory (p : string) (w : W) : bool :=
  match fs_stat os p w with
  | Some true => true
  | _ => false
  end.

Definition tempPath (folderPath : string) : string :=
  path_join os ["/tmp"; "riskguard_test"; folderPath].

Definition location_error (folderPath : string) (_ : string) : Response :=
  failure 500
    ("Could not find or create deployment location for "
       +:+ quoted folderPath)
    (Some "DEPLOYMENT_LOCATION_ERROR").

(** Lines 34-98: the folder that the monitor is deployed to. *)
Definition resolve (folderPath : string) : M string :=
  if path_isAbsolute os folderPath then ret folderPath
  else
    let* paths := read (possiblePaths folderPath) in
    let* found := read (λ w, List.find (λ p, is_directory p w) paths) in
    match found with
    | Some p => ret p
    | None =>
        let temp := tempPath folderPath in
        let* _ := await_or (fs_mkdir_recursive os temp) (location_error folderPath) in
        let* _ := await_or (fs_writeFile os (path_join os [temp; "test.py"]) TestPy)
              (location_error folderPath) in
        ret temp
    end.

Definition not_writable (folder : string) (_ : string) : Response :=
  failure 400
    ("Folder not accessible or no write permissions: " +:+ folder) None.

(** Lines 102-122: the folder exists, is a directory and can be written. *)
Definition check_writable (folder : string) : M unit :=
  let* stats := read (fs_stat os folder) in
  match stats with
  | None => reply (not_writable folder EmptyString)
  | Some false => reply (failure 400 ("Path is not a directory: " +:+ folder) None)
  | Some true =>
      let testFile := path_join os [folder; ".riskguard_test"] in
      let* _ := await_or (fs_writeFile os testFile WriteProbe) (not_writable folder) in
      await_or (fs_unlink os testFile) (not_writable folder)
  end.

Definition sourceDir : string := path_join os [dirname os; "../../monitoring-agent"].

Definition deploy_failed (message : string) : Response :=
  failure 500 ("Failed to deploy monitoring files: " +:+ message) None.

(** Lines 124-168: the three files are put into the folder. *)
Definition deploy_files (folder project : string) : M (list string) :=
  let targetMonitorScript := path_join os [folder; "portable_monitor.py"] in
  let targetConfigFile := path_join os [folder; "monitor_config.json"] in
  let targetRequirementsFile := path_join os [folder; "requirements.txt"] in
  let* _ := await_or
        (fs_copyFile os (path_join os [sourceDir; "portable_monitor.py"])
           targetMonitorScript) deploy_failed in
  let* _ := await_or (fs_writeFile os targetConfigFile (MonitorConfig project))
        deploy_failed in
  let* _ := await_or (fs_writeFile os targetRequirementsFile Requirements)
        deploy_failed in
  let* _ := (if String.eqb (platform os) "win32" then ret ()
       else run (exec os ("chmod +x " +:+ quoted targetMonitorScript))) in
  ret [targetMonitorScript; targetConfigFile; targetRequirementsFile].

(** Lines 170-190: the interpreter that runs the monitor. *)
Definition pythonExecutable : M string :=
  let monitoringAgentVenv := path_join os [sourceDir; "venv"; "bin"; "python3"] in
  let* found := read (fs_access os monitoringAgentVenv) in
  if found : bool then ret monitoringAgentVenv
  else
    let* _ := run (exec os "pip3 install --user watchdog requests") in
    ret "python3".

(** What [deploy_files] and [pythonExecutable] do to the machine, and the
    interpreter chosen, in closed form. *)
Definition after_chmod (script : string) (w : W) : W :=
  if String.eqb (platform os) "win32" then w
  else exec os ("chmod +x " +:+ quoted script) w.

Definition chosen_python (w : W) : string * W :=
  let venv := path_join os [sourceDir; "venv"; "bin"; "python3"] in
  if fs_access os venv w then (venv, w)
  else ("python3", exec os "pip3 install --user watchdog requests" w).

(** The response of the outer [catch (error)]. *)
Definition start_failed (message : string) : Response :=
  failure 500 ("Failed to deploy monitoring: " +:+ message) None.

(** The handler up to the point where it arms the one-second timer.
    [agentId] is the identifier it has drawn and [now] the time of
    [startTime]. *)
Definition start_realtime_monitor (req : StartRequest) (agentId now : string)
    (st : State) : M (StartResult * State) :=
  let project := req_projectName req in
  let* folder := resolve (req_folderPath req) in
  let* _ := check_writable folder in
  let* files := deploy_files folder project in
  let* python := pythonExecutable in
  let* _ := await_or
        (spawn os python
           [ path_join os [folder; "portable_monitor.py"];
             "--watch-dir"; folder;
             "--config"; path_join os [folder; "monitor_config.json"];
             "--project-id"; project ]
           folder)
        start_failed in
  let st1 := set_processes (λ ps, <[agentId := Child.fresh]> ps) st in
  let st2 := set_monitorUpdates (λ m, <[agentId := []]> m) st1 in
  let monitor :=
    {| process := agentId; folderPath := folder; projectName := project;
       deployedFiles := files; startTime := now |} in
  let st3 := set_activeMonitors (OrderedMap.set agentId monitor) st2 in
  ret (Armed (new_listener agentId folder) project, st3).

(** The route as a function of the machine and of the server state: a
    response sent before the timer leaves the server state as it was. *)
Definition start (req : StartRequest) (agentId now : string) (st : State)
    (w : W) : StartResult * State * W :=
  match start_realtime_monitor req agentId now st w with
  | (inl r, w') => (Replied r, st, w')
  | (inr (result, st'), w') => (result, st', w')
  end.

End Handler.

(** The callback of [setTimeout(..., 1000)]: the success response. *)
Definition start_timeout (l : Listener) (project : string) : Response :=
  {| status := 200;
     body := StartedBody (agentId l) (absoluteFolderPath l) project
               ["portable_monitor.py"; "monitor_config.json"; "requirements.txt"] |}.

End Deploy.

(** ** A small machine to run the handler on

    A file system is a finite map from normalised absolute paths to nodes.
    It stands for the platform in the examples; the statements about the
    handler hold for every [Os]. *)

Module Machine.
Import Deploy.

Inductive Node : Type :=
| Dir
| File (content : Content).

Definition slash : ascii := JsString.chr 47.

Fixpoint join_with (sep : string) (parts : list string) : string :=
  match parts with
  | [] => EmptyString
  | [p] => p
  | p :: rest => p +:+ sep +:+ join_with sep rest
  end.

Definition ends_with_slash (p : string) : bool :=
  match List.last (JsString.split slash p) "x" with
  | EmptyString => negb (JsString.is_empty p)
  | _ => false
  end.

(** The segments of a path with [.] and [..] resolved; [stack] holds the
    segments kept so far, last first. *)
Fixpoint resolve_segments (absolute : bool) (stack parts : list string)
    : list string :=
  match parts with
  | [] => rev stack
  | part :: rest =>
      if JsString.is_empty part || String.eqb part "." then
        resolve_segments absolute stack rest
      else if String.eqb part ".." then
        match stack with
        | top :: below =>
            if String.eqb top ".."
            then resolve_segments absolute (part :: stack) rest
            else resolve_segments absolute below rest
        | [] =>
            if absolute then resolve_segments absolute [] rest
            else resolve_segments absolute [part] rest
        end
      else resolve_segments absolute (part :: stack) rest
  end.

(** [path.normalize] of POSIX. *)
Definition normalize (p : string) : string :=
  if JsString.is_empty p then "." else
  let absolute := String.prefix "/" p in
  let body := join_with "/" (resolve_segments absolute [] (JsString.split slash p)) in
  let body :=
    if JsString.is_empty body
    then (if absolute then EmptyString else ".")
    else body in
  let body :=
    if ends_with_slash p && negb (JsString.is_empty body) then body +:+ "/" else body in
  if absolute then "/" +:+ body else body.

(** [path.join] of POSIX: the non-empty arguments joined by [/], then
    normalised. *)
Definition join (parts : list string) : string :=
  normalize (join_with "/" (List.filter (λ p, negb (JsString.is_empty p)) parts)).

(** A path as a key of the file system: no trailing slash. *)
Definition key (p : string) : string :=
  let n := normalize p in
  if ends_with_slash n && negb (String.eqb n "/")
  then String.substring 0 (String.length n - 1) n else n.

Definition parent (p : string) : string := key (join [p; ".."]).

Definition Fs : Type := gmap string Node.

Definition stat (p : string) (fs : Fs) : option bool :=
  match fs !! key p with
  | Some Dir => Some true
  | Some (File _) => Some false
  | None => None
  end.

(** The path and its ancestors, the root first. *)
Fixpoint ancestors (fuel : nat) (p : string) : list string :=
  match fuel with
  | O => []
  | S fuel' =>
      if String.eqb p "/" || String.eqb p "." then [p]
      else ancestors fuel' (parent p) ++ [p]
  end.

Definition mkdir_recursive (p : string) (fs : Fs) : Outcome * Fs :=
  let chain := ancestors (String.length p) (key p) in
  if existsb (λ a, match fs !! a with Some (File _) => true | _ => false end) chain
  then (Rejected "ENOTDIR: not a directory", fs)
  else (Resolved, foldr (λ a m, <[a := Dir]> m) fs chain).

Definition writeFile (p : string) (c : Content) (fs : Fs) : Outcome * Fs :=
  match fs !! parent p, fs !! key p with
  | Some Dir, Some Dir => (Rejected "EISDIR: illegal operation on a directory", fs)
  | Some Dir, _ => (Resolved, <[key p := File c]> fs)
  | _, _ => (Rejected "ENOENT: no such file or directory", fs)
  end.

Definition unlink (p : string) (fs : Fs) : Outcome * Fs :=
  match fs !! key p with
  | Some (File _) => (Resolved, delete (key p) fs)
  | Some Dir => (Rejected "EISDIR: illegal operation on a directory", fs)
  | None => (Rejected "ENOENT: no such file or directory", fs)
  end.

Definition copyFile (src dst : string) (fs : Fs) : Outcome * Fs :=
  match fs !! key src with
  | Some (File c) => writeFile dst c fs
  | _ => (Rejected "ENOENT: no such file or directory", fs)
  end.

Definition readdir (p : string) (fs : Fs) : option (list string) :=
  match fs !! key p with
  | Some Dir =>
      Some (omap (λ e, if String.eqb (parent (fst e)) (key p)
                          && negb (String.eqb (fst e) (key p))
                       then Some (List.last (JsString.split slash (fst e)) EmptyString)
                       else None)
              (map_to_list fs))
  | _ => None
  end.

(** A Linux host whose server runs from [/srv/app/backend/routes]. *)
Definition os : Os Fs :=
  {| path_isAbsolute := String.prefix "/";
     path_join := join;
     dirname := "/srv/app/backend/routes";
     cwd := "/srv/app/backend";
     env_USER := Some "dev";
     platform := "linux";
     fs_readdir := readdir;
     fs_stat := stat;
     fs_mkdir_recursive := mkdir_recursive;
     fs_writeFile := writeFile;
     fs_unlink := unlink;
     fs_copyFile := copyFile;
     fs_access := λ p fs, bool_decide (is_Some (fs !! key p));
     exec := λ _ fs, fs;
     spawn := λ _ _ _ fs, (Resolved, fs) |}.

(** The disk of that host: the application with its monitoring agent, and
    an empty [/tmp]. *)
Definition disk : Fs :=
  list_to_map
    [ ("/", Dir); ("/tmp", Dir); ("/srv", Dir); ("/srv/app", Dir);
      ("/srv/app/backend", Dir); ("/srv/app/backend/routes", Dir);
      ("/srv/app/monitoring-agent", Dir);
      ("/srv/app/monitoring-agent/portable_monitor.py", File MonitorScript) ].

End Machine.

(** ** Sessions used in the examples *)

Module Examples.
Import OutputParser.

Definition agent : string := "agent_1700000000123_k3j9x1q0z".

Definition listener : Listener := new_listener agent "/srv/project".

(** The update that the stderr listener pushes for the text [warning i]. *)
Definition note (i : Z) : Update :=
  ErrorUpdate ("warning " +:+ pretty i) "t" agent.

Definition warn (st : State) (i : Z) : State :=
  stderr_data "t" ("warning " +:+ pretty i) listener st.

(** The server after the child has written [warning 0] ... [warning (n-1)]
    on its stderr, one chunk each. *)
Definition after_stderr (n : nat) : State :=
  fold_left warn (seqZ 0 (Z.of_nat n)) initial.

(** A metrics section as the monitor prints it, one field per line, with a
    value that is not a number and a label outside the vocabulary, and the
    line that follows the section. *)
Definition metric_run : list string :=
  [ "   " +:+ marker +:+ " FUNCTIONS PER CLASS: 3.5";
    "   " +:+ marker +:+ " LOC: 120";
    "   " +:+ marker +:+ " COMMENT RATIO: 0.25";
    "   " +:+ marker +:+ " COMPLEXITY: 7.5";
    "   " +:+ marker +:+ " CLASSES: two";
    "   " +:+ marker +:+ " DEPENDENCIES: 4";
    "   " +:+ marker +:+ " AUTHORS: 3";
    "   " +:+ marker +:+ " COMPLEXITY PER LOC: 0.06";
    "   " +:+ marker +:+ " FUNCTIONS: 7";
    "   " +:+ marker +:+ " COMMENTS: 30" ].

Definition after_run : string := "Analysis complete".

(** The lines of a list as one chunk, each ended by a line feed. *)
Definition chunk_of (lines : list string) : string :=
  foldr (λ line rest, line +:+ String JsString.LF rest) EmptyString lines.

(** The request that the page sends for the folder [proj], and what the
    handler makes of it on the machine of [Machine]. *)
Definition request : Deploy.StartRequest :=
  {| Deploy.req_folderPath := "proj"; Deploy.req_projectName := "Demo" |}.

Definition launch : Deploy.StartResult * State * Machine.Fs :=
  Deploy.start Machine.os request agent "t" initial Machine.disk.

Definition started : State := snd (fst launch).

(** A second agent, started later for another user. *)
Definition other_agent : string := "agent_1700000004200_p0o9i8u7y".

Definition two_agents : State :=
  snd (fst (Deploy.start Machine.os request other_agent "t" started
              (snd launch))).

End Examples.

(** ** POST /script *)

Module ScriptRoute.
Import Deploy.

(** The platform of the route: the one of [Deploy], with the two calls that
    only this route makes.  [fs_access_or] is [fs.access] with the message
    of its rejection; [fs_writeSample] writes the text of [sample.js]. *)
Record ScriptOs (W : Type) : Type := mkScriptOs {
  base : Os W;
  fs_access_or : string → W → Outcome;
  fs_writeSample : string → W → Outcome * W
}.

Arguments base {W} _.
Arguments fs_access_or {W} _ _ _.
Arguments fs_writeSample {W} _ _ _.

Record ScriptRequest : Type := mkScriptRequest {
  s_folderPath : string;
  s_projectName : string;
  s_userId : string                       (* req.user.id *)
}.

(** The [deploymentInfo] object of the success response; [deployedAt] is
    the time of the call and [status] is always ['deployed']. *)
Record Deployment : Type := mkDeployment {
  id : string;
  userId : string;
  d_folderPath : string;
  d_projectName : string;
  scriptPath : string;
  configPath : string
}.

(** [`deploy_${userId}_${Date.now()}`], with the time as its decimal
    text. *)
Definition deploymentId (userId now : string) : string :=
  "deploy_" +:+ userId +:+ "_" +:+ now.

Section Handler.

Context {W : Type} (sos : ScriptOs W).

#[local] Abbreviation os := (base sos).

Notation "'let*' x ':=' m 'in' k" := (bind m (λ x, k))
  (at level 10, x name, m at level 100, k at level 200).

Definition script_tempPath (folderPath : string) : string :=
  path_join os ["/tmp"; "riskguard_script_deploy"; folderPath].

Definition script_location_error (folderPath : string) (_ : string) : Response :=
  failure 500
    ("Could not find or create deployment location for "
       +:+ quoted folderPath)
    (Some "SCRIPT_DEPLOYMENT_ERROR").

(** Lines 519-583: the folder that the script is deployed to. *)
Definition resolve_script (folderPath : string) : M string :=
  if path_isAbsolute os folderPath then ret folderPath
  else
    let* paths := read (possiblePaths os folderPath) in
    let* found := read (λ w, List.find (λ p, is_directory os p w) paths) in
    match found with
    | Some p => ret p
    | None =>
        let temp := script_tempPath folderPath in
        let* _ := await_or (fs_mkdir_recursive os temp)
                    (script_location_error folderPath) in
        let* _ := await_or (fs_writeSample sos (path_join os [temp; "sample.js"]))
                    (script_location_error folderPath) in
        ret temp
    end.

(** Lines 587-601: the folder exists and is a directory. *)
Definition check_directory (folder : string) : M unit :=
  let* stats := read (fs_stat os folder) in
  match stats with
  | None => reply (failure 400 ("Folder not accessible: " +:+ folder) None)
  | Some false => reply (failure 400 ("Path is not a directory: " +:+ folder) None)
  | Some true => ret ()
  end.

(** Lines 603-641: the source script is looked up, then the three files
    are put into the folder. *)
Definition deploy_script_files (folder project : string) : M unit :=
  let sourcePortableScript := path_join os [sourceDir os; "portable_monitor.py"] in
  let* _ := await_or (λ w, (fs_access_or sos sourcePortableScript w, w))
              deploy_failed in
  let* _ := await_or
              (fs_copyFile os sourcePortableScript
                 (path_join os [folder; "portable_monitor.py"]))
              deploy_failed in
  let* _ := await_or
              (fs_writeFile os (path_join os [folder; "monitor_config.json"])
                 (MonitorConfig project))
              deploy_failed in
  await_or
    (fs_writeFile os (path_join os [folder; "requirements.txt"]) Requirements)
    deploy_failed.

(** The handler: an error response, or the deployment sent with status
    200.  [now] is the decimal text of [Date.now()]. *)
Definition script (req : ScriptRequest) (now : string) : M Deployment :=
  let* folder := resolve_script (s_folderPath req) in
  let* _ := check_directory folder in
  let* _ := deploy_script_files folder (s_projectName req) in
  ret {| id := deploymentId (s_userId req) now;
         userId := s_userId req;
         d_folderPath := folder;
         d_projectName := s_projectName req;
         scriptPath := path_join os [folder; "portable_monitor.py"];
         configPath := path_join os [folder; "monitor_config.json"] |}.

End Handler.

(** POST /start-monitoring, the route that only makes up a session: the
    [id] of the session it returns, for the time [now]. *)
Definition monitoring_session_id (deploymentId now : string) : string :=
  "monitor_" +:+ deploymentId +:+ "_" +:+ now.

End ScriptRoute.

(** ** The page that calls the routes ([DeployScript.jsx]) *)

Module Page.
Import JsString.

(** The colours of [addToOutput] used for console output. *)
Inductive Color : Type := info | error | warning | success.

Definition includes_any (message : string) (words : list string) : bool :=
  existsb (includes message) words.

(** What the poll callback does with the [message] of a
    ['console_output'] update (lines 556-600): the colour it is shown
    with, or [None] when the callback returns without showing it. *)
Definition console_color (message : string) : option Color :=
  if is_empty message || is_blank message then None
  else if includes_any message ["RISK:"; "🔴"; "HIGH"] then
    Some (if includes_any message ["HIGH"; "🔴"] then error
          else if includes_any message ["MEDIUM"; "🟡"] then warning
          else success)
  else if includes_any message
            ["FILE CHANGED"; "File changed"; "📝"; "file changed:"] then Some info
  else if includes_any message ["Analyzing"; "🔍"] then Some info
  else if includes_any message ["Waiting"; "📊"] then Some info
  else if includes_any message ["Error"; "❌"] then Some error
  else if includes_any message ["MISMATCH"; "⚠️"] then Some warning
  else if String.prefix "==" message then None
  else Some info.

(** The variables of the polling loop: the count of polls that failed in
    a row, and whether the interval is still set. *)
Record Polling : Type := mkPolling {
  missedPollCount : Z;
  running : bool
}.

Definition start_polling : Polling := {| missedPollCount := 0; running := true |}.

(** [response.ok]: a status from 200 to 299. *)
Definition ok (r : Response) : bool := (200 <=? status r) && (status r <=? 299).

(** What a turn of the interval meets: [fetch] throws, or it answers; in
    the second case [decoded] tells whether [await response.json()]
    returns, and [handled] whether the callback then walks the updates of
    the body without throwing. *)
Inductive Fetched : Type :=
| Threw
| Answered (r : Response) (decoded handled : bool).

Definition missed_once (p : Polling) : Polling :=
  let missed := missedPollCount p + 1 in
  {| missedPollCount := missed; running := negb (10 <? missed) |}.

(** One turn of the interval (lines 531-693).  A response that is [ok] and
    whose body has been decoded resets the count before the updates are
    walked; anything thrown (by [fetch], by the decoding, by the walk), and
    a response that is not [ok], counts as a missed poll, and the interval
    is cleared when more than ten were missed. *)
Definition tick (outcome : Fetched) (p : Polling) : Polling :=
  if negb (running p) then p
  else
    match outcome with
    | Threw => missed_once p
    | Answered r decoded handled =>
        if ok r then
          if decoded then
            let p0 := {| missedPollCount := 0; running := true |} in
            if handled then p0 else missed_once p0
          else missed_once p
        else missed_once p
    end.

(** The session that the page keeps for a monitoring run, from its own
    clock: [`session_${Date.now()}`]. *)
Definition session_id (now : string) : string := "session_" +:+ now.

(** The body of the stop request of the page (line 726): the session id
    and no agent id. *)
Definition stop_request (now : string) : Supervisor.StopRequest :=
  {| Supervisor.sessionId := Some (session_id now);
     Supervisor.req_agentId := None |}.

End Page.

(** * Properties *)

(** ** Arrays: [slice] and the trimmed log *)

Lemma slice_nonneg {A} (l : list A) (k : nat) :
  Js.slice l (Z.of_nat k) = drop k l.
Proof.
  unfold Js.slice, Js.slice_start.
  destruct (Z.ltb_spec (Z.of_nat k) 0) as [Hneg|_]; [lia|].
  destruct (Z.min_spec (Z.of_nat k) (Z.of_nat (length l))) as [[Hlt ->]|[Hge ->]].
  - by rewrite Nat2Z.id.
  - rewrite Nat2Z.id. rewrite !drop_ge; [done|lia|lia].
Qed.

Lemma trim_drop (l : list Update) :
  UpdateLog.trim l = drop (length l - 50) l.
Proof.
  unfold UpdateLog.trim, UpdateLog.capacity, Js.slice, Js.slice_start. simpl.
  f_equal. lia.
Qed.

Lemma trim_short (l : list Update) :
  (length l ≤ 50)%nat → UpdateLog.trim l = l.
Proof.
  intros Hlen. rewrite trim_drop.
  replace (length l - 50)%nat with 0%nat by lia. done.
Qed.

Lemma trim_length (l : list Update) :
  length (UpdateLog.trim l) = (length l `min` 50)%nat.
Proof. rewrite trim_drop, length_drop. lia. Qed.

(** Trimming an array that was trimmed before its last pushes gives what
    trimming once at the end gives. *)
Lemma trim_app_trim (l k : list Update) :
  UpdateLog.trim (UpdateLog.trim l ++ k) = UpdateLog.trim (l ++ k).
Proof.
  rewrite !trim_drop, !length_app, length_drop.
  destruct (decide (length l ≤ 50)%nat) as [Hle|Hgt].
  - replace (length l - 50)%nat with 0%nat by lia. simpl.
    by rewrite Nat.sub_0_r.
  - replace (length l + length k - 50)%nat
      with ((length l - 50) + length k)%nat by lia.
    rewrite <- drop_drop.
    rewrite (drop_app_le l k (length l - 50)) by lia.
    f_equal. lia.
Qed.

Lemma trim_idemp (l : list Update) :
  UpdateLog.trim (UpdateLog.trim l) = UpdateLog.trim l.
Proof.
  pose proof (trim_app_trim l []) as H. by rewrite !app_nil_r in H.
Qed.

(** ** The log of one agent under [push] *)

Lemma get_push (agentId : string) (u : Update) (st : State) :
  UpdateLog.get agentId (UpdateLog.push agentId u st)
  = UpdateLog.trim (UpdateLog.get agentId st ++ [u]).
Proof.
  unfold UpdateLog.get, UpdateLog.push, set_monitorUpdates. simpl.
  by rewrite lookup_insert_eq.
Qed.

Lemma push_keeps_cursors (agentId : string) (u : Update) (st : State) :
  sentUpdateIndices (UpdateLog.push agentId u st) = sentUpdateIndices st.
Proof. done. Qed.

Lemma pushes_keeps_cursors (agentId : string) (us : list Update) (st : State) :
  sentUpdateIndices (pushes agentId us st) = sentUpdateIndices st.
Proof.
  revert st. induction us as [|u us IH]; intros st; [done|].
  unfold pushes in *. simpl. by rewrite IH.
Qed.

Lemma get_pushes (agentId : string) (us : list Update) (st : State) :
  UpdateLog.get agentId (pushes agentId us st)
  = UpdateLog.trim (UpdateLog.get agentId st ++ us) ∨
    (us = [] ∧ UpdateLog.get agentId (pushes agentId us st) = UpdateLog.get agentId st).
Proof.
  revert st. induction us as [|u us IH]; intros st; [by right|left].
  change (pushes agentId (u :: us) st)
    with (pushes agentId us (UpdateLog.push agentId u st)).
  destruct (IH (UpdateLog.push agentId u st)) as [->|[-> ->]].
  - rewrite get_push, trim_app_trim. by rewrite <- app_assoc.
  - by rewrite get_push.
Qed.


(** ** The poll route *)

(** The handler answers 200 or, from its [catch], 500. *)
Lemma monitor_updates_status (agentId : string) (st : State) :
  status (fst (monitor_updates agentId st)) = 200
  ∨ fst (monitor_updates agentId st) = poll_failed.
Proof. unfold monitor_updates. destruct (existsb _ _); [by right|by left]. Qed.

(** What the handler does to the state does not depend on its answer. *)
Lemma monitor_updates_state (agentId : string) (st : State) :
  snd (monitor_updates agentId st)
  = set_sentUpdateIndices
      (λ m, <[agentId := Z.of_nat (length (UpdateLog.get agentId st)) - 1]> m) st.
Proof. unfold monitor_updates. by destruct (existsb _ _). Qed.

Lemma monitor_updates_log (agentId : string) (st : State) :
  monitorUpdates (snd (monitor_updates agentId st)) = monitorUpdates st.
Proof. by rewrite monitor_updates_state. Qed.

Lemma monitor_updates_get (agentId other : string) (st : State) :
  UpdateLog.get other (snd (monitor_updates agentId st)) = UpdateLog.get other st.
Proof. unfold UpdateLog.get. by rewrite monitor_updates_log. Qed.

Lemma monitor_updates_cursor (agentId : string) (st : State) :
  sentUpdateIndices (snd (monitor_updates agentId st)) !! agentId
  = Some (Z.of_nat (length (UpdateLog.get agentId st)) - 1).
Proof.
  rewrite monitor_updates_state. unfold set_sentUpdateIndices. simpl.
  by rewrite lookup_insert_eq.
Qed.

(** The response of a poll, from the stored cursor. *)
Lemma monitor_updates_response (agentId : string) (st : State) (k : nat) :
  Js.or_default (sentUpdateIndices st !! agentId) (-1) = Z.of_nat k - 1 →
  fst (monitor_updates agentId st)
  = if existsb log_throws (drop k (UpdateLog.get agentId st))
    then poll_failed
    else {| status := 200;
            body := UpdatesBody (drop k (UpdateLog.get agentId st)) |}.
Proof.
  intros Hk. unfold monitor_updates. rewrite Hk.
  replace (Z.of_nat k - 1 + 1) with (Z.of_nat k) by lia.
  rewrite slice_nonneg. unfold UpdateLog.get. by destruct (existsb _ _).
Qed.

(** What a poll returns when its debug log does not throw. *)
Lemma poll_drop (agentId : string) (st : State) (k : nat) :
  Js.or_default (sentUpdateIndices st !! agentId) (-1) = Z.of_nat k - 1 →
  existsb log_throws (drop k (UpdateLog.get agentId st)) = false →
  poll agentId st = drop k (UpdateLog.get agentId st).
Proof.
  intros Hk Hquiet. unfold poll.
  by rewrite (monitor_updates_response agentId st k Hk), Hquiet.
Qed.



(** A log of one entry that has been polled is sent again by the next
    poll: the stored cursor 0 is read as -1. *)
Lemma poll_again_after_one (agentId : string) (u : Update) (st : State) :
  UpdateLog.get agentId st = [u] →
  log_throws u = false →
  poll agentId (snd (monitor_updates agentId st)) = [u].
Proof.
  intros Hlog Hquiet. rewrite (poll_drop agentId _ 0).
  - by rewrite monitor_updates_get, Hlog.
  - by rewrite monitor_updates_cursor, Hlog.
  - rewrite monitor_updates_get, Hlog. simpl. by rewrite Hquiet.
Qed.

(** Once a full log has been polled, the updates pushed afterwards are in
    the log but no poll returns them: the cursor stays at the last
    position of an array that no longer grows. *)
Lemma poll_skips_after_full (agentId : string) (new : list Update) (st : State) :
  length (UpdateLog.get agentId st) = 50%nat →
  let st' := pushes agentId new (snd (monitor_updates agentId st)) in
  UpdateLog.get agentId st' = UpdateLog.trim (UpdateLog.get agentId st ++ new)
  ∧ poll agentId st' = [].
Proof.
  intros Hfull st'.
  assert (Hget : UpdateLog.get agentId st'
                 = UpdateLog.trim (UpdateLog.get agentId st ++ new)).
  { destruct (get_pushes agentId new (snd (monitor_updates agentId st)))
      as [H|[-> H]]; rewrite monitor_updates_get in H; [done|].
    rewrite app_nil_r, trim_short by (rewrite Hfull; lia). done. }
  split; [done|].
  assert (Hnone : drop 50 (UpdateLog.get agentId st') = []).
  { apply drop_ge. rewrite Hget, trim_length, length_app. lia. }
  rewrite (poll_drop agentId st' 50); [done| |by rewrite Hnone].
  unfold st'. rewrite pushes_keeps_cursors, monitor_updates_cursor, Hfull.
  done.
Qed.

(** ** Delivery of the poll sequence *)




(** C2, on the code: (1) a log of one entry has been polled, so the cursor is
    0; the next poll returns that entry again, although no retained entry has
    an index above 0.  (2) Fifty entries have been polled, so the cursor is
    49; one more update is pushed and the oldest entry is dropped; the new
    update is retained, at position 49, and the next poll returns nothing. *)
Theorem C2_poll_repeats_and_skips :
  (let st1 := snd (monitor_updates Examples.agent (Examples.after_stderr 1)) in
   sentUpdateIndices st1 !! Examples.agent = Some 0
   ∧ UpdateLog.get Examples.agent st1 = [Examples.note 0]
   ∧ poll Examples.agent st1 = [Examples.note 0])
  ∧
  (let st1 := snd (monitor_updates Examples.agent (Examples.after_stderr 50)) in
   let st2 := Examples.warn st1 50 in
   poll Examples.agent (Examples.after_stderr 50) = Examples.note <$> seqZ 0 50
   ∧ sentUpdateIndices st2 !! Examples.agent = Some 49
   ∧ UpdateLog.get Examples.agent st2 = Examples.note <$> seqZ 1 50
   ∧ UpdateLog.get Examples.agent st2 !! 49%nat = Some (Examples.note 50)
   ∧ poll Examples.agent st2 = []).
Proof. vm_compute. repeat split. Qed.

(** ** Positions in the log *)

(** C3, as stated, fails: the log holds fifty entries; after one more push
    the entry that was at position 1 is at position 0, where another entry
    was before. *)
Lemma C3_trimming_renumbers :
  let st := Examples.after_stderr 50 in
  let st' := Examples.warn st 50 in
  UpdateLog.get Examples.agent st !! 0%nat = Some (Examples.note 0)
  ∧ UpdateLog.get Examples.agent st !! 1%nat = Some (Examples.note 1)
  ∧ UpdateLog.get Examples.agent st' !! 0%nat = Some (Examples.note 1)
  ∧ ¬ (∀ i u, UpdateLog.get Examples.agent st !! i = Some u →
              u ∈ UpdateLog.get Examples.agent st' →
              UpdateLog.get Examples.agent st' !! i = Some u).
Proof.
  vm_compute. repeat split.
  intros H. specialize (H 1%nat _ eq_refl).
  discriminate H. apply list_elem_of_here.
Qed.

(** C3, amended: an update has no number of its own; its index is its
    position in the array.  A push puts the update last; the array then
    keeps its last 50 entries, so with [d] entries dropped ([d] is 0 while
    the array holds at most 50) the entry at position [i + d] before the
    trim is at position [i] after it. *)
Theorem C3_positions_shift_by_the_dropped
    (agentId : string) (u : Update) (st : State) (i : nat) :
  let old := UpdateLog.get agentId st in
  let new := UpdateLog.get agentId (UpdateLog.push agentId u st) in
  let d := (length old + 1 - 50)%nat in
  new !! i = (old ++ [u]) !! (i + d)%nat
  ∧ length new = ((length old + 1) `min` 50)%nat.
Proof.
  intros old new d. subst new. rewrite get_push. fold old. split.
  - rewrite trim_drop, lookup_drop, length_app. simpl.
    f_equal. unfold d. lia.
  - rewrite trim_length, length_app. simpl. lia.
Qed.

(** ** Polling an unknown session *)

(** C4, as stated, fails: a poll for an agent id that was never created is
    answered with status 200 and an empty array. *)
Lemma C4_unknown_session_gets_empty_list :
  monitorUpdates initial !! "agent_0_nobody" = None
  ∧ activeMonitors initial = []
  ∧ fst (monitor_updates "agent_0_nobody" initial)
    = {| status := 200; body := UpdatesBody [] |}
  ∧ status (fst (monitor_updates "agent_0_nobody" initial)) ≠ 404.
Proof. vm_compute. repeat split. discriminate. Qed.

(** C4, amended: a poll for an agent id that has no log is answered like a
    poll that finds nothing new, with status 200 and an empty array; it
    leaves the logs as they are and records the cursor -1 for that id. *)
Theorem C4_poll_of_unknown_session
    (agentId : string) (st : State) :
  monitorUpdates st !! agentId = None →
  fst (monitor_updates agentId st) = {| status := 200; body := UpdatesBody [] |}
  ∧ monitorUpdates (snd (monitor_updates agentId st)) = monitorUpdates st
  ∧ sentUpdateIndices (snd (monitor_updates agentId st)) !! agentId = Some (-1).
Proof.
  intros Hnone.
  split; [|split; [apply monitor_updates_log|]].
  - unfold monitor_updates. rewrite Hnone. simpl.
    unfold Js.slice. by rewrite drop_nil.
  - rewrite monitor_updates_cursor. unfold UpdateLog.get. by rewrite Hnone.
Qed.

Lemma C4_poll_of_unknown_session_witness :
  fst (monitor_updates "agent_0_nobody" initial)
    = {| status := 200; body := UpdatesBody [] |}
  ∧ monitorUpdates (snd (monitor_updates "agent_0_nobody" initial))
    = monitorUpdates initial
  ∧ sentUpdateIndices (snd (monitor_updates "agent_0_nobody" initial))
      !! "agent_0_nobody" = Some (-1).
Proof.
  apply (C4_poll_of_unknown_session "agent_0_nobody" initial).
  reflexivity.
Defined.

(** ** Stopping a session *)

Section Stop.
Import Supervisor.

Lemma find_first {A} (P : A → bool) (l : list A) :
  match List.find P l with
  | None => Forall (λ x, P x = false) l
  | Some x =>
      ∃ before after,
        l = before ++ x :: after ∧ P x = true
        ∧ Forall (λ y, P y = false) before
  end.
Proof.
  induction l as [|a l IH]; simpl; [by constructor|].
  destruct (P a) eqn:Ha.
  - exists [], l. by repeat split.
  - destruct (List.find P l) as [x|].
    + destruct IH as (before & after & -> & Hx & Hbefore).
      exists (a :: before), after. repeat split; [done|by constructor].
    + by constructor.
Qed.

Lemma find_unique_first {A} (P : A → bool) (before after : list A) (x : A) :
  P x = true → Forall (λ y, P y = false) before →
  List.find P (before ++ x :: after) = Some x.
Proof.
  intros Hx Hbefore. induction Hbefore as [|y before Hy _ IH]; simpl.
  - by rewrite Hx.
  - by rewrite Hy.
Qed.

Lemma pair_from_fst {A B} (x : A * B) (a : A) : fst x = a → x = (a, snd x).
Proof. intros <-. by destruct x. Qed.

Lemma Forall_false_forallb {A} (P : A → bool) (l : list A) :
  forallb (λ x, negb (P x)) l = true → Forall (λ x, P x = false) l.
Proof.
  intros H. apply Forall_forall. intros x Hin%list_elem_of_In.
  apply negb_true_iff. revert x Hin. by apply forallb_forall.
Qed.

Lemma has_set {V} (k : string) (v : V) (m : list (string * V)) :
  OrderedMap.has k (OrderedMap.set k v m) = true.
Proof.
  unfold OrderedMap.set. destruct (OrderedMap.has k m) eqn:Hhas.
  - unfold OrderedMap.has in *. apply existsb_exists.
    apply existsb_exists in Hhas as ([k' v'] & Hin & Hk).
    exists (k, v). split; [|apply String.eqb_refl].
    apply in_map_iff. exists (k', v'). by rewrite Hk.
  - unfold OrderedMap.has. rewrite existsb_app. simpl.
    rewrite String.eqb_refl. simpl. by rewrite orb_true_r.
Qed.

Lemma get_set {V} (k : string) (v : V) (m : list (string * V)) :
  OrderedMap.get k (OrderedMap.set k v m) = Some v.
Proof.
  unfold OrderedMap.set, OrderedMap.get.
  destruct (OrderedMap.has k m) eqn:Hhas; unfold OrderedMap.has in Hhas.
  - induction m as [|[k' v'] m IH]; [done|]. simpl in *.
    destruct (String.eqb k' k) eqn:Hk; simpl.
    + by rewrite String.eqb_refl.
    + rewrite Hk. by apply IH.
  - induction m as [|[k' v'] m IH]; simpl in *.
    + by rewrite String.eqb_refl.
    + destruct (String.eqb k' k); [done|]. by apply IH.
Qed.

Lemma find_none {A} (P : A → bool) (l : list A) :
  Forall (λ y, P y = false) l → List.find P l = None.
Proof.
  intros Hall. induction Hall as [|y l Hy _ IH]; simpl; [done|].
  by rewrite Hy.
Qed.

Lemma has_delete {V} (k : string) (m : list (string * V)) :
  OrderedMap.has k (OrderedMap.delete k m) = false.
Proof.
  unfold OrderedMap.has, OrderedMap.delete.
  induction m as [|[k' v] m IH]; simpl; [done|].
  destruct (String.eqb k' k) eqn:Hk; simpl; [done|]. by rewrite Hk.
Qed.

Lemma has_middle {V} (k : string) (v : V) (before after : list (string * V)) :
  OrderedMap.has k (before ++ (k, v) :: after) = true.
Proof.
  unfold OrderedMap.has. rewrite existsb_app. simpl.
  rewrite String.eqb_refl. simpl. by rewrite orb_true_r.
Qed.

Lemma get_of_has {V} (k : string) (m : list (string * V)) :
  OrderedMap.has k m = true → is_Some (OrderedMap.get k m).
Proof.
  unfold OrderedMap.has, OrderedMap.get.
  induction m as [|[k' v] m IH]; simpl; [done|].
  destruct (String.eqb k' k); simpl; [by eexists|done].
Qed.

(** The outcome of the handler once the target is known to be a key of
    [activeMonitors]. *)
Lemma stop_of_target (req : StopRequest) (st : State) (target : string) :
  target_agent req st = Some target →
  JsString.is_empty target = false →
  OrderedMap.has target (activeMonitors st) = true →
  let out := stop_monitoring req st in
  fst (fst out) = {| status := 200; body := StoppedBody target |}
  ∧ OrderedMap.has target (activeMonitors (snd (fst out))) = false
  ∧ monitorUpdates (snd (fst out)) !! target = None
  ∧ sentUpdateIndices (snd (fst out)) = sentUpdateIndices st.
Proof.
  intros Htarget Hne Hhas. unfold stop_monitoring. rewrite Htarget.
  unfold truthy. rewrite Hne, Hhas. simpl.
  destruct (get_of_has _ _ Hhas) as [monitor ->].
  destruct (processes st !! process monitor) as [p|]; [destruct (killed p)|];
    simpl; rewrite has_delete, lookup_delete_eq; done.
Qed.

Lemma stop_without_target (req : StopRequest) (st : State) :
  target_agent req st = None → stop_monitoring req st = (not_found, st, None).
Proof. intros H. unfold stop_monitoring. by rewrite H. Qed.

(** The handler never touches [sentUpdateIndices]. *)
Lemma stop_keeps_cursors (req : StopRequest) (st : State) :
  sentUpdateIndices (snd (fst (stop_monitoring req st))) = sentUpdateIndices st.
Proof.
  unfold stop_monitoring.
  destruct (target_agent req st) as [target|]; [|done].
  destruct (negb (truthy (Some target)) || _); [done|].
  destruct (OrderedMap.get target (activeMonitors st)) as [monitor|]; [|done].
  destruct (processes st !! process monitor) as [p|]; [destruct (killed p)|]; done.
Qed.

(** The five-second timer finds the [killed] flag set by the SIGTERM that
    the handler has sent, and sends nothing. *)
Lemma timeout_after_sigterm (handle : string) (p : ChildProcess) (st : State) :
  exited p = false →
  let st1 := set_processes (λ ps, <[handle := Child.kill SIGTERM p]> ps) st in
  stop_timeout handle st1 = st1.
Proof.
  intros Halive st1. unfold stop_timeout, st1, set_processes. simpl.
  rewrite lookup_insert_eq. unfold Child.kill. by rewrite Halive.
Qed.

(** C7, on the code: an agent is started, writes two warnings and is polled
    once, so its cursor is 1; the child stays alive after SIGTERM.  The stop
    request removes the agent from [activeMonitors] and [monitorUpdates] but
    leaves its entry in [sentUpdateIndices]; when the five-second timer
    fires the child has received SIGTERM only, and it is still running. *)
Theorem C7_stop_leaves_cursor_and_sends_no_sigkill :
  let agent := Examples.agent in
  let st := snd (monitor_updates agent
                   (Examples.warn (Examples.warn Examples.started 0) 1)) in
  let out := stop_monitoring {| sessionId := None; req_agentId := Some agent |} st in
  let st' := snd (fst out) in
  let st'' := stop_timeout agent st' in
  fst (fst out) = {| status := 200; body := StoppedBody agent |}
  ∧ snd out = Some agent
  ∧ OrderedMap.has agent (activeMonitors st') = false
  ∧ monitorUpdates st' !! agent = None
  ∧ sentUpdateIndices st' !! agent = Some 1
  ∧ processes st'' !! agent
    = Some {| exited := false; killed := true; delivered := [SIGTERM] |}.
Proof. vm_compute. repeat split. Qed.

Lemma get_middle {V} (k : string) (v : V) (before after : list (string * V)) :
  Forall (λ e, String.eqb (fst e) k = false) before →
  OrderedMap.get k (before ++ (k, v) :: after) = Some v.
Proof.
  intros Hbefore. unfold OrderedMap.get.
  induction Hbefore as [|e before He _ IH]; simpl.
  - by rewrite String.eqb_refl.
  - by rewrite He.
Qed.

(** What the handler does once its target is found among the monitors:
    the two maps lose the target, the cursors stay, and the child of the
    target is sent SIGTERM, with the timer armed, unless its [killed] flag
    is set already. *)
Lemma stop_found (req : StopRequest) (st : State) (target : string)
    (monitor : Monitor) :
  target_agent req st = Some target →
  JsString.is_empty target = false →
  OrderedMap.has target (activeMonitors st) = true →
  OrderedMap.get target (activeMonitors st) = Some monitor →
  let out := stop_monitoring req st in
  let st' := snd (fst out) in
  activeMonitors st' = OrderedMap.delete target (activeMonitors st)
  ∧ monitorUpdates st' = delete target (monitorUpdates st)
  ∧ sentUpdateIndices st' = sentUpdateIndices st
  ∧ match processes st !! process monitor with
    | Some p =>
        if killed p
        then processes st' = processes st ∧ snd out = None
        else processes st'
             = <[process monitor := Child.kill SIGTERM p]> (processes st)
             ∧ snd out = Some (process monitor)
    | None => processes st' = processes st ∧ snd out = None
    end.
Proof.
  intros Htarget Hne Hhas Hget. unfold stop_monitoring. rewrite Htarget.
  unfold truthy. rewrite Hne, Hhas, Hget. simpl.
  destruct (processes st !! process monitor) as [p|]; [destruct (killed p)|];
    done.
Qed.

(** C10: with a session id and no agent id, the handler looks for the
    second piece of the session id cut at underscores (the text
    [undefined] when there is none) inside the keys of [activeMonitors], in
    insertion order.  It answers 404, changing nothing, exactly when no key
    contains that token; otherwise it stops the first key that contains it:
    it answers 200 with that key, sends SIGTERM to the child of that
    monitor and arms the timer for it (unless the [killed] flag of the
    child is set already), and removes the key from [activeMonitors] and
    [monitorUpdates]; no other child is signalled.  With two agents whose
    ids both contain the token, the first one is stopped and the second
    keeps running.  (The keys are agent ids, which are not empty.) *)
Theorem C10_stop_selects_by_token (s : string) (st : State) :
  JsString.is_empty s = false →
  Forall (λ e, JsString.is_empty (fst e) = false) (activeMonitors st) →
  let req := {| sessionId := Some s; req_agentId := None |} in
  let contains (e : string * Monitor) :=
    JsString.includes (fst e) (session_token s) in
  let out := stop_monitoring req st in
  let st' := snd (fst out) in
  (status (fst (fst out)) = 404
   ↔ Forall (λ e, contains e = false) (activeMonitors st))
  ∧ (Forall (λ e, contains e = false) (activeMonitors st) →
     out = (not_found, st, None))
  ∧ (∀ before id monitor after,
       activeMonitors st = before ++ (id, monitor) :: after →
       contains (id, monitor) = true →
       Forall (λ e, contains e = false) before →
       fst (fst out) = {| status := 200; body := StoppedBody id |}
       ∧ OrderedMap.has id (activeMonitors st') = false
       ∧ monitorUpdates st' !! id = None
       ∧ activeMonitors st' = OrderedMap.delete id (activeMonitors st)
       ∧ monitorUpdates st' = delete id (monitorUpdates st)
       ∧ sentUpdateIndices st' = sentUpdateIndices st
       ∧ match processes st !! process monitor with
         | Some p =>
             if killed p
             then processes st' = processes st ∧ snd out = None
             else processes st'
                  = <[process monitor := Child.kill SIGTERM p]> (processes st)
                  ∧ snd out = Some (process monitor)
         | None => processes st' = processes st ∧ snd out = None
         end)
  ∧ (let st0 := Examples.two_agents in
     let r0 := {| sessionId := Some "session_00"; req_agentId := None |} in
     let out0 := stop_monitoring r0 st0 in
     JsString.includes Examples.agent (session_token "session_00") = true
     ∧ JsString.includes Examples.other_agent (session_token "session_00") = true
     ∧ fst (fst out0) = {| status := 200; body := StoppedBody Examples.agent |}
     ∧ snd out0 = Some Examples.agent
     ∧ processes (snd (fst out0)) !! Examples.agent
       = Some {| exited := false; killed := true; delivered := [SIGTERM] |}
     ∧ processes (snd (fst out0)) !! Examples.other_agent = Some Child.fresh
     ∧ OrderedMap.has Examples.other_agent
         (activeMonitors (snd (fst out0))) = true).
Proof.
  intros Hs Hkeys req contains out st'.
  assert (Htarget : target_agent req st
                    = fst <$> List.find contains (activeMonitors st)).
  { unfold target_agent, req, truthy. simpl. rewrite Hs. simpl.
    unfold find_by_session. fold contains.
    by destruct (List.find contains (activeMonitors st)). }
  assert (Hnone : Forall (λ e, contains e = false) (activeMonitors st) →
                  out = (not_found, st, None)).
  { intros Hall. apply stop_without_target.
    by rewrite Htarget, (find_none _ _ Hall). }
  assert (Hsome : ∀ before id monitor after,
             activeMonitors st = before ++ (id, monitor) :: after →
             contains (id, monitor) = true →
             Forall (λ e, contains e = false) before →
             fst (fst out) = {| status := 200; body := StoppedBody id |}
             ∧ OrderedMap.has id (activeMonitors st') = false
             ∧ monitorUpdates st' !! id = None
             ∧ activeMonitors st' = OrderedMap.delete id (activeMonitors st)
             ∧ monitorUpdates st' = delete id (monitorUpdates st)
             ∧ sentUpdateIndices st' = sentUpdateIndices st
             ∧ match processes st !! process monitor with
               | Some p =>
                   if killed p
                   then processes st' = processes st ∧ snd out = None
                   else processes st'
                        = <[process monitor := Child.kill SIGTERM p]>
                            (processes st)
                        ∧ snd out = Some (process monitor)
               | None => processes st' = processes st ∧ snd out = None
               end).
  { intros before id monitor after Hactive Hid Hbefore.
    assert (Hfound : target_agent req st = Some id)
      by (by rewrite Htarget, Hactive, (find_unique_first _ _ _ _ Hid Hbefore)).
    assert (Hne : JsString.is_empty id = false).
    { rewrite Hactive in Hkeys. apply Forall_app in Hkeys as [_ Hkeys].
      by apply Forall_cons in Hkeys as [Hkey _]. }
    assert (Hhas : OrderedMap.has id (activeMonitors st) = true)
      by (rewrite Hactive; apply has_middle).
    assert (Hget : OrderedMap.get id (activeMonitors st) = Some monitor).
    { rewrite Hactive. apply get_middle.
      eapply Forall_impl; [exact Hbefore|]. intros [k m] Hk. cbn [fst].
      destruct (String.eqb_spec k id) as [->|]; [|done].
      unfold contains in Hk, Hid. simpl in Hk, Hid. congruence. }
    destruct (stop_of_target req st id Hfound Hne Hhas) as (H1 & H2 & H3 & _).
    destruct (stop_found req st id monitor Hfound Hne Hhas Hget)
      as (H4 & H5 & H6 & H7).
    by repeat split. }
  split; [|split; [done|split; [done|by vm_compute]]].
  split; [|by intros ->%Hnone].
  intros H404. pose proof (find_first contains (activeMonitors st)) as Hfind.
  destruct (List.find contains (activeMonitors st)) as [[id monitor]|];
    [|done].
  exfalso. destruct Hfind as (before & after & Hactive & Hid & Hbefore).
  destruct (Hsome before id monitor after Hactive Hid Hbefore) as [Hr _].
  rewrite Hr in H404. discriminate.
Qed.

Lemma C10_stop_selects_by_token_witness :
  let s := "session_1700000004200" in
  let st := Examples.two_agents in
  let req := {| sessionId := Some s; req_agentId := None |} in
  let out := stop_monitoring req st in
  fst (fst out) = {| status := 200; body := StoppedBody Examples.other_agent |}
  ∧ OrderedMap.has Examples.other_agent (activeMonitors (snd (fst out))) = false
  ∧ monitorUpdates (snd (fst out)) !! Examples.other_agent = None
  ∧ processes (snd (fst out)) !! Examples.other_agent
    = Some (Child.kill SIGTERM Child.fresh)
  ∧ snd out = Some Examples.other_agent.
Proof.
  intros s st req out.
  assert (Hs : JsString.is_empty s = false) by reflexivity.
  assert (Hkeys : Forall (λ e, JsString.is_empty (fst e) = false)
                    (activeMonitors st))
    by (vm_compute; repeat constructor).
  destruct (C10_stop_selects_by_token s st Hs Hkeys) as (_ & _ & Hfirst & _).
  assert (Hactive : ∃ m1 m2,
            activeMonitors st
            = [(Examples.agent, m1); (Examples.other_agent, m2)]
            ∧ process m2 = Examples.other_agent)
    by (vm_compute; eauto).
  destruct Hactive as (m1 & m2 & Hactive & Hprocess).
  destruct (Hfirst [(Examples.agent, m1)] Examples.other_agent m2 [])
    as (Hr & Hgone & Hlog & _ & _ & _ & Hsignal).
  - exact Hactive.
  - reflexivity.
  - repeat constructor.
  - rewrite Hprocess in Hsignal.
    assert (Hchild : processes st !! Examples.other_agent = Some Child.fresh)
      by (vm_compute; reflexivity).
    rewrite Hchild in Hsignal. cbn [killed Child.fresh] in Hsignal.
    destruct Hsignal as [Hprocs Htimer].
    split; [exact Hr|]. split; [exact Hgone|]. split; [exact Hlog|].
    split; [|exact Htimer].
    subst out req. rewrite Hprocs. apply lookup_insert_eq.
Defined.

End Stop.

(** ** The stdout listener *)

Section StdoutProperties.
Import JsString OutputParser.

(** The listener is studied for every behaviour of [JSON.parse]. *)
Variable JSON_parse : string → option JsValue.

Lemma split_nonempty (sep : ascii) (s : string) : split sep s ≠ [].
Proof.
  destruct s as [|c s]; simpl; [done|].
  destruct (Ascii.eqb c sep); [done|]. by destruct (split sep s).
Qed.

(** Cutting a text at a separator cuts the list of its pieces. *)
Lemma split_app (sep : ascii) (s1 s2 : string) :
  split sep (s1 +:+ String sep s2) = split sep s1 ++ split sep s2.
Proof.
  induction s1 as [|c s1 IH]; simpl.
  - by rewrite Ascii.eqb_refl.
  - destruct (Ascii.eqb c sep); [by rewrite IH|].
    rewrite IH. pose proof (split_nonempty sep s1) as Hne.
    by destruct (split sep s1).
Qed.


(** One line: what is pushed and how the closure variables change depend on
    the line and on the closure variables only; the map receives the
    trimmed array. *)
Lemma on_line_shape (now : string) (l : Listener) (line : string) :
  ∃ (e : list Update) (l' : Listener),
    agentId l' = agentId l
    ∧ processStarted l' = processStarted l
    ∧ ∀ updates st,
        on_line JSON_parse now (updates, l, st) line
        = (updates ++ e, l',
           set_monitorUpdates
             (λ m, <[agentId l := UpdateLog.trim (updates ++ e)]> m) st).
Proof.
  unfold on_line. eexists _, _. split; [|split].
  3: intros updates st; reflexivity.
  all: reflexivity.
Qed.





(** ** Metric lines *)

Lemma field_get_set (f g : Field) (v : JsNumber) (m : Metrics) :
  field_get f (field_set g v m)
  = if decide (f = g) then Some v else field_get f m.
Proof. destruct m, f, g; reflexivity. Qed.

(** A line leaves alone every field but the one of its branch, and that
    one too when its pattern does not match. *)
Lemma parse_metric_line_other (f : Field) (m : Metrics) (line : string) :
  (classify line = Some f → read_value f line = None) →
  field_get f (parse_metric_line m line) = field_get f m.
Proof.
  intros Hline. unfold parse_metric_line.
  destruct (classify line) as [g|]; [|done].
  destruct (read_value g line) as [v|] eqn:Hv; [|done].
  rewrite field_get_set. destruct (decide (f = g)) as [->|]; [|done].
  rewrite Hline in Hv; done.
Qed.

Lemma parse_metric_line_match (f : Field) (v : JsNumber) (m : Metrics)
    (line : string) :
  classify line = Some f → read_value f line = Some v →
  field_get f (parse_metric_line m line) = Some v.
Proof.
  intros Hf Hv. unfold parse_metric_line. rewrite Hf, Hv, field_get_set.
  by destruct (decide (f = f)).
Qed.

Lemma parse_metric_line_unknown (m : Metrics) (line : string) :
  classify line = None → parse_metric_line m line = m.
Proof. intros H. unfold parse_metric_line. by rewrite H. Qed.

Lemma fold_metric_lines_other (f : Field) (lines : list string) (m : Metrics) :
  (∀ line, line ∈ lines → classify line = Some f → read_value f line = None) →
  field_get f (fold_left parse_metric_line lines m) = field_get f m.
Proof.
  revert m. induction lines as [|line lines IH]; intros m Hlines; [done|].
  cbn [fold_left]. rewrite IH.
  - apply parse_metric_line_other. apply Hlines. apply list_elem_of_here.
  - intros line' Hin. apply Hlines. by apply list_elem_of_further.
Qed.

(** The value of a field after the loop is the one read on the last line of
    its branch whose pattern matched. *)
Lemma fold_metric_lines_last (f : Field) (v : JsNumber)
    (before after : list string) (line : string) (m : Metrics) :
  classify line = Some f → read_value f line = Some v →
  (∀ line', line' ∈ after → classify line' = Some f → read_value f line' = None) →
  field_get f (fold_left parse_metric_line (before ++ line :: after) m) = Some v.
Proof.
  intros Hf Hv Hafter. rewrite fold_left_app. cbn [fold_left].
  rewrite fold_metric_lines_other by done.
  by apply parse_metric_line_match.
Qed.

Lemma fold_metric_lines_unknown (before after : list string) (line : string)
    (m : Metrics) :
  classify line = None →
  fold_left parse_metric_line (before ++ line :: after) m
  = fold_left parse_metric_line (before ++ after) m.
Proof.
  intros H. rewrite !fold_left_app. cbn [fold_left].
  by rewrite parse_metric_line_unknown.
Qed.

Lemma has_keys_spec (m : Metrics) :
  has_keys m = false ↔ ∀ f, field_get f m = None.
Proof.
  unfold has_keys. split.
  - intros H f. destruct (field_get f m) eqn:Hf; [|done].
    assert (Hin : In f fields_in_order) by (destruct f; simpl; tauto).
    assert (existsb (λ f, bool_decide (is_Some (field_get f m)))
              fields_in_order = true) as Htrue.
    { apply existsb_exists. exists f. split; [done|].
      apply bool_decide_eq_true. rewrite Hf. by eexists. }
    congruence.
  - intros Hnone. apply not_true_is_false. intros Htrue.
    apply existsb_exists in Htrue as (f & _ & Hf).
    apply bool_decide_eq_true in Hf as [v Hf]. by rewrite Hnone in Hf.
Qed.

Lemma nonempty_false {A} (l : list A) : nonempty l = false → l = [].
Proof.
  unfold nonempty. destruct l; [done|]. intros H%Z.ltb_ge.
  rewrite length_cons in H. lia.
Qed.

(** A line with the marker is buffered; nothing is printed or cleared. *)
Lemma on_line_marker (now : string) (u : list Update) (l : Listener)
    (st : State) (line : string) :
  includes line marker = true →
  let r := on_line JSON_parse now (u, l, st) line in
  fst (fst r) = u ++ relay JSON_parse now l line (bufferLines l ++ [line])
  ∧ bufferLines (snd (fst r)) = bufferLines l ++ [line]
  ∧ printedMetrics (snd (fst r)) = printedMetrics l
  ∧ agentId (snd (fst r)) = agentId l
  ∧ absoluteFolderPath (snd (fst r)) = absoluteFolderPath l.
Proof.
  intros Hm. unfold on_line. rewrite Hm. simpl.
  rewrite andb_false_r. simpl. done.
Qed.

(** A line without the marker, not blank, ends the section: the buffered
    lines are parsed and printed, the buffer is cleared, and the line is
    relayed with an empty buffer. *)
Lemma on_line_plain (now : string) (u : list Update) (l : Listener)
    (st : State) (line : string) :
  includes line marker = false → is_blank line = false →
  let r := on_line JSON_parse now (u, l, st) line in
  fst (fst r) = u ++ relay JSON_parse now l line []
  ∧ bufferLines (snd (fst r)) = []
  ∧ printedMetrics (snd (fst r))
    = printedMetrics l
      ++ (if nonempty (bufferLines l)
          then option_list (parseMetricsSection (bufferLines l)) else [])
  ∧ agentId (snd (fst r)) = agentId l
  ∧ absoluteFolderPath (snd (fst r)) = absoluteFolderPath l.
Proof.
  intros Hm Hb. unfold on_line. rewrite Hm, Hb. simpl.
  rewrite !andb_true_r.
  destruct (nonempty (bufferLines l)) eqn:Hne; simpl.
  - destruct (parseMetricsSection (bufferLines l)); simpl;
      rewrite ?app_nil_r; done.
  - rewrite app_nil_r. by rewrite (nonempty_false _ Hne).
Qed.

(** What [relay] pushes depends on the listener through its agent id and
    folder only, and on the buffer only for a line with the words
    EXTRACTED FEATURES. *)
Lemma relay_plain (now : string) (l l' : Listener) (line : string)
    (buffer : list string) :
  agentId l' = agentId l → absoluteFolderPath l' = absoluteFolderPath l →
  includes line "EXTRACTED FEATURES" = false →
  relay JSON_parse now l' line buffer = relay JSON_parse now l line [].
Proof.
  intros Hid Hfolder Hf. unfold relay. by rewrite Hid, Hfolder, Hf.
Qed.

Lemma relay_empty_buffer (now : string) (l l' : Listener) (line : string) :
  agentId l' = agentId l → absoluteFolderPath l' = absoluteFolderPath l →
  relay JSON_parse now l' line [] = relay JSON_parse now l line [].
Proof.
  intros Hid Hfolder. unfold relay. by rewrite Hid, Hfolder.
Qed.

Lemma relay_without_metrics (now : string) (l : Listener) (line : string) :
  Forall (λ e, carries_metrics e = false) (relay JSON_parse now l line []).
Proof.
  unfold relay. rewrite andb_false_r.
  destruct (JSON_parse line) as [[| | | | |fields]|];
    try destruct (relayed_type fields); repeat constructor.
Qed.

(** A run of lines with the marker: each is relayed on its own, all are
    kept in the buffer, nothing is printed. *)
Lemma fold_on_line_run (now : string) (run : list string) (u : list Update)
    (l : Listener) (st : State) :
  Forall (λ line, includes line marker = true
                  ∧ includes line "EXTRACTED FEATURES" = false) run →
  let r := fold_left (on_line JSON_parse now) run (u, l, st) in
  fst (fst r) = u ++ flat_map (λ line, relay JSON_parse now l line []) run
  ∧ bufferLines (snd (fst r)) = bufferLines l ++ run
  ∧ printedMetrics (snd (fst r)) = printedMetrics l
  ∧ agentId (snd (fst r)) = agentId l
  ∧ absoluteFolderPath (snd (fst r)) = absoluteFolderPath l.
Proof.
  intros Hrun. revert u l st.
  induction Hrun as [|line run [Hm Hf] _ IH]; intros u l st.
  - cbn. by rewrite !app_nil_r.
  - cbn [fold_left flat_map].
    pose proof (on_line_marker now u l st line Hm) as (Hu & Hb & Hp & Hid & Hfo).
    destruct (on_line JSON_parse now (u, l, st) line) as [[u1 l1] st1].
    simpl in Hu, Hb, Hp, Hid, Hfo.
    destruct (IH u1 l1 st1) as (IHu & IHb & IHp & IHid & IHfo).
    rewrite IHu, IHb, IHp, IHid, IHfo, Hu, Hb, Hp, Hid, Hfo.
    rewrite <- !app_assoc. repeat split.
    f_equal. rewrite (relay_plain now l l line _ eq_refl eq_refl Hf).
    f_equal. apply flat_map_ext. intros line'.
    by apply relay_empty_buffer.
Qed.

(** C8, amended: for a run of lines that carry the marker, met with an empty
    buffer and followed by a line without the marker (none of them with
    the words EXTRACTED FEATURES), the listener pushes what it pushes for
    each line taken alone (a console-output update for a line that is not
    JSON), and none of these updates carries metrics.
    When the following line arrives the buffered run is given to
    [parseMetricsSection] and the result, unless it is [null], is printed
    on the server console; the buffer is then empty.  The result has, for
    each field, the value read on the last line of that field whose pattern
    matched; a field none of whose lines matched is absent, and a line
    with none of the nine labels changes nothing. *)
Theorem C8_metric_run_is_printed_not_pushed
    (now : string) (run : list string) (next : string)
    (u : list Update) (l : Listener) (st : State) :
  bufferLines l = [] →
  run ≠ [] →
  Forall (λ line, includes line marker = true
                  ∧ includes line "EXTRACTED FEATURES" = false) run →
  includes next marker = false →
  includes next "EXTRACTED FEATURES" = false →
  is_blank next = false →
  let r := fold_left (on_line JSON_parse now) (run ++ [next]) (u, l, st) in
  let pushed :=
    flat_map (λ line, relay JSON_parse now l line []) (run ++ [next]) in
  let metrics := fold_left parse_metric_line run no_metrics in
  (fst (fst r) = u ++ pushed
   ∧ Forall (λ e, carries_metrics e = false) pushed
   ∧ bufferLines (snd (fst r)) = []
   ∧ printedMetrics (snd (fst r))
     = printedMetrics l ++ option_list (parseMetricsSection run))
  ∧ (parseMetricsSection run = if has_keys metrics then Some metrics else None)
  ∧ (has_keys metrics = false ↔ ∀ f, field_get f metrics = None)
  ∧ (∀ f, (∀ line, line ∈ run → classify line = Some f →
                   read_value f line = None) →
          field_get f metrics = None)
  ∧ (∀ f v before line after,
       run = before ++ line :: after →
       classify line = Some f → read_value f line = Some v →
       (∀ line', line' ∈ after → classify line' = Some f →
                 read_value f line' = None) →
       field_get f metrics = Some v)
  ∧ (∀ before line after,
       run = before ++ line :: after → classify line = None →
       parseMetricsSection run = parseMetricsSection (before ++ after)).
Proof.
  intros Hbuf Hne Hrun Hm _ Hb r pushed metrics.
  split; [|split; [done|split; [apply has_keys_spec|split; [|split]]]].
  - subst r pushed. rewrite fold_left_app. cbn [fold_left].
    pose proof (fold_on_line_run now run u l st Hrun)
      as (Hu & Hbl & Hp & Hid & Hfo).
    destruct (fold_left (on_line JSON_parse now) run (u, l, st))
      as [[u1 l1] st1].
    simpl in Hu, Hbl, Hp, Hid, Hfo.
    pose proof (on_line_plain now u1 l1 st1 next Hm Hb)
      as (Hu' & Hbl' & Hp' & _).
    rewrite Hu', Hbl', Hp', Hu, Hbl, Hp, Hbuf. simpl.
    rewrite flat_map_app. simpl. rewrite app_nil_r.
    rewrite (relay_empty_buffer now l l1 next Hid Hfo).
    rewrite <- app_assoc. repeat split.
    + apply Forall_app. split.
      * apply Forall_flat_map. apply Forall_forall. intros line _.
        apply relay_without_metrics.
      * apply relay_without_metrics.
    + f_equal. unfold nonempty. destruct run; [done|]. done.
  - intros f Hnone. unfold metrics.
    rewrite fold_metric_lines_other by done. by destruct f.
  - intros f v before line after Heq Hf Hv Hafter. unfold metrics.
    rewrite Heq. by apply fold_metric_lines_last.
  - intros before line after Heq Hunknown. unfold parseMetricsSection.
    by rewrite Heq, fold_metric_lines_unknown.
Qed.

End StdoutProperties.

Section StdoutExamples.
Import JsString OutputParser.


(** C8, as stated, fails: the monitor prints a section of ten lines (the
    nine labels, one of them with a value that is not a number, and one
    unknown label) and then [Analysis complete].  The log receives eleven
    console-output updates and none of them carries metrics; the block is
    printed on the server console only. *)
Lemma C8_no_metrics_update_is_pushed :
  let chunk := Examples.chunk_of (Examples.metric_run ++ [Examples.after_run]) in
  let r := stdout_data JSON.parse "t" chunk Examples.listener initial in
  let log := UpdateLog.get Examples.agent (snd r) in
  length log = 11%nat
  ∧ filter (λ e, carries_metrics e = true) log = []
  ∧ length (filter (λ e, carries_metrics e = true) log) ≠ 1%nat
  ∧ printedMetrics (fst r)
    = [ {| loc := Some (ParseInt "120");
           complexity := Some (ParseFloat "7.5");
           dependencies := Some (ParseInt "4");
           functions := Some (ParseInt "7");
           classes := None;
           comments := Some (ParseInt "30");
           complexity_per_loc := Some (ParseFloat "0.06");
           comment_ratio := Some (ParseFloat "0.25");
           functions_per_class := Some (ParseFloat "3.5") |} ].
Proof. vm_compute. repeat split. discriminate. Qed.

Lemma C8_metric_run_is_printed_not_pushed_witness :
  let r :=
    fold_left (on_line JSON.parse "t")
      (Examples.metric_run ++ [Examples.after_run])
      ([], Examples.listener, initial) in
  let pushed :=
    flat_map (λ line, relay JSON.parse "t" Examples.listener line [])
      (Examples.metric_run ++ [Examples.after_run]) in
  fst (fst r) = [] ++ pushed
  ∧ Forall (λ e, carries_metrics e = false) pushed
  ∧ bufferLines (snd (fst r)) = []
  ∧ printedMetrics (snd (fst r))
    = printedMetrics Examples.listener
      ++ option_list (parseMetricsSection Examples.metric_run).
Proof.
  apply (C8_metric_run_is_printed_not_pushed JSON.parse "t"
           Examples.metric_run Examples.after_run [] Examples.listener initial).
  - reflexivity.
  - discriminate.
  - vm_compute. repeat constructor.
  - reflexivity.
  - reflexivity.
  - reflexivity.
Defined.

End StdoutExamples.

(** ** Starting a session *)

Section StartProperties.
Import OutputParser Supervisor Deploy.

Context {W : Type} (os : Os W).

(** *** Steps of the handler *)

Lemma bind_value {A B} (m : M A) (k : A → M B) (w w' : W) (a : A) :
  m w = (inr a, w') → bind m k w = k a w'.
Proof. intros H. unfold bind. by rewrite H. Qed.

Lemma bind_reply {A B} (m : M A) (k : A → M B) (w w' : W) (r : Response) :
  m w = (inl r, w') → bind m k w = (inl r, w').
Proof. intros H. unfold bind. by rewrite H. Qed.

Lemma bind_inr {A B} (m : M A) (k : A → M B) (w w' : W) (b : B) :
  bind m k w = (inr b, w') →
  ∃ a w1, m w = (inr a, w1) ∧ k a w1 = (inr b, w').
Proof.
  unfold bind. destruct (m w) as [[r|a] w1]; [done|]. intros H. by exists a, w1.
Qed.

Lemma await_resolved (op : W → Outcome * W) (on_reject : string → Response)
    (w w' : W) :
  op w = (Resolved, w') → await_or op on_reject w = (inr (), w').
Proof. intros H. unfold await_or. by rewrite H. Qed.

Lemma await_rejected (op : W → Outcome * W) (on_reject : string → Response)
    (w w' : W) (message : string) :
  op w = (Rejected message, w') →
  await_or op on_reject w = (inl (on_reject message), w').
Proof. intros H. unfold await_or. by rewrite H. Qed.

(** Goes past an awaited call that resolves, by hypothesis [H]. *)
Ltac awaited H :=
  rewrite (bind_value _ _ _ _ _ (await_resolved _ _ _ _ H)).

(** *** The folder of the deployment *)

Lemma resolve_absolute (folderPath : string) (w : W) :
  path_isAbsolute os folderPath = true →
  resolve os folderPath w = (inr folderPath, w).
Proof. intros H. unfold resolve. by rewrite H. Qed.

(** The first candidate that is a directory is taken. *)
Lemma resolve_found (folderPath found : string) (w : W) :
  path_isAbsolute os folderPath = false →
  List.find (λ p, is_directory os p w) (possiblePaths os folderPath w)
    = Some found →
  resolve os folderPath w = (inr found, w).
Proof.
  intros Hrel Hfound. unfold resolve. rewrite Hrel.
  unfold bind, read. by rewrite Hfound.
Qed.

(** With no candidate, the directory under [/tmp/riskguard_test] is made
    and seeded. *)
Lemma resolve_created (folderPath : string) (w w1 w2 : W) :
  path_isAbsolute os folderPath = false →
  Forall (λ p, is_directory os p w = false) (possiblePaths os folderPath w) →
  fs_mkdir_recursive os (tempPath os folderPath) w = (Resolved, w1) →
  fs_writeFile os (path_join os [tempPath os folderPath; "test.py"]) TestPy w1
    = (Resolved, w2) →
  resolve os folderPath w = (inr (tempPath os folderPath), w2).
Proof.
  intros Hrel Hnone Hmkdir Htest. unfold resolve. rewrite Hrel.
  unfold bind at 1 2. unfold read. rewrite (find_none _ _ Hnone).
  awaited Hmkdir. by awaited Htest.
Qed.

(** With no candidate and a directory that cannot be made, the handler
    answers 500 with the code DEPLOYMENT_LOCATION_ERROR. *)
Lemma resolve_not_created (folderPath message : string) (w w1 : W) :
  path_isAbsolute os folderPath = false →
  Forall (λ p, is_directory os p w = false) (possiblePaths os folderPath w) →
  fs_mkdir_recursive os (tempPath os folderPath) w = (Rejected message, w1) →
  resolve os folderPath w = (inl (location_error folderPath message), w1).
Proof.
  intros Hrel Hnone Hmkdir. unfold resolve. rewrite Hrel.
  unfold bind at 1 2. unfold read. rewrite (find_none _ _ Hnone).
  by rewrite (bind_reply _ _ _ _ _ (await_rejected _ _ _ _ _ Hmkdir)).
Qed.

Lemma check_writable_ok (folder : string) (w w1 w2 : W) :
  fs_stat os folder w = Some true →
  fs_writeFile os (path_join os [folder; ".riskguard_test"]) WriteProbe w
    = (Resolved, w1) →
  fs_unlink os (path_join os [folder; ".riskguard_test"]) w1 = (Resolved, w2) →
  check_writable os folder w = (inr (), w2).
Proof.
  intros Hstat Hprobe Hunlink. unfold check_writable.
  unfold bind at 1. unfold read. rewrite Hstat.
  awaited Hprobe. by apply await_resolved.
Qed.

Lemma deploy_files_ok (folder project : string) (w w1 w2 w3 : W) :
  let script := path_join os [folder; "portable_monitor.py"] in
  let config := path_join os [folder; "monitor_config.json"] in
  let requirements := path_join os [folder; "requirements.txt"] in
  fs_copyFile os (path_join os [sourceDir os; "portable_monitor.py"]) script w
    = (Resolved, w1) →
  fs_writeFile os config (MonitorConfig project) w1 = (Resolved, w2) →
  fs_writeFile os requirements Requirements w2 = (Resolved, w3) →
  deploy_files os folder project w
  = (inr [script; config; requirements], after_chmod os script w3).
Proof.
  intros script config requirements Hcopy Hconfig Hreq. unfold deploy_files.
  fold script config requirements.
  awaited Hcopy. awaited Hconfig. awaited Hreq.
  unfold after_chmod, bind, ret, run.
  by destruct (String.eqb (platform os) "win32").
Qed.

Lemma pythonExecutable_chosen (w : W) :
  pythonExecutable os w = (inr (fst (chosen_python os w)), snd (chosen_python os w)).
Proof.
  unfold pythonExecutable, chosen_python, bind, read, run, ret.
  by destruct (fs_access os _ w).
Qed.

(** *** The server state after the handler *)

(** The server state that the handler leaves when it arms its timer. *)
Lemma start_armed (req : StartRequest) (agentId now : string) (st st' : State)
    (w w' : W) (l : Listener) (project : string) :
  start os req agentId now st w = (Armed l project, st', w') →
  ∃ folder files,
    l = new_listener agentId folder
    ∧ project = req_projectName req
    ∧ st' = set_activeMonitors
              (OrderedMap.set agentId
                 {| process := agentId; folderPath := folder;
                    projectName := req_projectName req;
                    deployedFiles := files; startTime := now |})
              (set_monitorUpdates (λ m, <[agentId := []]> m)
                 (set_processes (λ ps, <[agentId := Child.fresh]> ps) st)).
Proof.
  unfold start.
  destruct (start_realtime_monitor os req agentId now st w)
    as [[r|[result st1]] w1] eqn:Hrun; [done|].
  intros [= -> -> ->]. unfold start_realtime_monitor in Hrun.
  apply bind_inr in Hrun as (folder & w2 & _ & Hrun).
  apply bind_inr in Hrun as (_ & w3 & _ & Hrun).
  apply bind_inr in Hrun as (files & w4 & _ & Hrun).
  apply bind_inr in Hrun as (python & w5 & _ & Hrun).
  apply bind_inr in Hrun as (_ & w6 & _ & Hrun).
  unfold ret in Hrun. injection Hrun as <- <- <- <-.
  by exists folder, files.
Qed.

(** A response sent by the handler itself leaves the server state alone. *)
Lemma start_replied (req : StartRequest) (agentId now : string) (st st' : State)
    (w w' : W) (r : Response) :
  start os req agentId now st w = (Replied r, st', w') → st' = st.
Proof.
  unfold start.
  destruct (start_realtime_monitor os req agentId now st w)
    as [[r'|[result st1]] w1] eqn:Hrun; [by intros [= _ <- _]|].
  intros [= -> -> ->]. unfold start_realtime_monitor in Hrun.
  apply bind_inr in Hrun as (folder & w2 & _ & Hrun).
  apply bind_inr in Hrun as (_ & w3 & _ & Hrun).
  apply bind_inr in Hrun as (files & w4 & _ & Hrun).
  apply bind_inr in Hrun as (python & w5 & _ & Hrun).
  apply bind_inr in Hrun as (_ & w6 & _ & Hrun).
  unfold ret in Hrun. discriminate.
Qed.

(** C6, amended: when the handler answers by itself (as with the 500 of a
    [spawn] that throws) it leaves the server state as it was.  When it
    has armed its timer the log of the agent exists and the agent is in
    [activeMonitors]; a launch failure that the child process then reports
    through its [error] event is not answered to the caller: the timer
    sends the success response, the agent is removed from
    [activeMonitors], and the failure is pushed on the log as an error
    update.  Node emits [close] after the [error] of a child that failed
    to spawn, so a stop notice follows it on the log, and the next poll
    returns both, the error first. *)
Theorem C6_launch_error_is_reported_by_polling
    (req : StartRequest) (agentId now : string) (st : State) (w : W) :
  sentUpdateIndices st !! agentId = None →
  match start os req agentId now st w with
  | (Replied r, st', _) => st' = st
  | (Armed l project, st', _) =>
      monitorUpdates st' !! agentId = Some []
      ∧ OrderedMap.has agentId (activeMonitors st') = true
      ∧ status (start_timeout l project) = 200
      ∧ (∃ folder files,
           body (start_timeout l project)
           = StartedBody agentId folder project files)
      ∧ ∀ message later code closed,
          let failure :=
            ErrorUpdate ("Failed to start monitoring: " +:+ message)
              later agentId in
          let notice :=
            MonitorStopped ("Process exited with code " +:+ show_code code)
              closed agentId in
          let failed := process_error later message l st' in
          let ended := process_close closed code l failed in
          OrderedMap.has agentId (activeMonitors failed) = false
          ∧ UpdateLog.get agentId failed = [failure]
          ∧ OrderedMap.has agentId (activeMonitors ended) = false
          ∧ UpdateLog.get agentId ended = [failure; notice]
          ∧ fst (monitor_updates agentId ended)
            = {| status := 200; body := UpdatesBody [failure; notice] |}
  end.
Proof.
  intros Hfresh.
  destruct (start os req agentId now st w) as [[[r|l project] st'] w'] eqn:Hstart.
  { by eapply start_replied. }
  destruct (start_armed _ _ _ _ _ _ _ _ _ Hstart) as (folder & files & -> & -> & ->).
  split; [simpl; by rewrite lookup_insert_eq|].
  split; [apply has_set|].
  split; [done|]. split; [by eexists _, _|].
  intros message later code closed failure notice failed ended.
  assert (Hfailed : UpdateLog.get agentId failed = [failure]).
  { subst failed. unfold process_error. rewrite get_push.
    unfold UpdateLog.get. simpl. by rewrite lookup_insert_eq. }
  assert (Hended : UpdateLog.get agentId ended = [failure; notice]).
  { subst ended. unfold process_close. rewrite get_push.
    cbn [OutputParser.agentId new_listener].
    change (UpdateLog.get agentId
              (set_activeMonitors (OrderedMap.delete agentId)
                 (set_processes (alter Child.exit agentId) failed)))
      with (UpdateLog.get agentId failed).
    by rewrite Hfailed. }
  split; [apply has_delete|]. split; [done|].
  split; [apply has_delete|]. split; [done|].
  rewrite (monitor_updates_response agentId ended 0).
  - by rewrite Hended.
  - change (sentUpdateIndices ended) with (sentUpdateIndices st).
    by rewrite Hfresh.
Qed.

(** With no candidate and a directory that is made but cannot be seeded,
    the answer is the same 500. *)
Lemma resolve_not_seeded (folderPath message : string) (w w1 w2 : W) :
  path_isAbsolute os folderPath = false →
  Forall (λ p, is_directory os p w = false) (possiblePaths os folderPath w) →
  fs_mkdir_recursive os (tempPath os folderPath) w = (Resolved, w1) →
  fs_writeFile os (path_join os [tempPath os folderPath; "test.py"]) TestPy w1
    = (Rejected message, w2) →
  resolve os folderPath w = (inl (location_error folderPath message), w2).
Proof.
  intros Hrel Hnone Hmkdir Htest. unfold resolve. rewrite Hrel.
  unfold bind at 1 2. unfold read. rewrite (find_none _ _ Hnone).
  awaited Hmkdir.
  by rewrite (bind_reply _ _ _ _ _ (await_rejected _ _ _ _ _ Htest)).
Qed.

(** C9, amended: for a folder path that is not absolute, when none of the
    candidate locations is a directory, the handler makes the directory
    [path.join('/tmp', 'riskguard_test', folderPath)] and writes [test.py]
    into it.  When one of these two calls rejects it answers 500 with the
    code DEPLOYMENT_LOCATION_ERROR, which is a path error, and the server
    state is as before.  When both resolve, and the calls that follow (the
    write probe, the three deployed files, the launch) resolve too, it
    registers the agent with that directory as its folder and arms the
    timer whose response is the success response naming that
    directory. *)
Theorem C9_unfound_relative_folder_is_created
    (req : StartRequest) (agentId now : string) (st : State) (w : W) :
  let folderPath := req_folderPath req in
  let project := req_projectName req in
  let temp := path_join os ["/tmp"; "riskguard_test"; folderPath] in
  let script := path_join os [temp; "portable_monitor.py"] in
  let config := path_join os [temp; "monitor_config.json"] in
  let requirements := path_join os [temp; "requirements.txt"] in
  let probe := path_join os [temp; ".riskguard_test"] in
  let path_error :=
    failure 500
      ("Could not find or create deployment location for " +:+ quoted folderPath)
      (Some "DEPLOYMENT_LOCATION_ERROR") in
  path_isAbsolute os folderPath = false →
  Forall (λ p, is_directory os p w = false) (possiblePaths os folderPath w) →
  (∀ message w1,
     fs_mkdir_recursive os temp w = (Rejected message, w1) →
     start os req agentId now st w = (Replied path_error, st, w1))
  ∧ (∀ message w1 w2,
       fs_mkdir_recursive os temp w = (Resolved, w1) →
       fs_writeFile os (path_join os [temp; "test.py"]) TestPy w1
         = (Rejected message, w2) →
       start os req agentId now st w = (Replied path_error, st, w2))
  ∧ (∀ w1 w2 w3 w4 w5 w6 w7 w',
       let python := fst (chosen_python os (after_chmod os script w7)) in
       let w8 := snd (chosen_python os (after_chmod os script w7)) in
       fs_mkdir_recursive os temp w = (Resolved, w1) →
       fs_writeFile os (path_join os [temp; "test.py"]) TestPy w1
         = (Resolved, w2) →
       fs_stat os temp w2 = Some true →
       fs_writeFile os probe WriteProbe w2 = (Resolved, w3) →
       fs_unlink os probe w3 = (Resolved, w4) →
       fs_copyFile os (path_join os [sourceDir os; "portable_monitor.py"])
         script w4 = (Resolved, w5) →
       fs_writeFile os config (MonitorConfig project) w5 = (Resolved, w6) →
       fs_writeFile os requirements Requirements w6 = (Resolved, w7) →
       spawn os python
         [script; "--watch-dir"; temp; "--config"; config; "--project-id"; project]
         temp w8 = (Resolved, w') →
       ∃ st',
         start os req agentId now st w
           = (Armed (new_listener agentId temp) project, st', w')
         ∧ monitorUpdates st' !! agentId = Some []
         ∧ OrderedMap.get agentId (activeMonitors st')
           = Some {| process := agentId; folderPath := temp;
                     projectName := project;
                     deployedFiles := [script; config; requirements];
                     startTime := now |}
         ∧ start_timeout (new_listener agentId temp) project
           = {| status := 200;
                body := StartedBody agentId temp project
                          ["portable_monitor.py"; "monitor_config.json";
                           "requirements.txt"] |}).
Proof.
  intros folderPath project temp script config requirements probe path_error
    Hrel Hnone.
  split; [|split].
  - intros message w1 Hmkdir. unfold start, start_realtime_monitor.
    fold folderPath.
    by rewrite (bind_reply _ _ _ _ _
                  (resolve_not_created folderPath message w w1 Hrel Hnone Hmkdir)).
  - intros message w1 w2 Hmkdir Htest. unfold start, start_realtime_monitor.
    fold folderPath.
    by rewrite (bind_reply _ _ _ _ _
                  (resolve_not_seeded folderPath message w w1 w2 Hrel Hnone
                     Hmkdir Htest)).
  - intros w1 w2 w3 w4 w5 w6 w7 w' python w8
      Hmkdir Htest Hstat Hprobe Hunlink Hcopy Hconfig Hreq Hspawn.
    eexists. split; [|split; [|split]]; [| | |reflexivity].
    + unfold start, start_realtime_monitor. fold folderPath project.
      rewrite (bind_value _ _ _ _ _
                 (resolve_created folderPath w w1 w2 Hrel Hnone Hmkdir Htest)).
      rewrite (bind_value _ _ _ _ _
                 (check_writable_ok _ w2 w3 w4 Hstat Hprobe Hunlink)).
      rewrite (bind_value _ _ _ _ _
                 (deploy_files_ok _ project w4 w5 w6 w7 Hcopy Hconfig Hreq)).
      rewrite (bind_value _ _ _ _ _ (pythonExecutable_chosen _)).
      unfold tempPath. fold temp script config python w8.
      awaited Hspawn. reflexivity.
    + simpl. by rewrite lookup_insert_eq.
    + simpl. apply get_set.
Qed.

End StartProperties.

Section StartExamples.
Import OutputParser Supervisor Deploy.

(** C6, as stated, fails: on the machine of the examples the handler
    deploys the monitor and launches it; the launch fails because the
    interpreter is missing, which the child reports through its [error]
    event, followed by its [close] event.  The log of the agent has been
    created, the caller receives the success response, and the failure
    is an update of the log that a poll returns. *)
Lemma C6_launch_failure_answers_success :
  let agent := Examples.agent in
  let l := new_listener agent "/tmp/riskguard_test/proj" in
  let failed := process_error "t" "spawn python3 ENOENT" l Examples.started in
  let ended := process_close "t" (Some (-2)) l failed in
  fst (fst Examples.launch) = Armed l "Demo"
  ∧ monitorUpdates Examples.started !! agent = Some []
  ∧ status (start_timeout l "Demo") = 200
  ∧ poll agent ended
    = [ErrorUpdate "Failed to start monitoring: spawn python3 ENOENT" "t" agent;
       MonitorStopped "Process exited with code -2" "t" agent]
  ∧ ¬ (400 ≤ status (start_timeout l "Demo")
       ∧ monitorUpdates Examples.started !! agent = None
       ∧ poll agent ended = []).
Proof. vm_compute. repeat split. intros (H & _). by apply H. Qed.

Lemma C6_launch_error_is_reported_by_polling_witness :
  match Examples.launch with
  | (Replied r, st', _) => st' = initial
  | (Armed l project, st', _) =>
      monitorUpdates st' !! Examples.agent = Some []
      ∧ OrderedMap.has Examples.agent (activeMonitors st') = true
      ∧ status (start_timeout l project) = 200
      ∧ (∃ folder files,
           body (start_timeout l project)
           = StartedBody Examples.agent folder project files)
      ∧ ∀ message later code closed,
          let failure :=
            ErrorUpdate ("Failed to start monitoring: " +:+ message)
              later Examples.agent in
          let notice :=
            MonitorStopped ("Process exited with code " +:+ show_code code)
              closed Examples.agent in
          let failed := process_error later message l st' in
          let ended := process_close closed code l failed in
          OrderedMap.has Examples.agent (activeMonitors failed) = false
          ∧ UpdateLog.get Examples.agent failed = [failure]
          ∧ OrderedMap.has Examples.agent (activeMonitors ended) = false
          ∧ UpdateLog.get Examples.agent ended = [failure; notice]
          ∧ fst (monitor_updates Examples.agent ended)
            = {| status := 200; body := UpdatesBody [failure; notice] |}
  end.
Proof.
  apply (C6_launch_error_is_reported_by_polling Machine.os Examples.request
           Examples.agent "t" initial Machine.disk).
  reflexivity.
Defined.

(** C9, as stated, fails: on the machine of the examples, with a file in
    the place of [/tmp/riskguard_test], the path [proj] is relative and
    none of its candidate locations is a directory; the directory cannot
    be made and the handler answers with the path error.  And for the
    path [../escape] the directory that is made and reported is
    [/tmp/escape], which is not under [/tmp/riskguard_test]. *)
Lemma C9_uncreatable_folder_is_a_path_error :
  let w : Machine.Fs := <["/tmp/riskguard_test" := Machine.File TestPy]> Machine.disk in
  let out := start Machine.os Examples.request Examples.agent "t" initial w in
  let escape :=
    start Machine.os
      {| req_folderPath := "../escape"; req_projectName := "Demo" |}
      Examples.agent "t" initial Machine.disk in
  path_isAbsolute Machine.os "proj" = false
  ∧ forallb (λ p, negb (is_directory Machine.os p w))
      (possiblePaths Machine.os "proj" w) = true
  ∧ fst (fst out)
    = Replied
        (failure 500
           ("Could not find or create deployment location for " +:+ quoted "proj")
           (Some "DEPLOYMENT_LOCATION_ERROR"))
  ∧ snd (fst out) = initial
  ∧ fst (fst escape) = Armed (new_listener Examples.agent "/tmp/escape") "Demo"
  ∧ start_timeout (new_listener Examples.agent "/tmp/escape") "Demo"
    = {| status := 200;
         body := StartedBody Examples.agent "/tmp/escape" "Demo"
                   ["portable_monitor.py"; "monitor_config.json";
                    "requirements.txt"] |}.
Proof. vm_compute. repeat split. Qed.

Lemma C9_unfound_relative_folder_is_created_witness :
  let temp := path_join Machine.os ["/tmp"; "riskguard_test"; "proj"] in
  ∃ st' w',
    start Machine.os Examples.request Examples.agent "t" initial Machine.disk
      = (Armed (new_listener Examples.agent temp) "Demo", st', w')
    ∧ monitorUpdates st' !! Examples.agent = Some []
    ∧ start_timeout (new_listener Examples.agent temp) "Demo"
      = {| status := 200;
           body := StartedBody Examples.agent temp "Demo"
                     ["portable_monitor.py"; "monitor_config.json";
                      "requirements.txt"] |}.
Proof.
  intros temp.
  set (os := Machine.os).
  set (source := path_join os [sourceDir os; "portable_monitor.py"]).
  set (script := path_join os [temp; "portable_monitor.py"]).
  set (config := path_join os [temp; "monitor_config.json"]).
  set (probe := path_join os [temp; ".riskguard_test"]).
  pose (w1 := snd (fs_mkdir_recursive os temp Machine.disk)).
  pose (w2 := snd (fs_writeFile os (path_join os [temp; "test.py"]) TestPy w1)).
  pose (w3 := snd (fs_writeFile os probe WriteProbe w2)).
  pose (w4 := snd (fs_unlink os probe w3)).
  pose (w5 := snd (fs_copyFile os source script w4)).
  pose (w6 := snd (fs_writeFile os config (MonitorConfig "Demo") w5)).
  pose (w7 := snd (fs_writeFile os (path_join os [temp; "requirements.txt"])
                     Requirements w6)).
  pose (w8 := snd (chosen_python os (after_chmod os script w7))).
  pose (w' := snd (spawn os (fst (chosen_python os (after_chmod os script w7)))
                     [script; "--watch-dir"; temp; "--config"; config;
                      "--project-id"; "Demo"] temp w8)).
  destruct (C9_unfound_relative_folder_is_created os Examples.request
              Examples.agent "t" initial Machine.disk) as (_ & _ & Hcreated).
  - vm_compute. reflexivity.
  - apply Forall_false_forallb. vm_compute. reflexivity.
  - destruct (Hcreated w1 w2 w3 w4 w5 w6 w7 w') as [st' Hstarted].
    + apply pair_from_fst. vm_compute. reflexivity.
    + apply pair_from_fst. vm_compute. reflexivity.
    + vm_compute. reflexivity.
    + apply pair_from_fst. vm_compute. reflexivity.
    + apply pair_from_fst. vm_compute. reflexivity.
    + apply pair_from_fst. vm_compute. reflexivity.
    + apply pair_from_fst. vm_compute. reflexivity.
    + apply pair_from_fst. vm_compute. reflexivity.
    + apply pair_from_fst. vm_compute. reflexivity.
    + exists st', w'. destruct Hstarted as (Hstart & Hlog & _ & Hreply).
      by repeat split.
Defined.

End StartExamples.

(** * Further properties of the routes and of the page *)

(** ** The stdout listener on a whole chunk *)

Section ChunkProperties.
Import JsString OutputParser.

Variable JSON_parse : string → option JsValue.

Lemma relay_at_most_one (now : string) (l : Listener) (line : string)
    (buffer : list string) :
  (length (relay JSON_parse now l line buffer) ≤ 1)%nat.
Proof.
  unfold relay.
  destruct (JSON_parse line) as [[| | | | |fields]|];
    try destruct (relayed_type fields); simpl; lia.
Qed.

(** The local array after the lines of a chunk: what was there, then at
    most one update per line. *)
Lemma fold_on_line_pushed (now : string) (lines : list string)
    (u : list Update) (l : Listener) (st : State) :
  ∃ pushed,
    fst (fst (fold_left (on_line JSON_parse now) lines (u, l, st))) = u ++ pushed
    ∧ (length pushed ≤ length lines)%nat.
Proof.
  revert u l st. induction lines as [|line lines IH]; intros u l st.
  - exists []. by rewrite app_nil_r.
  - cbn [fold_left].
    destruct (on_line JSON_parse now (u, l, st) line) as [[u1 l1] st1] eqn:Hline.
    assert (∃ e, u1 = u ++ e ∧ (length e ≤ 1)%nat) as (e & -> & He).
    { unfold on_line in Hline. injection Hline as <- _ _.
      eexists. split; [reflexivity|apply relay_at_most_one]. }
    destruct (IH (u ++ e) l1 st1) as (pushed & -> & Hlen).
    exists (e ++ pushed). rewrite app_assoc. split; [done|].
    rewrite length_app. simpl. lia.
Qed.

(** The state after the lines of a chunk: only the array of the agent has
    changed, and it is the trimmed local array. *)
Lemma fold_on_line_state (now : string) (lines : list string)
    (u : list Update) (l : Listener) (st : State) :
  lines ≠ [] →
  let r := fold_left (on_line JSON_parse now) lines (u, l, st) in
  snd r = set_monitorUpdates
            (λ m, <[agentId l := UpdateLog.trim (fst (fst r))]> m) st.
Proof.
  intros Hne. revert u l st Hne.
  induction lines as [|line lines IH]; intros u l st Hne; [done|].
  cbn [fold_left].
  destruct (on_line_shape JSON_parse now l line) as (e & l' & Hid & _ & Hstep).
  rewrite Hstep. destruct lines as [|line' lines]; [done|].
  rewrite IH by done. rewrite Hid.
  unfold set_monitorUpdates. simpl. f_equal. apply insert_insert_eq.
Qed.

(** X1: a chunk with at least one line that is not blank rewrites the array
    of its agent as the last 50 entries of what was there followed by
    what the lines push, which is at most one update per line; the arrays
    of the other agents, the cursors and [activeMonitors] are left as they
    were. *)
Theorem X1_chunk_appends_and_trims
    (now chunk : string) (l : Listener) (st : State) :
  lines_of chunk ≠ [] →
  let st' := snd (stdout_data JSON_parse now chunk l st) in
  (∃ pushed,
     UpdateLog.get (agentId l) st'
     = UpdateLog.trim (UpdateLog.get (agentId l) st ++ pushed)
     ∧ (length pushed ≤ length (lines_of chunk))%nat)
  ∧ (length (UpdateLog.get (agentId l) st') ≤ 50)%nat
  ∧ (∀ other, other ≠ agentId l →
       monitorUpdates st' !! other = monitorUpdates st !! other)
  ∧ sentUpdateIndices st' = sentUpdateIndices st
  ∧ activeMonitors st' = activeMonitors st.
Proof.
  intros Hne st'. subst st'. unfold stdout_data.
  set (l0 := {| agentId := agentId l |}).
  set (u0 := Js.or_empty (monitorUpdates st !! agentId l)).
  pose proof (fold_on_line_state now (lines_of chunk) u0 l0 st Hne) as Hst.
  destruct (fold_on_line_pushed now (lines_of chunk) u0 l0 st)
    as (pushed & Hpushed & Hlen).
  destruct (fold_left (on_line JSON_parse now) (lines_of chunk) (u0, l0, st))
    as [[u1 l1] st1].
  simpl in Hst, Hpushed. subst st1 u1. simpl.
  assert (Hget : UpdateLog.get (agentId l)
                   (set_monitorUpdates
                      (λ m, <[agentId l := UpdateLog.trim (u0 ++ pushed)]> m) st)
                 = UpdateLog.trim (u0 ++ pushed)).
  { unfold UpdateLog.get. simpl. by rewrite lookup_insert_eq. }
  split; [by exists pushed|]. split.
  - rewrite Hget, trim_length. lia.
  - split; [|done]. intros other Hother. simpl.
    by rewrite lookup_insert_ne.
Qed.

Lemma ws2_high (c0 c1 : ascii) :
  ws2 c0 c1 = true → (128 ≤ code c0 ∧ 128 ≤ code c1)%N.
Proof.
  unfold ws2. intros [Ha Hb]%andb_true_iff.
  apply N.eqb_eq in Ha, Hb. lia.
Qed.

Lemma ws3_high (c0 c1 c2 : ascii) :
  ws3 c0 c1 c2 = true → (128 ≤ code c0 ∧ 128 ≤ code c1 ∧ 128 ≤ code c2)%N.
Proof.
  unfold ws3. generalize (code c0), (code c1), (code c2). intros a b c Hws.
  repeat (rewrite orb_true_iff in Hws || rewrite andb_true_iff in Hws).
  rewrite ?N.eqb_eq, ?N.leb_le in Hws. lia.
Qed.

Lemma low_not_LF (c : ascii) : (128 ≤ code c)%N → Ascii.eqb c LF = false.
Proof.
  intros Hc. apply Ascii.eqb_neq. intros ->. vm_compute in Hc. by apply Hc.
Qed.

(** Every piece of a text that is all white space is all white space. *)
Lemma blank_pieces (n : nat) (s : string) :
  (String.length s ≤ n)%nat → is_blank s = true →
  Forall (λ piece, is_blank piece = true) (split LF s).
Proof.
  revert s. induction n as [|n IH]; intros s Hlen Hblank.
  { destruct s; [|simpl in Hlen; lia]. by repeat constructor. }
  destruct s as [|c0 s1]; [by repeat constructor|].
  unfold is_blank in Hblank. cbn [trim_start] in Hblank.
  cbn [split]. destruct (ws1 c0) eqn:H1.
  - assert (Hrest : Forall (λ piece, is_blank piece = true) (split LF s1))
      by (apply IH; [simpl in Hlen; lia|done]).
    destruct (Ascii.eqb c0 LF); [by constructor|].
    pose proof (split_nonempty LF s1) as Hne.
    destruct (split LF s1) as [|piece rest]; [done|].
    apply Forall_cons in Hrest as [Hpiece Hrest]. constructor; [|done].
    unfold is_blank. cbn [trim_start]. by rewrite H1.
  - destruct s1 as [|c1 s2]; [done|]. destruct (ws2 c0 c1) eqn:H2.
    + assert (Hrest : Forall (λ piece, is_blank piece = true) (split LF s2))
        by (apply IH; [simpl in Hlen; lia|done]).
      destruct (ws2_high _ _ H2) as [Hc0 Hc1].
      pose proof (low_not_LF _ Hc1) as H1'. rewrite (low_not_LF _ Hc0).
      cbn [split]. rewrite H1'.
      pose proof (split_nonempty LF s2) as Hne.
      destruct (split LF s2) as [|piece rest]; [done|].
      apply Forall_cons in Hrest as [Hpiece Hrest]. constructor; [|done].
      unfold is_blank. cbn [trim_start]. by rewrite H1, H2.
    + destruct s2 as [|c2 s3]; [done|]. destruct (ws3 c0 c1 c2) eqn:H3; [|done].
      assert (Hrest : Forall (λ piece, is_blank piece = true) (split LF s3))
        by (apply IH; [simpl in Hlen; lia|done]).
      destruct (ws3_high _ _ _ H3) as (Hc0 & Hc1 & Hc2).
      pose proof (low_not_LF _ Hc1) as H1'. pose proof (low_not_LF _ Hc2) as H2'.
      rewrite (low_not_LF _ Hc0).
      cbn [split]. rewrite H1', H2'.
      pose proof (split_nonempty LF s3) as Hne.
      destruct (split LF s3) as [|piece rest]; [done|].
      apply Forall_cons in Hrest as [Hpiece Hrest]. constructor; [|done].
      unfold is_blank. cbn [trim_start]. by rewrite H1, H2, H3.
Qed.

(** X2: a chunk that holds nothing but white space and line feeds leaves the
    server state as it was (it does not even create the array of the
    agent) and leaves the buffered lines alone; it only records that the
    process has started. *)
Theorem X2_blank_chunk_changes_nothing
    (now chunk : string) (l : Listener) (st : State) :
  is_blank chunk = true →
  snd (stdout_data JSON_parse now chunk l st) = st
  ∧ bufferLines (fst (stdout_data JSON_parse now chunk l st)) = bufferLines l
  ∧ processStarted (fst (stdout_data JSON_parse now chunk l st)) = true.
Proof.
  intros Hblank.
  assert (Hlines : lines_of chunk = []).
  { unfold lines_of.
    pose proof (blank_pieces _ chunk (le_n _) Hblank) as Hall.
    induction Hall as [|piece rest Hpiece _ IH]; [done|].
    rewrite filter_cons. destruct (decide (is_blank piece = false)); [congruence|done]. }
  unfold stdout_data. rewrite Hlines. done.
Qed.

End ChunkProperties.

Section ChunkExamples.
Import JsString OutputParser.

Lemma X1_chunk_appends_and_trims_witness :
  let chunk := "Watching for changes" +:+ String LF EmptyString in
  let st' := snd (stdout_data JSON.parse "t" chunk Examples.listener initial) in
  (length (UpdateLog.get Examples.agent st') ≤ 50)%nat
  ∧ sentUpdateIndices st' = sentUpdateIndices initial.
Proof.
  intros chunk st'.
  destruct (X1_chunk_appends_and_trims JSON.parse "t" chunk Examples.listener
              initial) as (_ & Hbound & _ & Hcursors & _).
  - vm_compute. discriminate.
  - split; [exact Hbound|exact Hcursors].
Defined.

Lemma X2_blank_chunk_changes_nothing_witness :
  let chunk := "  " +:+ String LF (String LF "   ") in
  snd (stdout_data JSON.parse "t" chunk Examples.listener initial) = initial.
Proof.
  intros chunk.
  destruct (X2_blank_chunk_changes_nothing JSON.parse "t" chunk
              Examples.listener initial) as (Hstate & _).
  - vm_compute. reflexivity.
  - exact Hstate.
Defined.

End ChunkExamples.

(** ** The lines of a chunk *)

Section LineProperties.
Import JsString OutputParser.

Lemma includes_nil_needle (s : string) : includes s EmptyString = true.
Proof. by destruct s. Qed.

(** No piece of a cut text holds the separator. *)
Lemma split_pieces_without_sep (sep : ascii) (s : string) :
  Forall (λ piece, includes piece (String sep EmptyString) = false)
    (split sep s).
Proof.
  induction s as [|c s IH]; simpl; [by repeat constructor|].
  destruct (Ascii.eqb c sep) eqn:Hc.
  - constructor; [done|exact IH].
  - pose proof (split_nonempty sep s) as Hne.
    destruct (split sep s) as [|piece rest]; [done|].
    apply Forall_cons in IH as [Hpiece Hrest]. constructor; [|done].
    cbn [includes String.prefix].
    destruct (ascii_dec sep c) as [->|_].
    + by rewrite Ascii.eqb_refl in Hc.
    + exact Hpiece.
Qed.

(** A text without the separator is its own single piece. *)
Lemma split_without_sep (sep : ascii) (s : string) :
  includes s (String sep EmptyString) = false → split sep s = [s].
Proof.
  induction s as [|c s IH]; [done|]. cbn [includes String.prefix split].
  destruct (ascii_dec sep c) as [->|Hne].
  - replace (String.prefix EmptyString s) with true by (by destruct s). done.
  - intros H. replace (Ascii.eqb c sep) with false.
    + by rewrite (IH H).
    + symmetry. apply Ascii.eqb_neq. congruence.
Qed.

(** X3: every line that the stdout listener interprets is a piece of the
    chunk with no line feed in it and is not blank; a chunk made of one
    such line followed by a line feed gives exactly that line. *)
Theorem X3_lines_of_a_chunk (chunk : string) :
  Forall (λ line, is_blank line = false
                  ∧ includes line (String LF EmptyString) = false)
    (lines_of chunk)
  ∧ ∀ line,
      is_blank line = false →
      includes line (String LF EmptyString) = false →
      lines_of (line +:+ String LF EmptyString) = [line].
Proof.
  split.
  - unfold lines_of. apply Forall_forall. intros line Hin.
    apply list_elem_of_filter in Hin as [Hblank Hin]. split; [done|].
    pose proof (split_pieces_without_sep LF chunk) as Hall.
    rewrite Forall_forall in Hall. by apply Hall.
  - intros line Hblank Hlf. unfold lines_of.
    rewrite split_app, (split_without_sep LF line Hlf). simpl.
    rewrite filter_cons. destruct (decide (is_blank line = false)); [|done].
    rewrite filter_cons. by destruct (decide (is_blank EmptyString = false)).
Qed.

End LineProperties.

(** ** Listeners, polls and the size of the logs *)

Section LogProperties.
Import OutputParser Supervisor.

Lemma last_drop_lt {A} (l : list A) (n : nat) :
  (n < length l)%nat → last (drop n l) = last l.
Proof.
  intros Hn. rewrite !last_lookup, lookup_drop, length_drop. f_equal. lia.
Qed.

(** X4: the stderr, close and error listeners put their update last in the
    array of their agent, which then holds at most 50 entries, the survivors
    in the order they had; they leave the arrays of the other agents and
    every cursor as they were. *)
Theorem X4_listeners_push_last
    (now text : string) (code : option Z) (l : Listener) (st : State) :
  let pushed_by (st' : State) (u : Update) :=
    UpdateLog.get (agentId l) st' `suffix_of` (UpdateLog.get (agentId l) st ++ [u])
    ∧ last (UpdateLog.get (agentId l) st') = Some u
    ∧ length (UpdateLog.get (agentId l) st')
      = ((length (UpdateLog.get (agentId l) st) + 1) `min` 50)%nat
    ∧ (∀ other, other ≠ agentId l →
         monitorUpdates st' !! other = monitorUpdates st !! other)
    ∧ sentUpdateIndices st' = sentUpdateIndices st in
  pushed_by (stderr_data now text l st)
    (ErrorUpdate (JsString.trim text) now (agentId l))
  ∧ pushed_by (process_close now code l st)
      (MonitorStopped ("Process exited with code " +:+ show_code code) now
         (agentId l))
  ∧ pushed_by (process_error now text l st)
      (ErrorUpdate ("Failed to start monitoring: " +:+ text) now (agentId l)).
Proof.
  assert (Hpush : ∀ (st0 : State) u,
    monitorUpdates st0 = monitorUpdates st →
    sentUpdateIndices st0 = sentUpdateIndices st →
    let st' := UpdateLog.push (agentId l) u st0 in
    UpdateLog.get (agentId l) st' `suffix_of` (UpdateLog.get (agentId l) st ++ [u])
    ∧ last (UpdateLog.get (agentId l) st') = Some u
    ∧ length (UpdateLog.get (agentId l) st')
      = ((length (UpdateLog.get (agentId l) st) + 1) `min` 50)%nat
    ∧ (∀ other, other ≠ agentId l →
         monitorUpdates st' !! other = monitorUpdates st !! other)
    ∧ sentUpdateIndices st' = sentUpdateIndices st).
  { intros st0 u Hlogs Hcursors st'. subst st'. rewrite get_push.
    assert (Hget : UpdateLog.get (agentId l) st0 = UpdateLog.get (agentId l) st)
      by (unfold UpdateLog.get; by rewrite Hlogs).
    rewrite Hget. split; [rewrite trim_drop; apply suffix_drop|].
    split.
    { rewrite trim_drop, last_drop_lt, last_snoc; [done|].
      rewrite length_app. simpl. lia. }
    split; [rewrite trim_length, length_app; simpl; lia|].
    split; [|done]. intros other Hother. unfold UpdateLog.push. simpl.
    by rewrite lookup_insert_ne, Hlogs. }
  intros pushed_by. subst pushed_by. cbv beta.
  split; [by apply Hpush|]. split; by apply Hpush.
Qed.

Lemma existsb_false_Forall {A} (f : A → bool) (l : list A) :
  existsb f l = false ↔ Forall (λ x, f x = false) l.
Proof.
  induction l as [|x l IH]; simpl; [by split; [constructor|]|].
  rewrite orb_false_iff, IH, Forall_cons. done.
Qed.



End LogProperties.

(** ** A line that arrives in two chunks *)

Section CutLines.
Import JsString OutputParser.

Variable JSON_parse : string → option JsValue.









End CutLines.

Section CutLinesExamples.
Import JsString OutputParser.


End CutLinesExamples.

(** ** Stopping, once more *)

Section StopProperties.
Import OutputParser Supervisor Deploy.

Lemma get_delete_ne {V} (k other : string) (m : list (string * V)) :
  other ≠ k → OrderedMap.get other (OrderedMap.delete k m) = OrderedMap.get other m.
Proof.
  intros Hne. unfold OrderedMap.get, OrderedMap.delete.
  induction m as [|[k' v] m IH]; [done|]. simpl.
  destruct (String.eqb k' k) eqn:Hk; simpl.
  - apply String.eqb_eq in Hk as ->.
    replace (String.eqb k other) with false; [done|].
    symmetry. apply String.eqb_neq. congruence.
  - destruct (String.eqb k' other); [done|]. exact IH.
Qed.

Lemma delete_fresh {V} (k : string) (m : list (string * V)) :
  OrderedMap.has k m = false → OrderedMap.delete k m = m.
Proof.
  unfold OrderedMap.has, OrderedMap.delete.
  induction m as [|[k' v] m IH]; [done|]. simpl.
  intros [Hk Hrest]%orb_false_iff. rewrite Hk. simpl. by rewrite IH.
Qed.

Lemma delete_set_fresh {V} (k : string) (v : V) (m : list (string * V)) :
  OrderedMap.has k m = false →
  OrderedMap.delete k (OrderedMap.set k v m) = m.
Proof.
  intros Hfresh. unfold OrderedMap.set. rewrite Hfresh.
  unfold OrderedMap.delete. rewrite List.filter_app. simpl.
  rewrite String.eqb_refl. simpl. rewrite app_nil_r.
  by apply (delete_fresh k m).
Qed.

(** The maps after a stop request that finds its target. *)
Lemma stop_maps (req : StopRequest) (st : State) (target : string) :
  target_agent req st = Some target →
  JsString.is_empty target = false →
  OrderedMap.has target (activeMonitors st) = true →
  let st' := snd (fst (stop_monitoring req st)) in
  activeMonitors st' = OrderedMap.delete target (activeMonitors st)
  ∧ monitorUpdates st' = delete target (monitorUpdates st).
Proof.
  intros Htarget Hne Hhas. unfold stop_monitoring. rewrite Htarget.
  unfold truthy. rewrite Hne, Hhas. simpl.
  destruct (get_of_has _ _ Hhas) as [monitor ->].
  destruct (processes st !! process monitor) as [p|]; [destruct (killed p)|];
    done.
Qed.

Lemma target_of_agent_id (s : option string) (id : string) (st : State) :
  JsString.is_empty id = false →
  target_agent {| sessionId := s; req_agentId := Some id |} st = Some id.
Proof. intros Hne. unfold target_agent, truthy. simpl. by rewrite Hne. Qed.

(** The array of logs of the state after the handler: the one before, or
    the one before without the target. *)
Lemma stop_logs (req : StopRequest) (st : State) :
  monitorUpdates (snd (fst (stop_monitoring req st))) = monitorUpdates st
  ∨ ∃ target,
      monitorUpdates (snd (fst (stop_monitoring req st)))
      = delete target (monitorUpdates st).
Proof.
  unfold stop_monitoring.
  destruct (target_agent req st) as [target|]; [|by left].
  destruct (negb (truthy (Some target)) || _); [by left|].
  destruct (OrderedMap.get target (activeMonitors st)) as [monitor|]; [|by left].
  right. exists target.
  destruct (processes st !! process monitor) as [p|]; [destruct (killed p)|]; done.
Qed.

(** X6: when every array of [monitorUpdates] holds at most 50 entries, it
    is still so after any listener of a child process, any poll, any stop
    request, the stop timer and any start request. *)
Theorem X6_logs_never_exceed_fifty (st : State) :
  let bounded (s : State) :=
    map_Forall (λ (_ : string) (log : list Update), (length log ≤ 50)%nat)
      (monitorUpdates s) in
  bounded st →
  (∀ JSON_parse now chunk l,
     bounded (snd (stdout_data JSON_parse now chunk l st)))
  ∧ (∀ now text l, bounded (stderr_data now text l st))
  ∧ (∀ now code l, bounded (process_close now code l st))
  ∧ (∀ now message l, bounded (process_error now message l st))
  ∧ (∀ agentId, bounded (snd (monitor_updates agentId st)))
  ∧ (∀ req, bounded (snd (fst (stop_monitoring req st))))
  ∧ (∀ handle, bounded (stop_timeout handle st))
  ∧ (∀ W (os : Os W) req agentId now w,
       bounded (snd (fst (start os req agentId now st w)))).
Proof.
  intros bounded Hst. subst bounded. cbv beta in *.
  assert (Hpush : ∀ (st0 : State) id u,
            monitorUpdates st0 = monitorUpdates st →
            map_Forall (λ (_ : string) (log : list Update), (length log ≤ 50)%nat)
              (monitorUpdates (UpdateLog.push id u st0))).
  { intros st0 id u Hlogs. unfold UpdateLog.push. simpl.
    apply map_Forall_insert_2; [rewrite trim_length; lia|by rewrite Hlogs]. }
  split.
  { intros JSON_parse now chunk l.
    destruct (decide (lines_of chunk = [])) as [Hnil|Hne].
    - unfold stdout_data. by rewrite Hnil.
    - unfold stdout_data.
      pose proof (fold_on_line_state JSON_parse now (lines_of chunk)
                    (Js.or_empty (monitorUpdates st !! agentId l))
                    {| agentId := agentId l;
                       absoluteFolderPath := absoluteFolderPath l;
                       processStarted := true;
                       bufferLines := bufferLines l;
                       printedMetrics := printedMetrics l |} st Hne) as Hfold.
      destruct (fold_left _ _ _) as [[u1 l1] st1]. simpl in Hfold. subst st1.
      simpl. apply map_Forall_insert_2; [rewrite trim_length; lia|done]. }
  split; [intros; by apply Hpush|].
  split; [intros; by apply Hpush|].
  split; [intros; by apply Hpush|].
  split; [intros agentId; by rewrite monitor_updates_log|].
  split.
  { intros req. destruct (stop_logs req st) as [->|[target ->]]; [done|].
    by apply map_Forall_delete. }
  split.
  { intros handle. unfold stop_timeout.
    destruct (processes st !! handle) as [p|]; [destruct (killed p)|]; done. }
  intros W os req agentId now w.
  destruct (start os req agentId now st w) as [[[r|l project] st'] w'] eqn:Hstart.
  - by rewrite (start_replied _ _ _ _ _ _ _ _ _ Hstart).
  - destruct (start_armed _ _ _ _ _ _ _ _ _ _ Hstart)
      as (folder & files & _ & _ & ->).
    simpl. apply map_Forall_insert_2; [simpl; lia|done].
Qed.

Lemma X6_logs_never_exceed_fifty_witness :
  map_Forall (λ (_ : string) (log : list Update), (length log ≤ 50)%nat)
    (monitorUpdates (Examples.warn (Examples.warn initial 0) 1)).
Proof.
  assert (H0 : map_Forall (λ (_ : string) (log : list Update), (length log ≤ 50)%nat)
                 (monitorUpdates (Examples.warn initial 0))).
  { destruct (X6_logs_never_exceed_fifty initial) as (_ & Hstderr & _).
    - apply map_Forall_empty.
    - exact (Hstderr "t" ("warning " +:+ pretty 0) Examples.listener). }
  destruct (X6_logs_never_exceed_fifty (Examples.warn initial 0) H0)
    as (_ & Hstderr & _).
  exact (Hstderr "t" ("warning " +:+ pretty 1) Examples.listener).
Defined.

(** X7: a stop request that names an agent id ignores the session id.  When
    the agent is active the answer is 200 with that id, the agent leaves
    [activeMonitors] and its array leaves [monitorUpdates], and the other
    agents, their arrays and every cursor are left as they were; when it
    is not active the answer is 404 and nothing changes. *)
Theorem X7_stop_by_agent_id (s : option string) (id : string) (st : State) :
  JsString.is_empty id = false →
  let out := stop_monitoring {| sessionId := s; req_agentId := Some id |} st in
  let st' := snd (fst out) in
  if OrderedMap.has id (activeMonitors st) then
    fst (fst out) = {| status := 200; body := StoppedBody id |}
    ∧ OrderedMap.has id (activeMonitors st') = false
    ∧ monitorUpdates st' !! id = None
    ∧ (∀ other, other ≠ id →
         OrderedMap.get other (activeMonitors st')
         = OrderedMap.get other (activeMonitors st)
         ∧ monitorUpdates st' !! other = monitorUpdates st !! other)
    ∧ sentUpdateIndices st' = sentUpdateIndices st
  else out = (not_found, st, None).
Proof.
  intros Hne out st'. subst st' out.
  pose proof (target_of_agent_id s id st Hne) as Htarget.
  destruct (OrderedMap.has id (activeMonitors st)) eqn:Hhas.
  - destruct (stop_of_target _ st id Htarget Hne Hhas) as (Hr & Hgone & Hlog & Hcur).
    destruct (stop_maps _ st id Htarget Hne Hhas) as (Hactive & Hlogs).
    repeat split; try done.
    + rewrite Hactive. by apply get_delete_ne.
    + rewrite Hlogs. by apply lookup_delete_ne.
  - unfold stop_monitoring. rewrite Htarget. unfold truthy.
    rewrite Hne, Hhas. done.
Qed.

Lemma X7_stop_by_agent_id_witness :
  let out :=
    stop_monitoring
      {| sessionId := Some "session_1"; req_agentId := Some "agent_0_nobody" |}
      Examples.started in
  out = (not_found, Examples.started, None).
Proof.
  apply (X7_stop_by_agent_id (Some "session_1") "agent_0_nobody" Examples.started).
  reflexivity.
Defined.



End StopProperties.

(** ** The stop timer and the end of a stopped child *)

Section StopTimer.
Import OutputParser Supervisor Deploy.





(** X10: an agent is stopped by its id and then the [close] event of its
    child arrives.  The listener creates the array of the agent again, with
    the stop notice as its only entry.  The cursor of the agent was left by
    the stop request, so the next poll returns the notice only when that
    cursor is below 1: an agent that was polled after its second update
    never sees it. *)
Theorem X10_notice_after_stop (s : option string) (now : string)
    (code : option Z) (l : Listener) (st : State) :
  JsString.is_empty (agentId l) = false →
  OrderedMap.has (agentId l) (activeMonitors st) = true →
  let id := agentId l in
  let st1 := snd (fst (stop_monitoring
                         {| sessionId := s; req_agentId := Some id |} st)) in
  let st2 := process_close now code l st1 in
  let notice :=
    MonitorStopped ("Process exited with code " +:+ show_code code) now id in
  UpdateLog.get id st2 = [notice]
  ∧ poll id st2
    = (if 1 <=? Js.or_default (sentUpdateIndices st !! id) (-1)
       then [] else [notice])
  ∧ OrderedMap.has id (activeMonitors st2) = false.
Proof.
  intros Hne Hhas id st1 st2 notice.
  pose proof (target_of_agent_id s id st Hne) as Htarget.
  destruct (stop_of_target _ st id Htarget Hne Hhas) as (_ & Hgone & Hlog & Hcur).
  fold st1 in Hgone, Hlog, Hcur.
  assert (Hget : UpdateLog.get id st2 = [notice]).
  { subst st2. unfold process_close. rewrite get_push.
    unfold UpdateLog.get. simpl. fold id. by rewrite Hlog. }
  split; [done|]. split.
  - unfold poll, monitor_updates, polled. cbn [fst body].
    unfold UpdateLog.get in Hget. rewrite Hget.
    replace (sentUpdateIndices st2) with (sentUpdateIndices st)
      by (by rewrite <- Hcur).
    set (k := Js.or_default (sentUpdateIndices st !! id) (-1)).
    unfold Js.slice, Js.slice_start. simpl length.
    destruct (Z.leb_spec 1 k) as [Hk|Hk].
    + destruct (Z.ltb_spec (k + 1) 0); [lia|].
      replace (Z.min (k + 1) (Z.of_nat 1)) with 1 by lia. done.
    + assert (Hk0 : k ≠ 0).
      { subst k. unfold Js.or_default.
        destruct (sentUpdateIndices st !! id) as [z|]; [|done].
        destruct (Z.eqb_spec z 0); [done|done]. }
      destruct (Z.ltb_spec (k + 1) 0).
      * replace (Z.max (Z.of_nat 1 + (k + 1)) 0) with 0 by lia. done.
      * replace (Z.min (k + 1) (Z.of_nat 1)) with 0 by lia. done.
  - subst st2. unfold process_close, UpdateLog.push. simpl.
    fold id. by rewrite delete_fresh.
Qed.

Lemma X10_notice_after_stop_witness :
  let l := Examples.listener in
  let st := snd (monitor_updates Examples.agent
                   (Examples.warn (Examples.warn Examples.started 0) 1)) in
  let st1 := snd (fst (stop_monitoring
                         {| sessionId := None;
                            req_agentId := Some Examples.agent |} st)) in
  poll Examples.agent (process_close "t9" (Some 0) l st1) = [].
Proof.
  intros l st st1.
  destruct (X10_notice_after_stop None "t9" (Some 0) l st) as (_ & Hpoll & _).
  - reflexivity.
  - vm_compute. reflexivity.
  - exact Hpoll.
Defined.

(** X11: a start request that launches a child for an agent id that is
    neither active nor has an array of updates, followed by a stop request
    for that id, leaves [activeMonitors], [monitorUpdates] and the cursors
    as they were before the start; what remains is the child process, which
    has been sent SIGTERM, and the armed timer. *)
Theorem X11_stop_undoes_start {W : Type} (os : Os W) (req : StartRequest)
    (id now : string) (st st' : State) (w w' : W) (l : Listener)
    (project : string) :
  start os req id now st w = (Armed l project, st', w') →
  JsString.is_empty id = false →
  OrderedMap.has id (activeMonitors st) = false →
  monitorUpdates st !! id = None →
  let out := stop_monitoring {| sessionId := None; req_agentId := Some id |} st' in
  let st'' := snd (fst out) in
  fst (fst out) = {| status := 200; body := StoppedBody id |}
  ∧ snd out = Some id
  ∧ activeMonitors st'' = activeMonitors st
  ∧ monitorUpdates st'' = monitorUpdates st
  ∧ sentUpdateIndices st'' = sentUpdateIndices st
  ∧ processes st'' = <[id := Child.kill SIGTERM Child.fresh]> (processes st).
Proof.
  intros Hstart Hne Hfresh Hlog out st''.
  destruct (start_armed _ _ _ _ _ _ _ _ _ _ Hstart)
    as (folder & files & _ & _ & Hst').
  pose proof (target_of_agent_id None id st' Hne) as Htarget.
  assert (Hhas : OrderedMap.has id (activeMonitors st') = true).
  { rewrite Hst'. simpl. apply has_set. }
  destruct (stop_of_target _ st' id Htarget Hne Hhas) as (Hr & _ & _ & Hcur).
  destruct (stop_maps _ st' id Htarget Hne Hhas) as (Hactive & Hlogs).
  fold out in Hr. fold out st'' in Hcur, Hactive, Hlogs.
  assert (Hout : snd out = Some id
                 ∧ processes st''
                   = <[id := Child.kill SIGTERM Child.fresh]> (processes st)).
  { subst st'' out. unfold stop_monitoring. rewrite Htarget.
    unfold truthy. rewrite Hne, Hhas. simpl.
    rewrite Hst'. simpl. rewrite get_set. simpl.
    rewrite lookup_insert_eq. simpl. split; [done|].
    by rewrite insert_insert_eq. }
  destruct Hout as [Htimer Hprocs].
  repeat split; try done.
  - rewrite Hactive, Hst'. simpl. by apply delete_set_fresh.
  - rewrite Hlogs, Hst'. simpl. by apply delete_insert_id.
  - rewrite Hcur, Hst'. done.
Qed.

End StopTimer.

Section StopExamples.
Import OutputParser Supervisor Deploy.

Lemma triple_eta {A B C} (x : A * B * C) : x = (fst (fst x), snd (fst x), snd x).
Proof. by destruct x as [[a b] c]. Qed.

Lemma X11_stop_undoes_start_witness :
  let out :=
    stop_monitoring {| sessionId := None; req_agentId := Some Examples.agent |}
      Examples.started in
  activeMonitors (snd (fst out)) = activeMonitors initial
  ∧ monitorUpdates (snd (fst out)) = monitorUpdates initial.
Proof.
  intros out.
  assert (Hstart :
    start Machine.os Examples.request Examples.agent "t" initial Machine.disk
    = (Armed (new_listener Examples.agent "/tmp/riskguard_test/proj") "Demo",
       Examples.started, snd Examples.launch)).
  { transitivity (fst (fst Examples.launch), snd (fst Examples.launch),
                  snd Examples.launch); [apply triple_eta|].
    replace (fst (fst Examples.launch))
      with (Armed (new_listener Examples.agent "/tmp/riskguard_test/proj") "Demo")
      by (vm_compute; reflexivity).
    reflexivity. }
  destruct (X11_stop_undoes_start Machine.os Examples.request Examples.agent "t"
              initial Examples.started Machine.disk (snd Examples.launch)
              (new_listener Examples.agent "/tmp/riskguard_test/proj") "Demo"
              Hstart)
    as (_ & _ & Hactive & Hlogs & _).
  - reflexivity.
  - reflexivity.
  - reflexivity.
  - by split.
Defined.

End StopExamples.

(** ** The start request, its errors *)

Section StartErrors.
Import OutputParser Supervisor Deploy.

Context {W : Type} (os : Os W).

Lemma bind_inl {A B} (m : M A) (k : A → M B) (w w' : W) (r : Response) :
  bind m k w = (inl r, w') →
  m w = (inl r, w') ∨ ∃ a w1, m w = (inr a, w1) ∧ k a w1 = (inl r, w').
Proof.
  unfold bind. destruct (m w) as [[r0|a] w1]; intros H.
  - left. by injection H as <- <-.
  - right. by exists a, w1.
Qed.

Lemma await_inl (op : W → Outcome * W) (on_reject : string → Response)
    (w w' : W) (r : Response) :
  await_or op on_reject w = (inl r, w') →
  ∃ message, r = on_reject message ∧ op w = (Rejected message, w').
Proof.
  unfold await_or. destruct (op w) as [[|message] w1]; [done|].
  intros [= <- <-]. by exists message.
Qed.

(** The replies of the steps of the handler. *)
Lemma resolve_replies (folderPath : string) (w w' : W) (r : Response) :
  resolve os folderPath w = (inl r, w') →
  r = location_error folderPath EmptyString
  ∧ path_isAbsolute os folderPath = false
  ∧ Forall (λ p, is_directory os p w = false) (possiblePaths os folderPath w).
Proof.
  unfold resolve. destruct (path_isAbsolute os folderPath); [done|].
  unfold bind at 1 2. unfold read.
  destruct (List.find _ _) as [p|] eqn:Hfind; [done|].
  intros Hreply. split; [|split; [done|]].
  - apply bind_inl in Hreply as [Hmk|(_ & w1 & _ & Hreply)].
    + by apply await_inl in Hmk as (message & -> & _).
    + apply bind_inl in Hreply as [Hwr|(_ & w2 & _ & Hret)]; [|done].
      by apply await_inl in Hwr as (message & -> & _).
  - apply List.Forall_forall. intros p Hin.
    by apply (List.find_none _ _ Hfind p).
Qed.

Lemma check_writable_replies (folder : string) (w w' : W) (r : Response) :
  check_writable os folder w = (inl r, w') →
  status r = 400 ∧ ∃ message, body r = FailureBody message None.
Proof.
  unfold check_writable. unfold bind at 1. unfold read.
  destruct (fs_stat os folder w) as [[|]|].
  - intros Hreply.
    apply bind_inl in Hreply as [Hwr|(_ & w1 & _ & Hun)].
    + apply await_inl in Hwr as (message & -> & _). split; [done|]. by eexists.
    + apply await_inl in Hun as (message & -> & _). split; [done|]. by eexists.
  - intros [= <- _]. split; [done|]. by eexists.
  - intros [= <- _]. split; [done|]. by eexists.
Qed.

Lemma deploy_files_replies (folder project : string) (w w' : W) (r : Response) :
  deploy_files os folder project w = (inl r, w') →
  ∃ message, r = deploy_failed message.
Proof.
  unfold deploy_files. intros Hreply.
  apply bind_inl in Hreply as [H|(_ & w1 & _ & Hreply)];
    [apply await_inl in H as (message & -> & _); by eexists|].
  apply bind_inl in Hreply as [H|(_ & w2 & _ & Hreply)];
    [apply await_inl in H as (message & -> & _); by eexists|].
  apply bind_inl in Hreply as [H|(_ & w3 & _ & Hreply)];
    [apply await_inl in H as (message & -> & _); by eexists|].
  apply bind_inl in Hreply as [H|(_ & w4 & _ & Hreply)]; [|done].
  destruct (String.eqb (platform os) "win32"); done.
Qed.

Lemma pythonExecutable_continues (w w' : W) (r : Response) :
  pythonExecutable os w ≠ (inl r, w').
Proof.
  unfold pythonExecutable, bind, read, run, ret.
  by destruct (fs_access os _ w).
Qed.

(** X12: whatever the machine is, a response that the start handler sends
    itself (before the one-second timer) is an error: its status is 400 or
    500 and its body is a failure.  The failure carries the error code
    DEPLOYMENT_LOCATION_ERROR only with status 500, for a relative folder
    path of which no candidate location is a directory. *)
Theorem X12_start_replies_only_errors (req : StartRequest) (agentId now : string)
    (st st' : State) (w w' : W) (r : Response) :
  start os req agentId now st w = (Replied r, st', w') →
  ∃ message error,
    body r = FailureBody message error
    ∧ ((status r = 400 ∧ error = None)
       ∨ (status r = 500 ∧ error = None)
       ∨ (status r = 500
          ∧ error = Some "DEPLOYMENT_LOCATION_ERROR"
          ∧ path_isAbsolute os (req_folderPath req) = false
          ∧ Forall (λ p, is_directory os p w = false)
              (possiblePaths os (req_folderPath req) w))).
Proof.
  unfold start.
  destruct (start_realtime_monitor os req agentId now st w)
    as [[r0|[result st1]] w1] eqn:Hrun.
  2: { intros [= -> _ _]. unfold start_realtime_monitor in Hrun.
       apply bind_inr in Hrun as (folder & w2 & _ & Hrun).
       apply bind_inr in Hrun as (_ & w3 & _ & Hrun).
       apply bind_inr in Hrun as (files & w4 & _ & Hrun).
       apply bind_inr in Hrun as (python & w5 & _ & Hrun).
       apply bind_inr in Hrun as (_ & w6 & _ & Hrun).
       by injection Hrun. }
  intros [= -> _ _]. unfold start_realtime_monitor in Hrun.
  apply bind_inl in Hrun as [Hresolve|(folder & w2 & _ & Hrun)].
  { apply resolve_replies in Hresolve as (-> & Hrel & Hnone).
    eexists _, _. split; [reflexivity|]. right. right. by repeat split. }
  apply bind_inl in Hrun as [Hcheck|(_ & w3 & _ & Hrun)].
  { apply check_writable_replies in Hcheck as (Hstatus & message & Hbody).
    exists message, None. split; [done|]. by left. }
  apply bind_inl in Hrun as [Hdeploy|(files & w4 & _ & Hrun)].
  { apply deploy_files_replies in Hdeploy as (message & ->).
    eexists _, _. split; [reflexivity|]. right. by left. }
  apply bind_inl in Hrun as [Hpython|(python & w5 & _ & Hrun)].
  { by apply pythonExecutable_continues in Hpython. }
  apply bind_inl in Hrun as [Hspawn|(_ & w6 & _ & Hret)]; [|done].
  apply await_inl in Hspawn as (message & -> & _).
  eexists _, _. split; [reflexivity|]. right. by left.
Qed.

(** X13: an absolute folder path is used as given; no other location is
    looked at and nothing is created for it.  When [stat] rejects for it,
    or finds something that is not a directory, the answer is 400 and
    neither the server nor the machine has changed; otherwise a launch
    watches that very path. *)
Theorem X13_absolute_folder_is_used_as_given (req : StartRequest)
    (agentId now : string) (st : State) (w : W) :
  path_isAbsolute os (req_folderPath req) = true →
  let folder := req_folderPath req in
  match fs_stat os folder w with
  | None =>
      start os req agentId now st w
      = (Replied (failure 400
                    ("Folder not accessible or no write permissions: " +:+ folder)
                    None), st, w)
  | Some false =>
      start os req agentId now st w
      = (Replied (failure 400 ("Path is not a directory: " +:+ folder) None),
         st, w)
  | Some true =>
      ∀ l project st' w',
        start os req agentId now st w = (Armed l project, st', w') →
        l = new_listener agentId folder
        ∧ (∃ monitor, OrderedMap.get agentId (activeMonitors st') = Some monitor
                      ∧ folderPath monitor = folder)
  end.
Proof.
  intros Habs folder.
  pose proof (resolve_absolute os folder w Habs) as Hresolve.
  destruct (fs_stat os folder w) as [[|]|] eqn:Hstat.
  - intros l project st' w'. unfold start.
    destruct (start_realtime_monitor os req agentId now st w)
      as [[r0|[result st1]] w1] eqn:Hrun; [done|].
    intros [= -> -> ->]. unfold start_realtime_monitor in Hrun.
    fold folder in Hrun. rewrite (bind_value _ _ _ _ _ Hresolve) in Hrun.
    apply bind_inr in Hrun as (_ & w3 & _ & Hrun).
    apply bind_inr in Hrun as (files & w4 & _ & Hrun).
    apply bind_inr in Hrun as (python & w5 & _ & Hrun).
    apply bind_inr in Hrun as (_ & w6 & _ & Hrun).
    injection Hrun as <- <- <- _. split; [done|].
    eexists. simpl. rewrite get_set. by split.
  - unfold start, start_realtime_monitor. fold folder.
    rewrite (bind_value _ _ _ _ _ Hresolve).
    unfold check_writable. unfold bind at 1 2. unfold read. by rewrite Hstat.
  - unfold start, start_realtime_monitor. fold folder.
    rewrite (bind_value _ _ _ _ _ Hresolve).
    unfold check_writable. unfold bind at 1 2. unfold read. by rewrite Hstat.
Qed.

End StartErrors.

Section StartErrorExamples.
Import OutputParser Supervisor Deploy.

Lemma X12_start_replies_only_errors_witness :
  let r :=
    failure 400
      "Path is not a directory: /srv/app/monitoring-agent/portable_monitor.py"
      None in
  ∃ message, body r = FailureBody message None ∧ status r = 400.
Proof.
  intros r.
  set (out := start Machine.os
                {| req_folderPath := "/srv/app/monitoring-agent/portable_monitor.py";
                   req_projectName := "Demo" |}
                Examples.agent "t" initial Machine.disk).
  destruct (X12_start_replies_only_errors Machine.os
              {| req_folderPath := "/srv/app/monitoring-agent/portable_monitor.py";
                 req_projectName := "Demo" |}
              Examples.agent "t" initial (snd (fst out)) Machine.disk (snd out) r)
    as (message & error & Hbody & [[Hstatus ->]|[[Hstatus _]|[Hstatus _]]]).
  - fold out. rewrite (triple_eta out) at 1.
    replace (fst (fst out)) with (Replied r) by (vm_compute; reflexivity).
    reflexivity.
  - by exists message.
  - discriminate Hstatus.
  - discriminate Hstatus.
Defined.

Lemma X13_absolute_folder_is_used_as_given_witness :
  start Machine.os {| req_folderPath := "/nowhere"; req_projectName := "Demo" |}
    Examples.agent "t" Examples.started Machine.disk
  = (Replied (failure 400
                "Folder not accessible or no write permissions: /nowhere" None),
     Examples.started, Machine.disk).
Proof.
  pose proof (X13_absolute_folder_is_used_as_given Machine.os
                {| req_folderPath := "/nowhere"; req_projectName := "Demo" |}
                Examples.agent "t" Examples.started Machine.disk eq_refl)
    as Hgiven.
  cbv zeta in Hgiven.
  assert (Hstat : fs_stat Machine.os "/nowhere" Machine.disk = None)
    by (vm_compute; reflexivity).
  cbn [req_folderPath] in Hgiven. rewrite Hstat in Hgiven. exact Hgiven.
Defined.

End StartErrorExamples.

(** ** Session ids as the stop route reads them *)

Section SessionProperties.
Import JsString OutputParser Supervisor.

Lemma session_token_second (a b rest : string) :
  includes a "_" = false → includes b "_" = false →
  session_token (a +:+ String (chr 95) (b +:+ String (chr 95) rest)) = b.
Proof.
  intros Ha Hb. unfold session_token.
  rewrite !split_app, (split_without_sep (chr 95) a Ha),
    (split_without_sep (chr 95) b Hb). done.
Qed.

Lemma session_token_last (a b : string) :
  includes a "_" = false → includes b "_" = false →
  session_token (a +:+ String (chr 95) b) = b.
Proof.
  intros Ha Hb. unfold session_token.
  rewrite split_app, (split_without_sep (chr 95) a Ha),
    (split_without_sep (chr 95) b Hb). done.
Qed.

(** With a session id and no agent id, the handler looks for the token. *)
Lemma target_of_session (s : string) (st : State) :
  is_empty s = false →
  target_agent {| sessionId := Some s; req_agentId := None |} st
  = fst <$> List.find (λ e, includes (fst e) (session_token s)) (activeMonitors st).
Proof.
  intros Hs. unfold target_agent, truthy. simpl. rewrite Hs. simpl.
  unfold find_by_session. by destruct (List.find _ _).
Qed.

(** X14: the id of a session made up by [/start-monitoring] for a
    deployment of [/script] always has the token [deploy], whoever the user
    is and whatever the times are.  A stop request that carries such an id
    is answered 404, and changes nothing, when no active agent id contains
    the word [deploy]. *)
Theorem X14_made_up_session_stops_nothing (user deployed started : string)
    (st : State) :
  Forall (λ e, includes (fst e) "deploy" = false) (activeMonitors st) →
  let s := ScriptRoute.monitoring_session_id
             (ScriptRoute.deploymentId user deployed) started in
  session_token s = "deploy"
  ∧ stop_monitoring {| sessionId := Some s; req_agentId := None |} st
    = (not_found, st, None).
Proof.
  intros Hnone s.
  assert (Htoken : session_token s = "deploy").
  { subst s. unfold ScriptRoute.monitoring_session_id, ScriptRoute.deploymentId.
    change (session_token
              ("monitor" +:+ String (chr 95)
                 ("deploy" +:+ String (chr 95)
                    ((user +:+ "_" +:+ deployed) +:+ "_" +:+ started)))
            = "deploy").
    by apply session_token_second. }
  split; [done|]. apply stop_without_target.
  rewrite target_of_session by done. rewrite Htoken.
  by rewrite (find_none _ _ Hnone).
Qed.

Lemma X14_made_up_session_stops_nothing_witness :
  stop_monitoring
    {| sessionId :=
         Some (ScriptRoute.monitoring_session_id
                 (ScriptRoute.deploymentId "u42" "1700000000000") "1700000005000");
       req_agentId := None |}
    Examples.started
  = (not_found, Examples.started, None).
Proof.
  apply (X14_made_up_session_stops_nothing "u42" "1700000000000" "1700000005000"
           Examples.started).
  apply Forall_false_forallb. vm_compute. reflexivity.
Defined.

(** X15: the page keeps a session id made from its own clock and sends only
    that id when it stops.  The token that the handler reads from it is the
    text of that clock, so the request is answered 404, and stops nothing,
    unless the id of an active agent contains that text. *)
Theorem X15_page_stop_looks_for_its_own_clock (now : string) (st : State) :
  includes now "_" = false →
  Forall (λ e, includes (fst e) now = false) (activeMonitors st) →
  session_token (Page.session_id now) = now
  ∧ stop_monitoring (Page.stop_request now) st = (not_found, st, None).
Proof.
  intros Hnow Hnone.
  assert (Htoken : session_token (Page.session_id now) = now).
  { unfold Page.session_id.
    change (session_token ("session" +:+ String (chr 95) now) = now).
    by apply session_token_last. }
  split; [done|]. apply stop_without_target. unfold Page.stop_request.
  rewrite target_of_session by done. rewrite Htoken.
  by rewrite (find_none _ _ Hnone).
Qed.

Lemma X15_page_stop_looks_for_its_own_clock_witness :
  stop_monitoring (Page.stop_request "1700000009999") Examples.started
  = (not_found, Examples.started, None).
Proof.
  apply (X15_page_stop_looks_for_its_own_clock "1700000009999" Examples.started).
  - reflexivity.
  - apply Forall_false_forallb. vm_compute. reflexivity.
Defined.

End SessionProperties.

(** ** POST /script *)

Section ScriptProperties.
Import OutputParser Deploy ScriptRoute.

Context {W : Type} (sos : ScriptOs W).

Lemma resolve_script_replies (folderPath : string) (w w' : W) (r : Response) :
  resolve_script sos folderPath w = (inl r, w') →
  r = script_location_error folderPath EmptyString
  ∧ path_isAbsolute (base sos) folderPath = false
  ∧ Forall (λ p, is_directory (base sos) p w = false)
      (possiblePaths (base sos) folderPath w).
Proof.
  unfold resolve_script. destruct (path_isAbsolute (base sos) folderPath); [done|].
  unfold bind at 1 2. unfold read.
  destruct (List.find _ _) as [p|] eqn:Hfind; [done|].
  intros Hreply. split; [|split; [done|]].
  - apply bind_inl in Hreply as [Hmk|(_ & w1 & _ & Hreply)].
    + by apply await_inl in Hmk as (message & -> & _).
    + apply bind_inl in Hreply as [Hwr|(_ & w2 & _ & Hret)]; [|done].
      by apply await_inl in Hwr as (message & -> & _).
  - apply List.Forall_forall. intros p Hin.
    by apply (List.find_none _ _ Hfind p).
Qed.

Lemma check_directory_replies (folder : string) (w w' : W) (r : Response) :
  check_directory sos folder w = (inl r, w') →
  status r = 400 ∧ ∃ message, body r = FailureBody message None.
Proof.
  unfold check_directory. unfold bind, read.
  destruct (fs_stat (base sos) folder w) as [[|]|]; [done| |];
    intros [= <- _]; (split; [done|]); by eexists.
Qed.

Lemma check_directory_continues (folder : string) (w w' : W) :
  check_directory sos folder w = (inr (), w') →
  w' = w ∧ fs_stat (base sos) folder w = Some true.
Proof.
  unfold check_directory. unfold bind, read.
  destruct (fs_stat (base sos) folder w) as [[|]|]; [|done|done].
  by intros [= <-].
Qed.

Lemma deploy_script_files_replies (folder project : string) (w w' : W)
    (r : Response) :
  deploy_script_files sos folder project w = (inl r, w') →
  ∃ message, r = deploy_failed message.
Proof.
  unfold deploy_script_files. intros Hreply.
  apply bind_inl in Hreply as [H|(_ & w1 & _ & Hreply)];
    [apply await_inl in H as (message & -> & _); by eexists|].
  apply bind_inl in Hreply as [H|(_ & w2 & _ & Hreply)];
    [apply await_inl in H as (message & -> & _); by eexists|].
  apply bind_inl in Hreply as [H|(_ & w3 & _ & Hreply)];
    [apply await_inl in H as (message & -> & _); by eexists|].
  apply await_inl in Hreply as (message & -> & _). by eexists.
Qed.

(** X16: an error response of [/script] has status 400 or 500 and a
    failure body; the code SCRIPT_DEPLOYMENT_ERROR comes only with status
    500, for a relative folder path of which no candidate location is a
    directory.  A deployment that is returned has the id
    [deploy_<user>_<time>], names the two files inside its folder, and its
    folder was found to be a directory. *)
Theorem X16_script_replies (req : ScriptRequest) (now : string) (w : W) :
  match script sos req now w with
  | (inl r, _) =>
      ∃ message error,
        body r = FailureBody message error
        ∧ ((status r = 400 ∧ error = None)
           ∨ (status r = 500 ∧ error = None)
           ∨ (status r = 500
              ∧ error = Some "SCRIPT_DEPLOYMENT_ERROR"
              ∧ path_isAbsolute (base sos) (s_folderPath req) = false
              ∧ Forall (λ p, is_directory (base sos) p w = false)
                  (possiblePaths (base sos) (s_folderPath req) w)))
  | (inr d, _) =>
      id d = "deploy_" +:+ s_userId req +:+ "_" +:+ now
      ∧ scriptPath d = path_join (base sos) [d_folderPath d; "portable_monitor.py"]
      ∧ configPath d = path_join (base sos) [d_folderPath d; "monitor_config.json"]
      ∧ (∃ w1, resolve_script sos (s_folderPath req) w = (inr (d_folderPath d), w1)
               ∧ fs_stat (base sos) (d_folderPath d) w1 = Some true)
  end.
Proof.
  destruct (script sos req now w) as [[r|d] w1] eqn:Hrun;
    unfold script in Hrun.
  - apply bind_inl in Hrun as [Hresolve|(folder & w2 & _ & Hrun)].
    { apply resolve_script_replies in Hresolve as (-> & Hrel & Hnone).
      eexists _, _. split; [reflexivity|]. right. right. by repeat split. }
    apply bind_inl in Hrun as [Hcheck|(_ & w3 & _ & Hrun)].
    { apply check_directory_replies in Hcheck as (Hstatus & message & Hbody).
      exists message, None. split; [done|]. by left. }
    apply bind_inl in Hrun as [Hdeploy|(_ & w4 & _ & Hret)]; [|done].
    apply deploy_script_files_replies in Hdeploy as (message & ->).
    eexists _, _. split; [reflexivity|]. right. by left.
  - apply bind_inr in Hrun as (folder & w2 & Hresolve & Hrun).
    apply bind_inr in Hrun as ([] & w3 & Hcheck & Hrun).
    apply bind_inr in Hrun as (_ & w4 & _ & Hret).
    injection Hret as <- _. simpl.
    apply check_directory_continues in Hcheck as (-> & Hstat).
    repeat split. by exists w2.
Qed.

Lemma await_inr (op : W → Outcome * W) (on_reject : string → Response)
    (w w' : W) (u : unit) :
  await_or op on_reject w = (inr u, w') → op w = (Resolved, w').
Proof.
  unfold await_or. destruct (op w) as [[|message] w1]; [|done].
  by intros [= _ <-].
Qed.

(** X17: the folder of [/script] is the folder that
    [/start-realtime-monitor] resolves for the same path whenever the path
    is absolute or one of its candidate locations is a directory, and
    nothing is created then.  Only when a directory has to be made do the
    two routes part: [/script] makes it under [riskguard_script_deploy] and
    puts [sample.js] into it. *)
Theorem X17_script_resolves_like_start (folderPath : string) (w : W) :
  if path_isAbsolute (base sos) folderPath then
    resolve_script sos folderPath w = (inr folderPath, w)
    ∧ resolve (base sos) folderPath w = (inr folderPath, w)
  else
    match List.find (λ p, is_directory (base sos) p w)
            (possiblePaths (base sos) folderPath w) with
    | Some found =>
        resolve_script sos folderPath w = (inr found, w)
        ∧ resolve (base sos) folderPath w = (inr found, w)
    | None =>
        ∀ folder w',
          resolve_script sos folderPath w = (inr folder, w') →
          folder
          = path_join (base sos) ["/tmp"; "riskguard_script_deploy"; folderPath]
          ∧ ∃ w1,
              fs_mkdir_recursive (base sos) folder w = (Resolved, w1)
              ∧ fs_writeSample sos (path_join (base sos) [folder; "sample.js"]) w1
                = (Resolved, w')
    end.
Proof.
  destruct (path_isAbsolute (base sos) folderPath) eqn:Habs.
  { split; [unfold resolve_script; by rewrite Habs|by apply resolve_absolute]. }
  destruct (List.find _ _) as [found|] eqn:Hfind.
  { split; [|by apply resolve_found].
    unfold resolve_script. rewrite Habs. unfold bind, read. by rewrite Hfind. }
  intros folder w' Hrun. unfold resolve_script in Hrun. rewrite Habs in Hrun.
  unfold bind at 1 2 in Hrun. unfold read in Hrun. rewrite Hfind in Hrun.
  apply bind_inr in Hrun as ([] & w1 & Hmkdir & Hrun).
  apply bind_inr in Hrun as ([] & w2 & Hsample & Hret).
  injection Hret as Hfolder Hw. rewrite <- Hfolder, <- Hw. split; [done|].
  exists w1. split; [by apply await_inr in Hmkdir|by apply await_inr in Hsample].
Qed.

(** X18: [/script] looks for the monitor it ships before it copies
    anything.  For an absolute path that is a directory, a missing monitor
    is answered 500 with the message of the failed access, and the machine
    is left as it was: nothing has been copied or written. *)
Theorem X18_script_without_its_source (req : ScriptRequest) (now message : string)
    (w : W) :
  path_isAbsolute (base sos) (s_folderPath req) = true →
  fs_stat (base sos) (s_folderPath req) w = Some true →
  fs_access_or sos
    (path_join (base sos) [sourceDir (base sos); "portable_monitor.py"]) w
  = Rejected message →
  script sos req now w
  = (inl (failure 500 ("Failed to deploy monitoring files: " +:+ message) None), w).
Proof.
  intros Habs Hstat Haccess. unfold script, resolve_script. rewrite Habs.
  unfold bind at 1. unfold ret at 1.
  unfold check_directory. unfold bind at 1 2. unfold read. rewrite Hstat.
  unfold ret at 1. unfold deploy_script_files.
  unfold bind at 1 2. unfold await_or at 1. by rewrite Haccess.
Qed.

End ScriptProperties.

Section ScriptExamples.
Import OutputParser Deploy ScriptRoute.

Lemma X18_script_without_its_source_witness :
  let sos :=
    {| base := Machine.os;
       fs_access_or := λ p fs,
         if fs_access Machine.os p fs then Resolved
         else Rejected ("ENOENT: no such file or directory, access " +:+ p);
       fs_writeSample := λ p fs, fs_writeFile Machine.os p TestPy fs |} in
  let w : Machine.Fs := list_to_map [("/", Machine.Dir); ("/work", Machine.Dir)] in
  ∃ r, script sos {| s_folderPath := "/work"; s_projectName := "Demo";
                     s_userId := "u42" |} "1700000000000" w
       = (inl r, w)
       ∧ status r = 500.
Proof.
  intros sos w. eexists. split.
  - apply (X18_script_without_its_source sos
             {| s_folderPath := "/work"; s_projectName := "Demo"; s_userId := "u42" |}
             "1700000000000"
             "ENOENT: no such file or directory, access /srv/app/monitoring-agent/portable_monitor.py"
             w).
    + reflexivity.
    + vm_compute. reflexivity.
    + vm_compute. reflexivity.
  - reflexivity.
Defined.

End ScriptExamples.

(** ** Where the updates of a chunk come from *)

Section ChunkOrigin.
Import JsString OutputParser.

Variable JSON_parse : string → option JsValue.

(** What one line that is not blank adds to the local array. *)
Lemma on_line_emits (now : string) (u : list Update) (l : Listener)
    (st : State) (line : string) :
  is_blank line = false →
  ∃ e l' st',
    on_line JSON_parse now (u, l, st) line = (u ++ e, l', st')
    ∧ agentId l' = agentId l
    ∧ absoluteFolderPath l' = absoluteFolderPath l
    ∧ Forall
        (λ upd,
           (∃ fields,
              upd = JsonUpdate fields now (agentId l) (absoluteFolderPath l)
              ∧ JSON_parse line = Some (JObj fields)
              ∧ relayed_type fields = true)
           ∨ (∃ metrics,
                upd = ConsoleOutput line now (agentId l) (absoluteFolderPath l)
                        metrics
                ∧ (JSON_parse line = None ∨ JSON_parse line = Some JNull)
                ∧ (metrics ≠ None →
                   includes line marker = true
                   ∧ includes line "EXTRACTED FEATURES" = true))) e.
Proof.
  intros Hline. unfold on_line. eexists _, _, _.
  split; [reflexivity|]. split; [reflexivity|]. split; [reflexivity|].
  rewrite Hline. cbn [negb]. rewrite andb_true_r.
  unfold relay.
  assert (Hmetrics : ∀ metrics,
            (if includes line "EXTRACTED FEATURES"
                && nonempty
                     (if nonempty
                           (if includes line marker
                            then bufferLines l ++ [line] else bufferLines l)
                         && negb (includes line marker)
                      then []
                      else if includes line marker
                           then bufferLines l ++ [line] else bufferLines l)
             then parseMetricsSection
                    (if nonempty
                          (if includes line marker
                           then bufferLines l ++ [line] else bufferLines l)
                        && negb (includes line marker)
                     then []
                     else if includes line marker
                          then bufferLines l ++ [line] else bufferLines l)
             else None) = metrics →
            metrics ≠ None →
            includes line marker = true
            ∧ includes line "EXTRACTED FEATURES" = true).
  { intros metrics <- Hsome.
    destruct (includes line "EXTRACTED FEATURES"); [|done].
    destruct (includes line marker); [done|]. cbn [negb] in Hsome.
    rewrite andb_true_r in Hsome.
    destruct (nonempty (bufferLines l)) eqn:Hbuffer.
    - by destruct Hsome.
    - cbn [andb] in Hsome. rewrite Hbuffer in Hsome. by destruct Hsome. }
  destruct (JSON_parse line) as [[| | | | |fields]|] eqn:Hparse;
    try (by constructor).
  - constructor; [|constructor]. right. eexists. split; [reflexivity|].
    split; [by right|]. by apply Hmetrics.
  - destruct (relayed_type fields) eqn:Htype; [|by constructor].
    constructor; [|constructor]. left. by exists fields.
  - constructor; [|constructor]. right. eexists. split; [reflexivity|].
    split; [by left|]. by apply Hmetrics.
Qed.

Lemma fold_on_line_origin (now : string) (lines : list string)
    (u : list Update) (l : Listener) (st : State) :
  Forall (λ line, is_blank line = false) lines →
  ∃ pushed,
    fst (fst (fold_left (on_line JSON_parse now) lines (u, l, st))) = u ++ pushed
    ∧ Forall
        (λ upd, ∃ line,
           line ∈ lines
           ∧ ((∃ fields,
                 upd = JsonUpdate fields now (agentId l) (absoluteFolderPath l)
                 ∧ JSON_parse line = Some (JObj fields)
                 ∧ relayed_type fields = true)
              ∨ (∃ metrics,
                   upd = ConsoleOutput line now (agentId l) (absoluteFolderPath l)
                           metrics
                   ∧ (JSON_parse line = None ∨ JSON_parse line = Some JNull)
                   ∧ (metrics ≠ None →
                      includes line marker = true
                      ∧ includes line "EXTRACTED FEATURES" = true)))) pushed.
Proof.
  intros Hlines. revert u l st.
  induction Hlines as [|line lines Hline _ IH]; intros u l st.
  - exists []. by rewrite app_nil_r.
  - cbn [fold_left].
    destruct (on_line_emits now u l st line Hline)
      as (e & l' & st' & -> & Hid & Hfolder & He).
    destruct (IH (u ++ e) l' st') as (pushed & -> & Hpushed).
    exists (e ++ pushed). rewrite app_assoc. split; [done|].
    apply Forall_app. split.
    + eapply Forall_impl; [exact He|]. intros upd Hupd.
      exists line. split; [by left|done].
    + eapply Forall_impl; [exact Hpushed|]. intros upd (line' & Hin & Hupd).
      exists line'. split; [by right|]. by rewrite <- Hid, <- Hfolder.
Qed.

(** X19: every update that the stdout listener pushes for a chunk comes
    from one of its lines.  It is either the object decoded from the line,
    when that object has the type [file_change] or [analysis_result], or
    the line itself as console output, when the line is not JSON or
    decodes to [null].  A console output carries metrics only when its line
    contains both the tree-branch marker and the words EXTRACTED
    FEATURES. *)
Theorem X19_pushed_updates_come_from_lines (now chunk : string) (l : Listener)
    (st : State) :
  lines_of chunk ≠ [] →
  let st' := snd (stdout_data JSON_parse now chunk l st) in
  ∃ pushed,
    UpdateLog.get (agentId l) st'
    = UpdateLog.trim (UpdateLog.get (agentId l) st ++ pushed)
    ∧ Forall
        (λ upd, ∃ line,
           line ∈ lines_of chunk
           ∧ ((∃ fields,
                 upd = JsonUpdate fields now (agentId l) (absoluteFolderPath l)
                 ∧ JSON_parse line = Some (JObj fields)
                 ∧ relayed_type fields = true)
              ∨ (∃ metrics,
                   upd = ConsoleOutput line now (agentId l) (absoluteFolderPath l)
                           metrics
                   ∧ (JSON_parse line = None ∨ JSON_parse line = Some JNull)
                   ∧ (metrics ≠ None →
                      includes line marker = true
                      ∧ includes line "EXTRACTED FEATURES" = true)))) pushed.
Proof.
  intros Hne st'. subst st'. unfold stdout_data.
  set (l0 := {| agentId := agentId l |}).
  set (u0 := Js.or_empty (monitorUpdates st !! agentId l)).
  pose proof (fold_on_line_state JSON_parse now (lines_of chunk) u0 l0 st Hne)
    as Hst.
  assert (Hblank : Forall (λ line, is_blank line = false) (lines_of chunk)).
  { unfold lines_of. apply Forall_forall. intros line Hin.
    by apply list_elem_of_filter in Hin as [Hline _]. }
  destruct (fold_on_line_origin now (lines_of chunk) u0 l0 st Hblank)
    as (pushed & Hpushed & Horigin).
  destruct (fold_left (on_line JSON_parse now) (lines_of chunk) (u0, l0, st))
    as [[u1 l1] st1].
  simpl in Hst, Hpushed. subst st1 u1. simpl.
  exists pushed. split; [|done].
  unfold UpdateLog.get. simpl. by rewrite lookup_insert_eq.
Qed.

End ChunkOrigin.

Section ChunkOriginExamples.
Import JsString OutputParser.

Lemma X19_pushed_updates_come_from_lines_witness :
  let chunk := "Watching for changes" +:+ String LF EmptyString in
  let st' := snd (stdout_data JSON.parse "t" chunk Examples.listener initial) in
  ∃ pushed,
    UpdateLog.get Examples.agent st' = UpdateLog.trim ([] ++ pushed)
    ∧ Forall (λ upd, ∃ line, line ∈ lines_of chunk ∧ ∃ metrics,
                upd = ConsoleOutput line "t" Examples.agent "/srv/project" metrics
                ∧ (metrics ≠ None → includes line marker = true)) pushed.
Proof.
  intros chunk st'.
  destruct (X19_pushed_updates_come_from_lines JSON.parse "t" chunk
              Examples.listener initial) as (pushed & Hlog & Horigin).
  - vm_compute. discriminate.
  - exists pushed. split; [exact Hlog|].
    eapply Forall_impl; [exact Horigin|].
    intros upd (line & Hin & [(fields & _ & Hparse & _)|(metrics & Hupd & _ & Hm)]).
    + exfalso. apply list_elem_of_In in Hin.
      assert (Hline : line = "Watching for changes").
      { vm_compute in Hin. by destruct Hin as [<-|[]]. }
      rewrite Hline in Hparse. vm_compute in Hparse. discriminate.
    + exists line. split; [done|]. exists metrics. split; [done|].
      intros Hsome. by destruct (Hm Hsome).
Defined.

End ChunkOriginExamples.

(** ** The metrics of a section *)

Section MetricProperties.
Import JsString OutputParser.

(** A field that is set stays set. *)
Lemma parse_metric_line_keeps (f : Field) (m : Metrics) (line : string) :
  is_Some (field_get f m) → is_Some (field_get f (parse_metric_line m line)).
Proof.
  intros Hset. unfold parse_metric_line.
  destruct (classify line) as [g|]; [|done].
  destruct (read_value g line) as [v|]; [|done].
  rewrite field_get_set. by destruct (decide (f = g)).
Qed.

Lemma fold_metric_lines_keeps (f : Field) (lines : list string) (m : Metrics) :
  is_Some (field_get f m) →
  is_Some (field_get f (fold_left parse_metric_line lines m)).
Proof.
  revert m. induction lines as [|line lines IH]; intros m Hset; [done|].
  cbn [fold_left]. by apply IH, parse_metric_line_keeps.
Qed.

Lemma fold_metric_lines_idle (lines : list string) (m : Metrics) :
  Forall (λ line, ∀ f, classify line = Some f → read_value f line = None) lines →
  fold_left parse_metric_line lines m = m.
Proof.
  intros Hidle. revert m.
  induction Hidle as [|line lines Hline _ IH]; intros m; [done|].
  cbn [fold_left]. rewrite <- (IH m) at 2. f_equal.
  unfold parse_metric_line. destruct (classify line) as [f|]; [|done].
  by rewrite (Hline f eq_refl).
Qed.

Lemma fold_metric_lines_none (lines : list string) (m : Metrics) :
  (∀ f, field_get f (fold_left parse_metric_line lines m) = None) →
  Forall (λ line, ∀ f, classify line = Some f → read_value f line = None) lines.
Proof.
  revert m. induction lines as [|line lines IH]; intros m Hnone;
    [by constructor|].
  cbn [fold_left] in Hnone. constructor; [|by apply (IH _ Hnone)].
  intros f Hf. destruct (read_value f line) as [v|] eqn:Hv; [|done].
  exfalso.
  pose proof (fold_metric_lines_keeps f lines (parse_metric_line m line)) as Hkept.
  rewrite (parse_metric_line_match f v m line Hf Hv) in Hkept.
  destruct Hkept as [v' Hkept]; [by eexists|]. by rewrite Hnone in Hkept.
Qed.

(** X20: [parseMetricsSection] returns [null] exactly when no line of the
    section has both the label of its branch and a value after it that the
    pattern of the branch matches. *)
Theorem X20_no_metrics_iff_no_line_matches (lines : list string) :
  parseMetricsSection lines = None
  ↔ Forall (λ line, ∀ f, classify line = Some f → read_value f line = None)
      lines.
Proof.
  unfold parseMetricsSection. split.
  - destruct (has_keys _) eqn:Hkeys; [done|]. intros _.
    apply (fold_metric_lines_none lines no_metrics).
    by apply has_keys_spec.
  - intros Hidle. by rewrite (fold_metric_lines_idle lines no_metrics Hidle).
Qed.

Lemma span_class (cls : ascii → bool) (s : string) :
  span cls (fst (span cls s)) = (fst (span cls s), EmptyString).
Proof.
  induction s as [|c s IH]; [done|]. cbn [span].
  destruct (cls c) eqn:Hc; [|done].
  destruct (span cls s) as [a b]. cbn [fst] in *. cbn [span].
  by rewrite Hc, IH.
Qed.

Lemma includes_prefix (s t : string) : String.prefix t s = true → includes s t = true.
Proof. intros H. destruct s; cbn [includes]; by rewrite H. Qed.

Lemma capture_group (label : string) (cls : ascii → bool) (s group : string) :
  capture label cls s = Some group →
  is_empty group = false
  ∧ span cls group = (group, EmptyString)
  ∧ includes s label = true.
Proof.
  induction s as [|c s IH]; cbn [capture];
    destruct (capture_here label cls _) as [g|] eqn:Hhere.
  1,3: intros [= <-]; unfold capture_here in Hhere;
       destruct (String.prefix label _) eqn:Hprefix; [|done];
       destruct (is_empty (fst (span cls _))) eqn:Hg; [done|];
       injection Hhere as <-;
       (split; [done|split; [apply span_class|by apply includes_prefix]]).
  - done.
  - intros Hrest. destruct (IH Hrest) as (H1 & H2 & H3).
    split; [done|split; [done|]]. cbn [includes].
    by destruct (String.prefix label (String c s)).
Qed.

(** X21: a number is stored for a field only from a line that contains the
    label of the field, and the text given to [parseInt] or [parseFloat]
    is not empty and is made of digits only, or of digits and dots for
    the fields read as floats. *)
Theorem X21_stored_values_are_digit_runs (f : Field) (line : string)
    (v : JsNumber) :
  read_value f line = Some v →
  includes line (label f) = true
  ∧ ∃ text,
      is_empty text = false
      ∧ (if integral f
         then v = ParseInt text ∧ span is_digit text = (text, EmptyString)
         else v = ParseFloat text
              ∧ span is_digit_or_dot text = (text, EmptyString)).
Proof.
  unfold read_value. destruct (integral f).
  - destruct (capture (label f) is_digit line) as [text|] eqn:Hcapture; [|done].
    intros [= <-]. apply capture_group in Hcapture as (H1 & H2 & H3).
    split; [done|]. by exists text.
  - destruct (capture (label f) is_digit_or_dot line) as [text|] eqn:Hcapture;
      [|done].
    intros [= <-]. apply capture_group in Hcapture as (H1 & H2 & H3).
    split; [done|]. by exists text.
Qed.

Lemma X21_stored_values_are_digit_runs_witness :
  includes "   LOC:  120 lines" (label LOC) = true
  ∧ ∃ text,
      is_empty text = false
      ∧ ParseInt "120" = ParseInt text
      ∧ span is_digit text = (text, EmptyString).
Proof.
  apply (X21_stored_values_are_digit_runs LOC "   LOC:  120 lines" (ParseInt "120")).
  reflexivity.
Defined.

End MetricProperties.

(** ** The page: polling *)

Section PollingProperties.
Import Page.

(** A poll of a log on which the debug log of the route does not throw is
    answered 200. *)
Lemma monitor_updates_quiet (agentId : string) (st : State) :
  Forall (λ u, log_throws u = false) (UpdateLog.get agentId st) →
  status (fst (monitor_updates agentId st)) = 200.
Proof.
  intros Hquiet. unfold monitor_updates.
  replace (existsb log_throws _) with false; [done|].
  symmetry. apply existsb_false_Forall. unfold Js.slice.
  by apply Forall_drop.
Qed.

Lemma tick_server_answer (agentId : string) (st : State) (handled : bool)
    (p : Polling) :
  running p = true →
  Forall (λ u, log_throws u = false) (UpdateLog.get agentId st) →
  let p' := tick (Answered (fst (monitor_updates agentId st)) true handled) p in
  running p' = true ∧ 0 ≤ missedPollCount p' ≤ 1.
Proof.
  intros Hrun Hquiet. unfold tick, ok. rewrite Hrun.
  rewrite (monitor_updates_quiet agentId st Hquiet). simpl.
  destruct handled; simpl; split; (done || lia).
Qed.

(** X22: as long as the polled logs hold no relayed object on whose
    message the debug log of the route throws, the route answers every
    poll with status 200.  A page whose requests are answered so, and that
    decodes the answers, never counts more than one missed poll in a row
    (one that threw while its updates were shown) and never stops polling
    by itself, whichever agent ids it asks for and whatever has happened
    to them on the server. *)
Theorem X22_answered_polls_never_stop_the_page
    (polls : list (string * State * bool)) :
  Forall (λ '(agentId, st, _),
            Forall (λ u, log_throws u = false) (UpdateLog.get agentId st))
    polls →
  let p' :=
    fold_left
      (λ p '(agentId, st, handled),
         tick (Answered (fst (monitor_updates agentId st)) true handled) p)
      polls start_polling in
  running p' = true ∧ 0 ≤ missedPollCount p' ≤ 1.
Proof.
  intros Hquiet.
  assert (Hany : ∀ p, running p = true → 0 ≤ missedPollCount p ≤ 1 →
            let p' :=
              fold_left
                (λ p '(agentId, st, handled),
                   tick (Answered (fst (monitor_updates agentId st)) true handled)
                     p)
                polls p in
            running p' = true ∧ 0 ≤ missedPollCount p' ≤ 1).
  { induction Hquiet as [|[[agentId st] handled] polls Hpoll _ IH];
      intros p Hrun Hcount; [done|].
    cbn [fold_left].
    destruct (tick_server_answer agentId st handled p Hrun Hpoll)
      as [Hrun' Hcount'].
    by apply IH. }
  apply Hany; [done|]. simpl. lia.
Qed.

Lemma X22_answered_polls_never_stop_the_page_witness :
  let p' :=
    fold_left
      (λ p '(agentId, st, handled),
         tick (Answered (fst (monitor_updates agentId st)) true handled) p)
      [(Examples.agent, Examples.after_stderr 2, true);
       ("agent_0_nobody", initial, false)]
      start_polling in
  running p' = true ∧ 0 ≤ missedPollCount p' ≤ 1.
Proof.
  apply (X22_answered_polls_never_stop_the_page
           [(Examples.agent, Examples.after_stderr 2, true);
            ("agent_0_nobody", initial, false)]).
  repeat constructor.
Defined.

Lemma tick_failure (outcome : Fetched) (p : Polling) :
  match outcome with
  | Threw => true
  | Answered r decoded _ => negb (ok r && decoded)
  end = true →
  tick outcome p = if running p then missed_once p else p.
Proof.
  unfold tick. destruct (running p); [|done]. simpl.
  destruct outcome as [|r decoded handled]; [done|].
  intros Hfail%negb_true_iff.
  destruct (ok r); [|done]. by destruct decoded.
Qed.

(** X23: from a reset count, polls that fail in a row (the request throws,
    the answer is not in the 200s, or its body cannot be decoded) are
    counted one by one, and polling stops at the eleventh and not before;
    polls after that change nothing. *)
Theorem X23_polling_stops_at_the_eleventh_failure (outcomes : list Fetched) :
  Forall (λ outcome,
            match outcome with
            | Threw => true
            | Answered r decoded _ => negb (ok r && decoded)
            end = true) outcomes →
  let p' := fold_left (λ p outcome, tick outcome p) outcomes start_polling in
  running p' = bool_decide (length outcomes ≤ 10)%nat
  ∧ missedPollCount p' = Z.of_nat (length outcomes `min` 11).
Proof.
  intros Hfail.
  assert (Hany : ∀ p,
            running p = bool_decide (missedPollCount p ≤ 10) →
            0 ≤ missedPollCount p ≤ 11 →
            let p' := fold_left (λ p outcome, tick outcome p) outcomes p in
            running p'
            = bool_decide (missedPollCount p + Z.of_nat (length outcomes) ≤ 10)
            ∧ missedPollCount p'
              = Z.min (missedPollCount p + Z.of_nat (length outcomes)) 11).
  { induction Hfail as [|outcome outcomes Houtcome _ IH]; intros p Hrun Hcount.
    { simpl. rewrite Z.add_0_r. split; [done|lia]. }
    cbn [fold_left length]. rewrite (tick_failure outcome p Houtcome).
    destruct (running p) eqn:Hp.
    - symmetry in Hrun. apply bool_decide_eq_true in Hrun.
      destruct (IH (missed_once p)) as [IHrun IHcount].
      + unfold missed_once. simpl.
        destruct (Z.ltb_spec 10 (missedPollCount p + 1)); simpl;
          symmetry; [apply bool_decide_eq_false|apply bool_decide_eq_true]; lia.
      + unfold missed_once. simpl. lia.
      + rewrite IHrun, IHcount. unfold missed_once. simpl.
        split; [apply bool_decide_ext|]; lia.
    - symmetry in Hrun. apply bool_decide_eq_false in Hrun.
      destruct (IH p) as [IHrun IHcount]; [by rewrite Hp; symmetry;
        apply bool_decide_eq_false|done|].
      rewrite IHrun, IHcount.
      split; [apply bool_decide_ext|]; lia. }
  destruct (Hany start_polling) as [Hrun Hcount]; [done|simpl; lia|].
  cbv zeta. rewrite Hrun, Hcount. simpl.
  split; [apply bool_decide_ext|]; lia.
Qed.

Lemma X23_polling_stops_at_the_eleventh_failure_witness :
  let lost := {| status := 502; body := FailureBody "Bad Gateway" None |} in
  let garbled := {| status := 200; body := UpdatesBody [] |} in
  let p' :=
    fold_left (λ p outcome, tick outcome p)
      (replicate 6 Threw ++ replicate 4 (Answered lost true true)
         ++ [Answered garbled false true])
      start_polling in
  running p' = false ∧ missedPollCount p' = 11.
Proof.
  intros lost garbled.
  destruct (X23_polling_stops_at_the_eleventh_failure
              (replicate 6 Threw ++ replicate 4 (Answered lost true true)
                 ++ [Answered garbled false true]))
    as [Hrun Hcount].
  - repeat constructor.
  - split; [exact Hrun|exact Hcount].
Defined.

End PollingProperties.

(** ** The page: what is shown of the console output *)

Section ColourProperties.
Import JsString OutputParser Page.

(** A text that is all white space holds no ASCII character that is not
    white space. *)
Lemma blank_without (c : ascii) (t : string) (n : nat) (s : string) :
  ws1 c = false → (code c < 128)%N →
  (String.length s ≤ n)%nat → is_blank s = true →
  includes s (String c t) = false.
Proof.
  intros Hc Hlow. revert s.
  assert (Hhead : ∀ c0 s', c0 ≠ c →
            String.prefix (String c t) (String c0 s') = false).
  { intros c0 s' Hne. cbn [String.prefix].
    destruct (ascii_dec c c0) as [->|_]; done. }
  induction n as [|n IH]; intros s Hlen Hblank.
  { destruct s; [done|simpl in Hlen; lia]. }
  destruct s as [|c0 s1]; [done|].
  unfold is_blank in Hblank. cbn [trim_start] in Hblank.
  destruct (ws1 c0) eqn:H1.
  { cbn [includes]. rewrite Hhead by congruence.
    apply IH; [simpl in Hlen; lia|done]. }
  destruct s1 as [|c1 s2]; [done|].
  destruct (ws2 c0 c1) eqn:H2.
  { apply ws2_high in H2 as [Ha Hb].
    cbn [includes]. rewrite !Hhead by (intros ->; lia).
    apply IH; [simpl in Hlen; lia|done]. }
  destruct s2 as [|c2 s3]; [done|].
  destruct (ws3 c0 c1 c2) eqn:H3; [|done].
  apply ws3_high in H3 as (Ha & Hb & Hd).
  cbn [includes]. rewrite !Hhead by (intros ->; lia).
  apply IH; [simpl in Hlen; lia|done].
Qed.

(** X24: console output that contains the word HIGH is shown in the colour
    of errors, whatever else it says. *)
Theorem X24_the_word_high_is_shown_as_error (message : string) :
  includes message "HIGH" = true → console_color message = Some error.
Proof.
  intros Hhigh.
  assert (Hblank : is_empty message || is_blank message = false).
  { destruct (is_blank message) eqn:Hb.
    - rewrite (blank_without _ _ (String.length message) message) in Hhigh;
        [done|done|by vm_compute|done|done].
    - destruct message; [done|]. done. }
  unfold console_color. rewrite Hblank.
  unfold includes_any. cbn [existsb]. rewrite Hhigh.
  by rewrite !orb_true_r.
Qed.

Lemma X24_the_word_high_is_shown_as_error_witness :
  console_color "LOW RISK: 0.12 (model confidence HIGH)" = Some error.
Proof.
  apply X24_the_word_high_is_shown_as_error. reflexivity.
Defined.

(** X25: the page leaves out a console output exactly when it is blank,
    or when it starts with two equals signs and contains none of the
    words and signs that the page looks for. *)
Theorem X25_console_output_left_out (message : string) :
  console_color message = None
  ↔ is_empty message || is_blank message = true
    ∨ (String.prefix "==" message = true
       ∧ includes_any message
           ["RISK:"; "🔴"; "HIGH"; "FILE CHANGED"; "File changed"; "📝";
            "file changed:"; "Analyzing"; "🔍"; "Waiting"; "📊"; "Error"; "❌";
            "MISMATCH"; "⚠️"] = false).
Proof.
  unfold console_color.
  change ["RISK:"; "🔴"; "HIGH"; "FILE CHANGED"; "File changed"; "📝";
          "file changed:"; "Analyzing"; "🔍"; "Waiting"; "📊"; "Error"; "❌";
          "MISMATCH"; "⚠️"]
    with (["RISK:"; "🔴"; "HIGH"]
            ++ ["FILE CHANGED"; "File changed"; "📝"; "file changed:"]
            ++ ["Analyzing"; "🔍"] ++ ["Waiting"; "📊"] ++ ["Error"; "❌"]
            ++ ["MISMATCH"; "⚠️"]).
  unfold includes_any. rewrite !existsb_app.
  destruct (is_empty message || is_blank message); [by split; [left|]|].
  destruct (existsb (includes message) ["RISK:"; "🔴"; "HIGH"]).
  { split; [|by intros [?|[_ ?]]].
    by destruct (existsb (includes message) ["HIGH"; "🔴"]),
         (existsb (includes message) ["MEDIUM"; "🟡"]). }
  destruct (existsb (includes message)
              ["FILE CHANGED"; "File changed"; "📝"; "file changed:"]);
    [by split; [|intros [?|[_ ?]]]|].
  destruct (existsb (includes message) ["Analyzing"; "🔍"]);
    [by split; [|intros [?|[_ ?]]]|].
  destruct (existsb (includes message) ["Waiting"; "📊"]);
    [by split; [|intros [?|[_ ?]]]|].
  destruct (existsb (includes message) ["Error"; "❌"]);
    [by split; [|intros [?|[_ ?]]]|].
  destruct (existsb (includes message) ["MISMATCH"; "⚠️"]);
    [by split; [|intros [?|[_ ?]]]|].
  destruct (String.prefix "==" message).
  - split; [by right|done].
  - split; [done|by intros [?|[? _]]].
Qed.

(** X26: the messages that the stdout listener relays as console output
    are lines of a chunk, which are never blank: of those the page leaves
    out only separator lines, that start with two equals signs. *)
Theorem X26_relayed_lines_are_shown (chunk line : string) :
  line ∈ lines_of chunk →
  is_empty line || is_blank line = false
  ∧ (console_color line = None → String.prefix "==" line = true).
Proof.
  intros Hin. unfold lines_of in Hin.
  apply list_elem_of_filter in Hin as [Hline _].
  assert (Hblank : is_empty line || is_blank line = false).
  { rewrite Hline. by destruct line. }
  split; [done|]. unfold console_color. rewrite Hblank.
  repeat match goal with
         | |- (if ?b then _ else _) = None → _ => destruct b; [done|]
         end.
  by destruct (String.prefix "==" line).
Qed.

Lemma X26_relayed_lines_are_shown_witness :
  is_empty "Watching for changes" || is_blank "Watching for changes" = false.
Proof.
  destruct (X26_relayed_lines_are_shown
              ("Watching for changes" +:+ String LF "=====")
              "Watching for changes") as [Hshown _].
  - vm_compute. by left.
  - exact Hshown.
Defined.

End ColourProperties.
